(** * PTS visual utilities: density cuts, temperature cuts, and the repository path

    A shallow embedding of [pts/utils/path.py], [pts/visual/plotdensitycuts.py]
    and [pts/visual/plottemperaturecuts.py].

    The plotting functions are scripts: they read probe output files, call
    matplotlib and write to the log.  They are embedded in a monad [Py] that
    records the calls made, in order, and ends normally or by an exception;
    the functions of [pts.simulation] and [pts.utils] they call are the
    fields of a [Toolkit].

    Pixel values, axis coordinates and figure sizes are rationals ([Q]), as
    every finite float is one; comparing floats and taking their maximum is
    exact on them.  The one operation of the scripts that rounds, overflows
    and underflows is the division [vmax / 10**decades]: it is not computed
    here but taken from the interpreter, as the field [true_divide] of the
    [Toolkit].  Likewise what [fig.colorbar] does to the limits of the
    normalizer object it is handed is taken from matplotlib, as the field
    [colorbar_limits]. *)

From Stdlib Require Import List String Ascii Bool Arith ZArith QArith Qminmax Qabs.
From Stdlib Require Import Qpower Lia Lqa.
Import ListNotations.

Open Scope string_scope.
Open Scope list_scope.

(* ----------------------------------------------------------------- *)
(** ** Paths, as [pathlib] sees them *)

Module Pathlib.

(** A pure POSIX path: whether it is anchored at the root, and its
    components below the anchor. *)
Record Path : Type := mkPath { anchored : bool; parts : list string }.

Definition is_absolute (p : Path) : bool := anchored p.

(** [Path.parent]: the path without its last component; a path with no
    component below its anchor is its own parent. *)
Definition parent (p : Path) : Path :=
  mkPath (anchored p) (removelast (parts p)).

(** [p / name] *)
Definition joinpath (p : Path) (name : string) : Path :=
  mkPath (anchored p) (parts p ++ [name]).

(** [Path.name]: the last component, empty when there is none. *)
Definition name (p : Path) : string := last (parts p) "".

(** [str.rfind(c)] *)
Fixpoint rfind (c : ascii) (s : string) : option nat :=
  match s with
  | EmptyString => None
  | String a rest =>
      match rfind c rest with
      | Some i => Some (S i)
      | None => if Ascii.eqb a c then Some 0%nat else None
      end
  end.

(** [Path.stem]: the name without its last suffix.  A dot in first or in
    last position does not start a suffix. *)
Definition stem (p : Path) : string :=
  let n := name p in
  match rfind "."%char n with
  | Some i =>
      if (0 <? i)%nat && (i <? String.length n - 1)%nat
      then String.substring 0 i n
      else n
  | None => n
  end.

End Pathlib.

Import Pathlib.

(* ----------------------------------------------------------------- *)
(** ** [pts.utils.path] *)

Section PathModule.

(** What [inspect.getfile(inspect.currentframe())] yields inside [pts()],
    as a [pathlib.Path]: the file of the module that defines [pts]. *)
Variable module_file : Path.

Definition pts : Path := parent (parent module_file).

End PathModule.

(** The module [pts.utils.path] of a repository whose top-level directory
    is [repo] lives in [repo/utils/path.py]. *)
Definition path_module_of (repo : Path) : Path :=
  joinpath (joinpath repo "utils") "path.py".

(* ----------------------------------------------------------------- *)
(** ** Python strings and sequences *)

(** Exceptions that can reach the plotting functions.  [IndexError] and
    [ValueError] are the ones Python and numpy raise on an empty sequence;
    [OverflowError] is the one Python raises on an integer too large to
    divide a float by; [LibraryError] stands for whatever astropy,
    matplotlib or the operating system raise. *)
Inductive exn : Type :=
| IndexError (msg : string)
| ValueError (msg : string)
| OverflowError (msg : string)
| LibraryError (msg : string).

(** [x in (s1, s2, ...)] *)
Definition str_in (x : string) (l : list string) : bool :=
  existsb (String.eqb x) l.

(** [needle in hay], on strings *)
Fixpoint contains (needle hay : string) : bool :=
  if String.prefix needle hay then true
  else match hay with
       | EmptyString => false
       | String _ rest => contains needle rest
       end.

(** [s.split(sep)]: never empty. *)
Fixpoint split (sep : ascii) (s : string) : list string :=
  match s with
  | EmptyString => [EmptyString]
  | String c rest =>
      if Ascii.eqb c sep then EmptyString :: split sep rest
      else match split sep rest with
           | h :: t => String c h :: t
           | [] => [String c EmptyString]
           end
  end.

(** [l[0]] and [l[-1]] *)
Definition item_first {A : Type} (l : list A) : exn + A :=
  match l with
  | [] => inl (IndexError "index out of range")
  | x :: _ => inr x
  end.

Definition item_last {A : Type} (l : list A) : exn + A :=
  match rev l with
  | [] => inl (IndexError "index out of range")
  | x :: _ => inr x
  end.

(** [s[0]] and [s[-1]], one-character strings *)
Definition char_first (s : string) : exn + string :=
  match s with
  | EmptyString => inl (IndexError "string index out of range")
  | String c _ => inr (String c EmptyString)
  end.

Fixpoint char_last (s : string) : exn + string :=
  match s with
  | EmptyString => inl (IndexError "string index out of range")
  | String c EmptyString => inr (String c EmptyString)
  | String _ rest => char_last rest
  end.

(** The builtin [max(a, b)]: the second argument only when it is larger. *)
Definition py_max (a b : Q) : Q := if Qle_bool b a then a else b.

(** The builtin [max(list)] *)
Definition max_list (l : list Q) : exn + Q :=
  match l with
  | [] => inl (ValueError "max() arg is an empty sequence")
  | x :: rest => inr (fold_left py_max rest x)
  end.

(* ----------------------------------------------------------------- *)
(** ** Quantity arrays *)

(** A two-dimensional array of values with its physical unit, as
    [sm.loadFits] returns it. *)
Record Frame : Type := mkFrame { fvalue : list (list Q); funit : string }.

(** An axis grid with its unit, as [sm.getFitsAxes] returns a pair of. *)
Record Grid : Type := mkGrid { gvalue : list Q; gunit : string }.

(** [frame.max()]: the maximum over all pixels; numpy refuses an array
    without pixels. *)
Definition frame_max (f : Frame) : exn + Q :=
  match List.concat (fvalue f) with
  | [] => inl (ValueError "zero-size array to reduction operation maximum")
  | x :: rest => inr (fold_left py_max rest x)
  end.

(** [frame[ frame<vmin ] = vmin] *)
Definition clip_below (vmin : Q) (f : Frame) : Frame :=
  mkFrame (map (map (fun v => if Qle_bool vmin v then v else vmin)) (fvalue f))
          (funit f).

(** [array.T] *)
Definition transpose (rows : list (list Q)) : list (list Q) :=
  map (fun j => map (fun row => nth j row 0%Q) rows)
      (seq 0 (List.length (hd [] rows))).

(* ----------------------------------------------------------------- *)
(** ** The calls made to matplotlib and to the log *)

Inductive Norm : Type :=
| LogNorm (vmin vmax : Q)
| Normalize (vmin vmax : Q).

(** A normalizer is an object: its limits [vmin] and [vmax] are attributes
    that can be assigned, its class is not. *)
Definition norm_limits (n : Norm) : Q * Q :=
  match n with LogNorm vmin vmax | Normalize vmin vmax => (vmin, vmax) end.

Definition with_limits (n : Norm) (l : Q * Q) : Norm :=
  match n with
  | LogNorm _ _ => LogNorm (fst l) (snd l)
  | Normalize _ _ => Normalize (fst l) (snd l)
  end.

(** How an image maps values to colours: through a normalizer object
    ([norm=]) or through plain limits ([vmin=], [vmax=]). *)
Inductive Scaling : Type :=
| WithNorm (n : Norm)
| WithLimits (vmin vmax : Q).

Inductive event : Type :=
| Subplots (ncols : nat) (figsize : Q * Q)
| Imshow (ax : nat) (data : list (list Q)) (scaling : Scaling)
         (extent : Q * Q * Q * Q)
| Colorbar (label : string)
| SetXlim (ax : nat) (lo hi : Q)
| SetYlim (ax : nat) (lo hi : Q)
| SetXlabel (ax : nat) (label : string)
| SetYlabel (ax : nat) (label : string)
| Savefig (path : Path)
| Close
| LogInfo (msg : string).

(* ----------------------------------------------------------------- *)
(** ** The monad of the scripts

    A computation ends normally or by an exception, and in both cases has
    made a sequence of calls to matplotlib and the log. *)

Inductive outcome (A : Type) : Type :=
| Done (a : A)
| Raised (e : exn).
Arguments Done {A} a.
Arguments Raised {A} e.

Definition Py (A : Type) : Type := (outcome A * list event)%type.

Definition ret {A : Type} (a : A) : Py A := (Done a, []).

Definition raise {A : Type} (e : exn) : Py A := (Raised e, []).

Definition bind {A B : Type} (m : Py A) (k : A -> Py B) : Py B :=
  match m with
  | (Done a, t) => let (r, t') := k a in (r, t ++ t')
  | (Raised e, t) => (Raised e, t)
  end.

(** A call that yields a value or raises, without touching a figure. *)
Definition call {A : Type} (r : exn + A) : Py A :=
  match r with
  | inl e => raise e
  | inr a => ret a
  end.

(** A call to matplotlib or to the log. *)
Definition emit (ev : event) : Py unit := (Done tt, [ev]).

Declare Scope py_scope.
Delimit Scope py_scope with py.
Notation "x <- m ;; k" := (bind m (fun x => k))
  (at level 100, m at next level, right associativity) : py_scope.
Notation "m ;; k" := (bind m (fun _ => k))
  (at level 100, right associativity) : py_scope.
Open Scope py_scope.

(** [for x in l: body(x)] *)
Fixpoint for_each {A : Type} (l : list A) (body : A -> Py unit) : Py unit :=
  match l with
  | [] => ret tt
  | x :: rest => body x ;; for_each rest body
  end.

(** [[ f(x) for x in l ]] *)
Fixpoint comprehension {A B : Type} (f : A -> Py B) (l : list A) : Py (list B) :=
  match l with
  | [] => ret []
  | x :: rest => y <- f x ;; ys <- comprehension f rest ;; ret (y :: ys)
  end.

(** The trace of calls and the files written by a run. *)
Definition trace {A : Type} (m : Py A) : list event := snd m.

Definition is_savefig (ev : event) : bool :=
  match ev with Savefig _ => true | _ => false end.

Definition is_close (ev : event) : bool :=
  match ev with Close => true | _ => false end.

Definition files_written {A : Type} (m : Py A) : list Path :=
  flat_map (fun ev => match ev with Savefig p => [p] | _ => [] end) (trace m).

Definition figures_created {A : Type} (m : Py A) : list (nat * (Q * Q)) :=
  flat_map (fun ev => match ev with Subplots n sz => [(n, sz)] | _ => [] end)
           (trace m).

(* ----------------------------------------------------------------- *)
(** ** Simulations and probes *)

Record Probe : Type := mkProbe {
  probe_type : string;                     (* probe.type() *)
  probe_name : string;                     (* probe.name() *)
  outFilePaths : string -> list Path       (* probe.outFilePaths(pattern) *)
}.

Record Simulation : Type := mkSimulation {
  probes : list Probe;                     (* simulation.probes() *)
  outFilePath : string -> Path             (* simulation.outFilePath(name) *)
}.

(** The functions of [pts.simulation] and [pts.utils] the scripts call, the
    write that [plt.savefig] performs, and what the interpreter and
    matplotlib do behind two lines of [plotMediaDensityCuts]. *)
Record Toolkit : Type := mkToolkit {
  (* sm.loadFits(path) *)
  loadFits : Path -> exn + Frame;
  (* sm.getFitsAxes(path) *)
  getFitsAxes : Path -> exn + (Grid * Grid);
  (* sm.latexForUnit(unit) *)
  latexForUnit : string -> string;
  (* ut.interactive(interactive) *)
  interactive_mode : option bool -> bool;
  (* ut.savePath(defFilePath, suffixes, outDirPath=, outFileName=, outFilePath=) *)
  savePath : Path -> list string ->
             option string -> option string -> option string -> exn + Path;
  (* the error, if any, of writing the current figure to a path *)
  savefig_error : Path -> option exn;
  (* vmax / 10**decades, as the interpreter divides: the quotient, rounded
     to a float, or the error of a divisor that no float can hold *)
  true_divide : Q -> Z -> exn + Q;
  (* the limits that fig.colorbar(im, ...) leaves in the normalizer of im *)
  colorbar_limits : Norm -> Q * Q
}.

(** [plt.savefig(path, ...)] *)
Definition savefig (tk : Toolkit) (path : Path) : Py unit :=
  match savefig_error tk path with
  | Some e => raise e
  | None => emit (Savefig path)
  end.

(** [str(path)] *)
Definition path_str (p : Path) : string :=
  match anchored p, parts p with
  | false, [] => "."
  | root, parts => ((if root then "/" else "") ++ String.concat "/" parts)%string
  end.

(* ----------------------------------------------------------------- *)
(** ** [pts.visual.plotdensitycuts] *)

Section DensityCuts.

Variable tk : Toolkit.
Variable simulation : Simulation.
Variable decades : Z.
Variable outDirPath : option string.
Variable figSize : Q * Q.
Variable interactive : option bool.

Definition density_probe_types : list string :=
  ["DefaultMediaDensityCutsProbe"; "PlanarMediaDensityCutsProbe"].

Definition density_media : list string := ["dust"; "elec"; "gas"].

Definition density_cuts : list string := ["xy"; "xz"; "yz"].

(** The defaults of the signature: [decades=5] and [figSize=(18, 6)]. *)
Definition default_decades : Z := 5.

Definition default_figSize : Q * Q := (18, 6).

(** The body of the innermost loop: one medium and one cut of one probe. *)
Definition plotMediaDensityCut (probe : Probe) (medium cut : string) : Py unit :=
  let tPaths := outFilePaths probe (medium ++ "_t_" ++ cut ++ ".fits")%string in
  let gPaths := outFilePaths probe (medium ++ "_g_" ++ cut ++ ".fits")%string in
  if (List.length tPaths =? 1)%nat && (List.length gPaths =? 1)%nat then
    tPath <- call (item_first tPaths) ;;
    tFrame <- call (loadFits tk tPath) ;;
    gPath <- call (item_first gPaths) ;;
    gFrame <- call (loadFits tk gPath) ;;
    (* the range of the x and y axes *)
    grids <- call (getFitsAxes tk tPath) ;;
    let (xgrid, ygrid) := grids in
    (* the range of density values, and the clipped data arrays *)
    tmax <- call (frame_max tFrame) ;;
    gmax <- call (frame_max gFrame) ;;
    let vmax := py_max tmax gmax in
    vmin <- call (true_divide tk vmax decades) ;;
    let tFrame := clip_below vmin tFrame in
    let gFrame := clip_below vmin gFrame in
    (* the figure; ax1 is axes 0, ax2 is axes 1 *)
    emit (Subplots 2 figSize) ;;
    let normalizer :=
      if negb (Qle_bool vmax 0) then LogNorm vmin vmax
      else Normalize vmin vmax in
    x0 <- call (item_first (gvalue xgrid)) ;;
    x1 <- call (item_last (gvalue xgrid)) ;;
    y0 <- call (item_first (gvalue ygrid)) ;;
    y1 <- call (item_last (gvalue ygrid)) ;;
    let extent := (x0, x1, y0, y1) in
    emit (Imshow 0 (transpose (fvalue tFrame)) (WithNorm normalizer) extent) ;;
    emit (Colorbar ("density" ++ latexForUnit tk (funit tFrame))%string) ;;
    (* the same normalizer object, with the limits the colour bar left in it *)
    let normalizer := with_limits normalizer (colorbar_limits tk normalizer) in
    emit (Imshow 1 (transpose (fvalue gFrame)) (WithNorm normalizer) extent) ;;
    (* axis details *)
    emit (SetXlim 0 x0 x1) ;;
    emit (SetYlim 0 y0 y1) ;;
    emit (SetXlim 1 x0 x1) ;;
    emit (SetYlim 1 y0 y1) ;;
    c0 <- call (char_first cut) ;;
    emit (SetXlabel 0 (c0 ++ latexForUnit tk (gunit xgrid))%string) ;;
    c1 <- call (char_last cut) ;;
    emit (SetYlabel 0 (c1 ++ latexForUnit tk (gunit ygrid))%string) ;;
    emit (SetXlabel 1 (c0 ++ latexForUnit tk (gunit xgrid))%string) ;;
    emit (SetYlabel 1 (c1 ++ latexForUnit tk (gunit ygrid))%string) ;;
    (* if not in interactive mode, save the figure; otherwise leave it open *)
    if negb (interactive_mode tk interactive) then
      let defSavePath :=
        outFilePath simulation
          (probe_name probe ++ "_" ++ medium ++ "_" ++ cut ++ ".pdf")%string in
      saveFilePath <- call (savePath tk defSavePath [".pdf"; ".png"]
                                     outDirPath None None) ;;
      savefig tk saveFilePath ;;
      emit Close ;;
      emit (LogInfo ("Created " ++ path_str saveFilePath)%string)
    else ret tt
  else ret tt.

Definition plotMediaDensityCuts : Py unit :=
  let probes :=
    filter (fun probe => str_in (probe_type probe) density_probe_types)
           (probes simulation) in
  for_each probes (fun probe =>
    for_each density_media (fun medium =>
      for_each density_cuts (fun cut =>
        plotMediaDensityCut probe medium cut))).

End DensityCuts.

(* ----------------------------------------------------------------- *)
(** ** [pts.visual.plottemperaturecuts] *)

(** How one pass through the body of the probe loop ends: at its end, with
    the value the local [figSize] then has, or by [return]. *)
Inductive flow : Type :=
| Next (figSize : option (Q * Q))
| Return.

Section TemperatureCuts.

Variable tk : Toolkit.
Variable simulation : Simulation.
Variables outDirPath outFileName outFilePath_ : option string.
Variable interactive : option bool.

Definition probetypes : list string :=
  flat_map (fun style =>
              map (fun medium => (style ++ medium ++ "TemperatureCutsProbe")%string)
                  ["Dust"; "Gas"; "Electron"])
           ["Default"; "Planar"].

(** The medium indicator of a probe, from its type. *)
Definition probe_medium (probe : Probe) : string :=
  let medium := "dust" in
  let medium := if contains "Gas" (probe_type probe) then "gas" else medium in
  let medium := if contains "Electron" (probe_type probe) then "elec" else medium in
  medium.

(** [numcuts in (1,2,3)] *)
Definition valid_numcuts (numcuts : nat) : bool :=
  existsb (Nat.eqb numcuts) [1; 2; 3]%nat.

(** The body of the loop over the cuts of one figure. *)
Definition plotTemperaturePanel (Tmax : Q)
           (item : nat * (string * (Frame * (Grid * Grid)))) : Py unit :=
  let '(ax, (cut, (frame, (xgrid, ygrid)))) := item in
  x0 <- call (item_first (gvalue xgrid)) ;;
  x1 <- call (item_last (gvalue xgrid)) ;;
  y0 <- call (item_first (gvalue ygrid)) ;;
  y1 <- call (item_last (gvalue ygrid)) ;;
  let extent := (x0, x1, y0, y1) in
  emit (Imshow ax (transpose (fvalue frame)) (WithLimits 0 Tmax) extent) ;;
  emit (SetXlim ax x0 x1) ;;
  emit (SetYlim ax y0 y1) ;;
  c0 <- call (char_first cut) ;;
  emit (SetXlabel ax (c0 ++ latexForUnit tk (gunit xgrid))%string) ;;
  c1 <- call (char_last cut) ;;
  emit (SetYlabel ax (c1 ++ latexForUnit tk (gunit ygrid))%string) ;;
  emit (SetYlabel ax (c1 ++ latexForUnit tk (gunit ygrid))%string).

(** The body of the loop over the probes, entered with the current value
    of the local [figSize]. *)
Definition plotTemperatureProbe (figSize : option (Q * Q)) (probe : Probe)
  : Py flow :=
  let medium := probe_medium probe in
  (* the temperature cuts and the range of the x and y axes *)
  let paths := outFilePaths probe (medium ++ "_T_*.fits")%string in
  let numcuts := List.length paths in
  if negb (valid_numcuts numcuts) then ret Return
  else
    let cuts := map (fun path => last (split "_"%char (stem path)) "") paths in
    frames <- comprehension (fun path => call (loadFits tk path)) paths ;;
    grids <- comprehension (fun path => call (getFitsAxes tk path)) paths ;;
    (* the maximum temperature value to display *)
    maxima <- comprehension (fun frame => call (frame_max frame)) frames ;;
    Tmax <- call (max_list maxima) ;;
    (* the figure, depending on the number of cuts *)
    let figSize :=
      match figSize with
      | None => (inject_Z (8 * Z.of_nat numcuts), 6)
      | Some size => size
      end in
    emit (Subplots numcuts figSize) ;;
    (* the cuts and the axis details for each *)
    for_each (combine (seq 0 numcuts) (combine cuts (combine frames grids)))
             (plotTemperaturePanel Tmax) ;;
    (* the color bar, labelled with the unit of the last frame plotted *)
    frame <- call (item_last frames) ;;
    emit (Colorbar ("T" ++ latexForUnit tk (funit frame))%string) ;;
    (* if not in interactive mode, save the figure; otherwise leave it open *)
    (if negb (interactive_mode tk interactive) then
       let defSavePath :=
         outFilePath simulation
           (probe_name probe ++ "_" ++ medium ++ "_T.pdf")%string in
       saveFilePath <- call (savePath tk defSavePath [".pdf"; ".png"]
                                      outDirPath outFileName outFilePath_) ;;
       savefig tk saveFilePath ;;
       emit Close ;;
       emit (LogInfo ("Created " ++ path_str saveFilePath)%string)
     else ret tt) ;;
    ret (Next (Some figSize)).

(** [for probe in probes: ...], where the body may [return]. *)
Fixpoint temperature_loop (probes : list Probe) (figSize : option (Q * Q))
  : Py unit :=
  match probes with
  | [] => ret tt
  | probe :: rest =>
      r <- plotTemperatureProbe figSize probe ;;
      match r with
      | Return => ret tt
      | Next figSize' => temperature_loop rest figSize'
      end
  end.

Definition plotTemperatureCuts (figSize : option (Q * Q)) : Py unit :=
  let probes :=
    filter (fun probe => str_in (probe_type probe) probetypes)
           (probes simulation) in
  temperature_loop probes figSize.

End TemperatureCuts.

(* ----------------------------------------------------------------- *)
(** ** A small simulation to run the scripts on *)

Module Demo.

Definition out_dir : Path := mkPath true ["data"; "out"].

(** The file [name] of the simulation with prefix [sim]. *)
Definition out_file (name : string) : Path :=
  joinpath out_dir ("sim_" ++ name)%string.

(** A probe whose output files are listed by pattern. *)
Definition probe_of (type name : string) (files : list (string * list Path))
  : Probe :=
  mkProbe type name
    (fun pattern =>
       match find (fun entry => String.eqb (fst entry) pattern) files with
       | Some entry => snd entry
       | None => []
       end).

Definition density_frame : Frame := mkFrame [[1; 2]; [3; 4]] "Msun/pc3".
Definition gridded_frame : Frame := mkFrame [[0; 2]; [5; 4]] "Msun/pc3".
Definition dark_frame : Frame := mkFrame [[0; 0]; [0; 0]] "Msun/pc3".
Definition warm_frame : Frame := mkFrame [[10; 20]; [30; 40]] "K".
Definition axis : Grid := mkGrid [-1; 0; 1] "pc".

(** The division, exact up to the largest power of ten that is a float,
    and refused beyond it. *)
Definition divide (vmax : Q) (decades : Z) : exn + Q :=
  if (308 <? decades)%Z
  then inl (OverflowError "int too large to convert to float")
  else inr (vmax / 10 ^ decades).

(** The limits a colour bar leaves in a normalizer: limits in the wrong
    order are swapped, limits that coincide are moved apart, by a tenth of
    their size or, at zero, to a tenth on either side, and limits that span
    an interval are left as they are. *)
Definition relimit (n : Norm) : Q * Q :=
  let (lo, hi) := norm_limits n in
  let (lo, hi) := if Qle_bool lo hi then (lo, hi) else (hi, lo) in
  if Qeq_bool lo hi then
    if Qeq_bool lo 0 then (- (1 # 10), 1 # 10)
    else (lo - (1 # 10) * Qabs lo, hi + (1 # 10) * Qabs hi)
  else (lo, hi).

(** Every file holds [density_frame], except the files of the probes [bad]
    (unreadable) and [nil] (all zero), the gridded cuts and the temperature
    cuts. *)
Definition toolkit (is_interactive : bool) : Toolkit :=
  mkToolkit
    (fun path =>
       if contains "bad_" (name path) then inl (LibraryError "not a FITS file")
       else if contains "nil_" (name path) then inr dark_frame
       else if contains "_g_" (name path) then inr gridded_frame
       else if contains "_T_" (name path) then inr warm_frame
       else inr density_frame)
    (fun _ => inr (axis, axis))
    (fun u => (" [" ++ u ++ "]")%string)
    (fun flag => match flag with Some b => b | None => is_interactive end)
    (fun def _ _ _ _ => inr def)
    (fun _ => None)
    divide
    relimit.

(** A density probe with both dust cuts in the xy plane, and only the
    theoretical one in the xz plane. *)
Definition dns : Probe :=
  probe_of "DefaultMediaDensityCutsProbe" "dns"
    [("dust_t_xy.fits", [out_file "dns_dust_t_xy.fits"]);
     ("dust_g_xy.fits", [out_file "dns_dust_g_xy.fits"]);
     ("dust_t_xz.fits", [out_file "dns_dust_t_xz.fits"])].

(** A density probe of an empty medium. *)
Definition nil_probe : Probe :=
  probe_of "PlanarMediaDensityCutsProbe" "nil"
    [("gas_t_yz.fits", [out_file "nil_gas_t_yz.fits"]);
     ("gas_g_yz.fits", [out_file "nil_gas_g_yz.fits"])].

(** A density probe whose files cannot be read. *)
Definition bad : Probe :=
  probe_of "DefaultMediaDensityCutsProbe" "bad"
    [("dust_t_xy.fits", [out_file "bad_dust_t_xy.fits"]);
     ("dust_g_xy.fits", [out_file "bad_dust_g_xy.fits"])].

(** Temperature probes with one cut, with no cut, and with two cuts. *)
Definition tmp : Probe :=
  probe_of "DefaultDustTemperatureCutsProbe" "tmp"
    [("dust_T_*.fits", [out_file "tmp_dust_T_xy.fits"])].

Definition gone : Probe :=
  probe_of "PlanarGasTemperatureCutsProbe" "gone" [].

Definition two : Probe :=
  probe_of "DefaultElectronTemperatureCutsProbe" "two"
    [("elec_T_*.fits", [out_file "two_elec_T_xy.fits";
                         out_file "two_elec_T_xz.fits"])].

(** A temperature probe whose file cannot be read. *)
Definition bad_tmp : Probe :=
  probe_of "PlanarDustTemperatureCutsProbe" "bad"
    [("dust_T_*.fits", [out_file "bad_dust_T_xy.fits"])].

(** A probe of another kind. *)
Definition sed : Probe := probe_of "SEDInstrument" "sed" [].

Definition simulation_of (probes : list Probe) : Simulation :=
  mkSimulation probes out_file.

End Demo.

(* ----------------------------------------------------------------- *)
(** ** Vocabulary of the properties *)

(** Every call made to matplotlib or the log satisfies [P]. *)
Definition emits {A : Type} (P : event -> Prop) (m : Py A) : Prop :=
  Forall P (trace m).

(** A call that neither writes a file nor closes a figure. *)
Definition keeps_open (ev : event) : Prop :=
  is_savefig ev = false /\ is_close ev = false.

(** The size [(8*numcuts, 6)] that the number of temperature cuts of a probe
    gives a figure. *)
Definition size_for_cuts_of (probe : Probe) : Q * Q :=
  (inject_Z (8 * Z.of_nat
     (List.length (outFilePaths probe (probe_medium probe ++ "_T_*.fits")%string))),
   6).

(** A call that, if it creates a figure, gives it the size [size]. *)
Definition sized (size : Q * Q) (ev : event) : Prop :=
  forall ncols figsize, ev = Subplots ncols figsize -> figsize = size.

(** A computation that, if it ends normally, yields [a]. *)
Definition yields {A : Type} (a : A) (m : Py A) : Prop :=
  forall a', fst m = Done a' -> a' = a.

(** All the values of a frame. *)
Definition pixels (f : Frame) : list Q := List.concat (fvalue f).

(** [m] is the largest of the values [l]. *)
Definition is_maximum (m : Q) (l : list Q) : Prop :=
  In m l /\ forall v, In v l -> v <= m.

(** The theoretical and the gridded frame that [plotMediaDensityCuts] loads
    for a medium and a cut of a probe: each file found exactly once, and
    read without error. *)
Definition loaded_pair (tk : Toolkit) (probe : Probe) (medium cut : string)
           (tFrame gFrame : Frame) : Prop :=
  exists tPath gPath,
    outFilePaths probe (medium ++ "_t_" ++ cut ++ ".fits")%string = [tPath] /\
    outFilePaths probe (medium ++ "_g_" ++ cut ++ ".fits")%string = [gPath] /\
    loadFits tk tPath = inr tFrame /\
    loadFits tk gPath = inr gFrame.

(** What the body of the density loop computes for an image it draws: the
    maximum over the two frames loaded for the cut, the floor that the
    interpreter gives for [vmax / 10**decades], the frame with the values
    below the floor raised to it, and the normalizer, as it is made for the
    first image and as the colour bar left it for the second. *)
Definition density_image (tk : Toolkit) (decades : Z) (probe : Probe)
           (medium cut : string) (ev : event) : Prop :=
  forall ax data scaling extent,
    ev = Imshow ax data scaling extent ->
    exists tFrame gFrame tmax gmax vmin,
      loaded_pair tk probe medium cut tFrame gFrame /\
      frame_max tFrame = inr tmax /\
      frame_max gFrame = inr gmax /\
      true_divide tk (py_max tmax gmax) decades = inr vmin /\
      let normalizer :=
        if negb (Qle_bool (py_max tmax gmax) 0)
        then LogNorm vmin (py_max tmax gmax)
        else Normalize vmin (py_max tmax gmax) in
      ((ax = 0%nat /\
        data = transpose (fvalue (clip_below vmin tFrame)) /\
        scaling = WithNorm normalizer) \/
       (ax = 1%nat /\
        data = transpose (fvalue (clip_below vmin gFrame)) /\
        scaling = WithNorm (with_limits normalizer
                                        (colorbar_limits tk normalizer)))).

(** C3 for one image.  The image is one of the two frames loaded for a
    probe, medium and cut, with [vmin] as its floor; [vmin] is what the
    interpreter gives for [vmax / 10**decades], where [vmax] is the maximum
    over both frames; and the normalizer is made with the limits [vmin] and
    [vmax].  The first image is drawn with the normalizer as made, the
    second with the same normalizer as the colour bar left it. *)
Definition floor_is_max_over_decades (tk : Toolkit) (simulation : Simulation)
           (decades : Z) (ev : event) : Prop :=
  forall ax data scaling extent,
    ev = Imshow ax data scaling extent ->
    exists probe medium cut tFrame gFrame vmax vmin normalizer,
      In probe (probes simulation) /\
      loaded_pair tk probe medium cut tFrame gFrame /\
      is_maximum vmax (pixels tFrame ++ pixels gFrame) /\
      true_divide tk vmax decades = inr vmin /\
      norm_limits normalizer = (vmin, vmax) /\
      ((ax = 0%nat /\
        data = transpose (fvalue (clip_below vmin tFrame)) /\
        scaling = WithNorm normalizer) \/
       (ax = 1%nat /\
        data = transpose (fvalue (clip_below vmin gFrame)) /\
        scaling = WithNorm (with_limits normalizer
                                        (colorbar_limits tk normalizer)))).

(** C4 for one image: its normalizer is a [LogNorm] when the maximum over
    the two frames is positive, and a [Normalize] when it is not. *)
Definition scale_follows_sign (tk : Toolkit) (simulation : Simulation)
           (ev : event) : Prop :=
  forall ax data scaling extent,
    ev = Imshow ax data scaling extent ->
    exists probe medium cut tFrame gFrame vmax,
      In probe (probes simulation) /\
      loaded_pair tk probe medium cut tFrame gFrame /\
      is_maximum vmax (pixels tFrame ++ pixels gFrame) /\
      ((0 < vmax /\ exists lo hi, scaling = WithNorm (LogNorm lo hi)) \/
       (vmax <= 0 /\ exists lo hi, scaling = WithNorm (Normalize lo hi))).

(** The file name [{probeName}_{medium}_{cut}.{ext}]. *)
Definition convention_name (probeName medium cut ext : string) : string :=
  (probeName ++ "_" ++ medium ++ "_" ++ cut ++ "." ++ ext)%string.

(** The file name [{probeName}_{medium}_T.{ext}]. *)
Definition temperature_name (probeName medium ext : string) : string :=
  (probeName ++ "_" ++ medium ++ "_T." ++ ext)%string.

(** The passes through the body of the innermost loop of
    [plotMediaDensityCuts], in the order they are made: the probes of its
    types, for each the three media, for each the three cuts. *)
Definition density_passes (simulation : Simulation)
  : list (Probe * string * string) :=
  flat_map (fun probe =>
              flat_map (fun medium =>
                          map (fun cut => (probe, medium, cut)) density_cuts)
                       density_media)
           (filter (fun probe => str_in (probe_type probe) density_probe_types)
                   (probes simulation)).

(** A file, if the call writes one, goes to the path that [ut.savePath]
    derives from the default path [defSavePath]. *)
Definition saved_as (tk : Toolkit) (defSavePath : Path)
           (outDirPath outFileName outFilePath_ : option string) (ev : event)
  : Prop :=
  forall path,
    ev = Savefig path ->
    savePath tk defSavePath [".pdf"; ".png"] outDirPath outFileName outFilePath_
    = inr path.

(** An image, if the call draws one, is a panel of the figure of [probe]:
    the axes [ax] shows the frame loaded from the file of the probe at the
    index [ax], with colours from zero to the maximum over the frames of
    all the files of the probe. *)
Definition panel_of (tk : Toolkit) (probe : Probe) (ev : event) : Prop :=
  forall ax data scaling extent,
    ev = Imshow ax data scaling extent ->
    exists frames Tmax path frame,
      Forall2 (fun path frame => loadFits tk path = inr frame)
              (outFilePaths probe (probe_medium probe ++ "_T_*.fits")%string)
              frames /\
      is_maximum Tmax (flat_map pixels frames) /\
      scaling = WithLimits 0 Tmax /\
      nth_error (outFilePaths probe (probe_medium probe ++ "_T_*.fits")%string) ax
      = Some path /\
      loadFits tk path = inr frame /\
      data = transpose (fvalue frame).

(** A file saved by [plotTemperatureCuts] is the one [ut.savePath] derives
    from the simulation's output path for [{probeName}_{medium}_T.pdf], for
    one of the probes of the simulation. *)
Definition temperature_file_named (tk : Toolkit) (simulation : Simulation)
           (outDirPath outFileName outFilePath_ : option string) (ev : event)
  : Prop :=
  exists probe,
    In probe (probes simulation) /\
    saved_as tk
      (outFilePath simulation
         (temperature_name (probe_name probe) (probe_medium probe) "pdf"))
      outDirPath outFileName outFilePath_ ev.

(** A file saved by [plotMediaDensityCuts] is the one [ut.savePath] derives
    from the simulation's output path for [{probeName}_{medium}_{cut}.pdf],
    for one of the passes of the function. *)
Definition density_file_named (tk : Toolkit) (simulation : Simulation)
           (outDirPath : option string) (ev : event) : Prop :=
  exists probe medium cut,
    In (probe, medium, cut) (density_passes simulation) /\
    saved_as tk
      (outFilePath simulation (convention_name (probe_name probe) medium cut "pdf"))
      outDirPath None None ev.

(** Where an exception of the scripts comes from: a call to [pts.simulation]
    or [pts.utils], the write of [plt.savefig], the division, or Python and
    numpy refusing an empty sequence. *)
Definition raised_below (tk : Toolkit) (e : exn) : Prop :=
  (exists path, loadFits tk path = inl e) \/
  (exists path, getFitsAxes tk path = inl e) \/
  (exists def suffixes dir name path,
      savePath tk def suffixes dir name path = inl e) \/
  (exists path, savefig_error tk path = Some e) \/
  (exists vmax decades, true_divide tk vmax decades = inl e) \/
  (exists msg, e = IndexError msg) \/
  (exists msg, e = ValueError msg).

(** A computation whose exception, if it ends by one, satisfies [R]. *)
Definition raises_only {A : Type} (R : exn -> Prop) (m : Py A) : Prop :=
  forall e, fst m = Raised e -> R e.

(** [tk'] is [tk] on a worse day: the same toolkit, but for calls, any
    number of them, that fail with the exception [e0] instead. *)
Definition fails_more (e0 : exn) (tk' tk : Toolkit) : Prop :=
  (forall path,
      loadFits tk' path = loadFits tk path \/ loadFits tk' path = inl e0) /\
  (forall path,
      getFitsAxes tk' path = getFitsAxes tk path \/ getFitsAxes tk' path = inl e0) /\
  latexForUnit tk' = latexForUnit tk /\
  interactive_mode tk' = interactive_mode tk /\
  (forall def suffixes dir name path,
      savePath tk' def suffixes dir name path = savePath tk def suffixes dir name path \/
      savePath tk' def suffixes dir name path = inl e0) /\
  (forall path,
      savefig_error tk' path = savefig_error tk path \/
      savefig_error tk' path = Some e0) /\
  (forall vmax decades,
      true_divide tk' vmax decades = true_divide tk vmax decades \/
      true_divide tk' vmax decades = inl e0) /\
  colorbar_limits tk' = colorbar_limits tk.

(** [m'] is [m] cut short by [e0]: the same run, or a run that has made the
    first calls of [m], in the same order, and then ended by [e0]. *)
Definition cut_short_by {A : Type} (e0 : exn) (m' m : Py A) : Prop :=
  m' = m \/
  exists t rest, m' = (Raised e0, t) /\ trace m = t ++ rest.

(** The same toolkit over a disk whose writes fail as [err] says. *)
Definition with_savefig_error (tk : Toolkit) (err : Path -> option exn) : Toolkit :=
  mkToolkit (loadFits tk) (getFitsAxes tk) (latexForUnit tk)
            (interactive_mode tk) (savePath tk) err
            (true_divide tk) (colorbar_limits tk).

(** The same toolkit over files that cannot be read where [unreadable] says
    so: loading them fails with [e0]. *)
Definition with_unreadable (tk : Toolkit) (unreadable : Path -> bool) (e0 : exn)
  : Toolkit :=
  mkToolkit (fun path => if unreadable path then inl e0 else loadFits tk path)
            (getFitsAxes tk) (latexForUnit tk)
            (interactive_mode tk) (savePath tk) (savefig_error tk)
            (true_divide tk) (colorbar_limits tk).

(** The calls of a trace up to the first write that fails, and its error. *)
Fixpoint until_failed_write (err : Path -> option exn) (t : list event)
  : list event * option exn :=
  match t with
  | [] => ([], None)
  | ev :: rest =>
      match (match ev with Savefig path => err path | _ => None end) with
      | Some e => ([], Some e)
      | None => let (t', r) := until_failed_write err rest in (ev :: t', r)
      end
  end.

(** A run on a disk that takes every write, cut at the first write that
    fails under [err] and ended by the exception of that write. *)
Definition stop_at_failed_write {A : Type} (err : Path -> option exn) (m : Py A)
  : Py A :=
  match until_failed_write err (snd m) with
  | (t, Some e) => (Raised e, t)
  | (t, None) => (fst m, t)
  end.

(** The theoretical and the gridded file of a medium and a cut of a probe
    are there, once each, and hold the frames [tFrame] and [gFrame] and two
    axis grids, none of them empty; and the interpreter can divide their
    maximum by [10**decades], to a floor that under a positive maximum is
    positive and not above it, as a logarithmic normalizer needs it. *)
Definition drawable (tk : Toolkit) (decades : Z) (probe : Probe)
           (medium cut : string) (tFrame gFrame : Frame) : Prop :=
  exists tPath gPath xgrid ygrid,
    outFilePaths probe (medium ++ "_t_" ++ cut ++ ".fits")%string = [tPath] /\
    outFilePaths probe (medium ++ "_g_" ++ cut ++ ".fits")%string = [gPath] /\
    loadFits tk tPath = inr tFrame /\
    loadFits tk gPath = inr gFrame /\
    getFitsAxes tk tPath = inr (xgrid, ygrid) /\
    pixels tFrame <> [] /\ pixels gFrame <> [] /\
    gvalue xgrid <> [] /\ gvalue ygrid <> [] /\
    forall vmax,
      is_maximum vmax (pixels tFrame ++ pixels gFrame) ->
      exists vmin,
        true_divide tk vmax decades = inr vmin /\
        (0 < vmax -> 0 < vmin /\ vmin <= vmax).

(** Both panels of a density figure are drawn, with the frames floored at
    [vmin]: the first with the normalizer [normalizer], the second with the
    same normalizer as the colour bar left it. *)
Definition draws_both (tk : Toolkit) (t : list event) (tFrame gFrame : Frame)
           (vmin : Q) (normalizer : Norm) : Prop :=
  exists extent,
    In (Imshow 0 (transpose (fvalue (clip_below vmin tFrame)))
               (WithNorm normalizer) extent) t /\
    In (Imshow 1 (transpose (fvalue (clip_below vmin gFrame)))
               (WithNorm (with_limits normalizer (colorbar_limits tk normalizer)))
               extent) t.

(* ----------------------------------------------------------------- *)
(** ** Vocabulary of the further properties *)

(** Where the calls to matplotlib stand: no figure in the making, a figure
    of [ncols] axes being drawn, the figure written to [path], the figure
    written to [path] and closed. *)
Inductive stage : Type :=
| Idle
| Drawing (ncols : nat)
| Saved (path : Path)
| Closed (path : Path).

(** The order the calls are made in.  A figure is created when none is in
    the making, or, if [overlap] is set, while the previous one is left
    open; axes are drawn on only while their figure is being drawn, and only
    axes the figure has; a figure being drawn may be written; a written
    figure is closed; a closed figure is logged, by its path. *)
Definition step (overlap : bool) (s : stage) (ev : event) : option stage :=
  match ev with
  | Subplots ncols _ =>
      match s with
      | Idle => Some (Drawing ncols)
      | Drawing _ => if overlap then Some (Drawing ncols) else None
      | _ => None
      end
  | Imshow ax _ _ _ | SetXlim ax _ _ | SetYlim ax _ _
  | SetXlabel ax _ | SetYlabel ax _ =>
      match s with
      | Drawing ncols => if (ax <? ncols)%nat then Some s else None
      | _ => None
      end
  | Colorbar _ =>
      match s with
      | Drawing _ => Some s
      | _ => None
      end
  | Savefig path =>
      match s with
      | Drawing _ => Some (Saved path)
      | _ => None
      end
  | Close =>
      match s with
      | Saved path => Some (Closed path)
      | _ => None
      end
  | LogInfo msg =>
      match s with
      | Closed path =>
          if String.eqb msg ("Created " ++ path_str path)%string
          then Some Idle else None
      | _ => None
      end
  end.

Fixpoint steps (overlap : bool) (s : stage) (t : list event) : option stage :=
  match t with
  | [] => Some s
  | ev :: rest =>
      match step overlap s ev with
      | Some s' => steps overlap s' rest
      | None => None
      end
  end.

(** The stages a function may be entered and left in: no figure in the
    making, or, if figures are left open, the last one still being drawn. *)
Definition at_rest (overlap : bool) (s : stage) : Prop :=
  s = Idle \/ (overlap = true /\ exists ncols, s = Drawing ncols).

(** From stage [s], the calls of [m] are made in order, and if [m] ends
    normally with [a], in a stage [s'] with [R a s']. *)
Definition conforms {A : Type} (overlap : bool) (s : stage) (m : Py A)
           (R : A -> stage -> Prop) : Prop :=
  exists s', steps overlap s (trace m) = Some s' /\
             forall a, fst m = Done a -> R a s'.

(** The figures a stage leaves created and not written. *)
Definition unsaved (s : stage) : nat :=
  match s with Drawing _ => 1 | _ => 0 end.

(** A call that draws: any call but writing, closing and logging. *)
Definition draws (ev : event) : bool :=
  match ev with
  | Savefig _ | Close | LogInfo _ => false
  | _ => true
  end.

(** A run as it ended, with its drawing calls only. *)
Definition without_saving {A : Type} (m : Py A) : Py A :=
  (fst m, filter draws (snd m)).

(** Paths are always found for the files to save, and every write goes
    through. *)
Definition saves_dependably (tk : Toolkit) : Prop :=
  (forall def suffixes dir name path,
      exists saveFilePath, savePath tk def suffixes dir name path = inr saveFilePath) /\
  (forall path, savefig_error tk path = None).

(** Every file can be read and holds a frame with pixels, and axis grids
    with coordinates. *)
Definition loads_dependably (tk : Toolkit) : Prop :=
  (forall path, exists frame, loadFits tk path = inr frame /\ pixels frame <> []) /\
  (forall path, exists xgrid ygrid,
      getFitsAxes tk path = inr (xgrid, ygrid) /\
      gvalue xgrid <> [] /\ gvalue ygrid <> []).

(** The cut that [plotTemperatureCuts] reads off the name of a file. *)
Definition cut_of (path : Path) : string :=
  last (split "_"%char (stem path)) "".

(** A toolkit over files that all hold the same frame and the same grids,
    and over a disk that takes every write. *)
Definition steady_toolkit (is_interactive : bool) : Toolkit :=
  mkToolkit
    (fun _ => inr Demo.warm_frame)
    (fun _ => inr (Demo.axis, Demo.axis))
    (fun u => (" [" ++ u ++ "]")%string)
    (fun flag => match flag with Some b => b | None => is_interactive end)
    (fun def _ _ _ _ => inr def)
    (fun _ => None)
    Demo.divide
    Demo.relimit.

(** All the rows of a frame have the same length, as in an array. *)
Definition rectangular (f : Frame) : Prop :=
  forall row, In row (fvalue f) ->
              List.length row = List.length (hd [] (fvalue f)).

(** Every file that can be read holds an array. *)
Definition reads_arrays (tk : Toolkit) : Prop :=
  forall path frame, loadFits tk path = inr frame -> rectangular frame.

(** The division always goes through. *)
Definition divides_dependably (tk : Toolkit) (decades : Z) : Prop :=
  forall vmax, exists vmin, true_divide tk vmax decades = inr vmin.

(** Under a positive maximum the floor is positive and not above the
    maximum: the division neither underflows to zero nor, as it would with
    a negative number of decades, multiplies. *)
Definition floor_in_range (tk : Toolkit) (decades : Z) : Prop :=
  forall vmax vmin,
    0 < vmax -> true_divide tk vmax decades = inr vmin ->
    0 < vmin /\ vmin <= vmax.

(** Under a maximum that is not positive the floor is not below the
    maximum. *)
Definition floor_not_below (tk : Toolkit) (decades : Z) : Prop :=
  forall vmax vmin,
    vmax <= 0 -> true_divide tk vmax decades = inr vmin -> vmax <= vmin.

(** An image of a cut, as [plotMediaDensityCuts] draws it: the normalizer
    is made for the maximum over the two frames of the cut and the floor
    that the division gives for it, and the image is drawn with it, the
    first as it is made and the second as the colour bar left it; [P] is
    what is said of the normalizer as made and of the values shown. *)
Definition image_of_cut (tk : Toolkit) (simulation : Simulation) (decades : Z)
           (P : Norm -> list Q -> Prop) (ev : event) : Prop :=
  forall ax data scaling extent,
    ev = Imshow ax data scaling extent ->
    exists probe medium cut tFrame gFrame vmax vmin normalizer,
      In probe (probes simulation) /\
      loaded_pair tk probe medium cut tFrame gFrame /\
      is_maximum vmax (pixels tFrame ++ pixels gFrame) /\
      true_divide tk vmax decades = inr vmin /\
      norm_limits normalizer = (vmin, vmax) /\
      ((ax = 0%nat /\ scaling = WithNorm normalizer) \/
       (ax = 1%nat /\
        scaling = WithNorm (with_limits normalizer
                                        (colorbar_limits tk normalizer)))) /\
      P normalizer (List.concat data).

(** An image under a normalizer made logarithmic: it is made for a range of
    positive values, and every value shown lies in that range. *)
Definition within_log_range (normalizer : Norm) (shown : list Q) : Prop :=
  forall vmin vmax,
    normalizer = LogNorm vmin vmax ->
    0 < vmin /\ vmin <= vmax /\
    forall v, In v shown -> vmin <= v /\ v <= vmax.

(** An image under a normalizer made linear: its maximum is not positive,
    its floor is not below its maximum, and every value shown is the
    floor. *)
Definition flat_at_floor (normalizer : Norm) (shown : list Q) : Prop :=
  forall vmin vmax,
    normalizer = Normalize vmin vmax ->
    vmax <= 0 /\ vmax <= vmin /\
    forall v, In v shown -> v == vmin.

(** What [plotTemperatureCuts] computes for an image it draws: the frames
    of all the files of one probe are loaded, the image is one of them, as
    loaded, and its colours span from zero to the maximum over all of them. *)
Definition temperature_image (tk : Toolkit) (simulation : Simulation)
           (ev : event) : Prop :=
  forall ax data scaling extent,
    ev = Imshow ax data scaling extent ->
    exists probe frames Tmax frame,
      In probe (probes simulation) /\
      Forall2 (fun path frame => loadFits tk path = inr frame)
              (outFilePaths probe (probe_medium probe ++ "_T_*.fits")%string)
              frames /\
      is_maximum Tmax (flat_map pixels frames) /\
      scaling = WithLimits 0 Tmax /\
      In frame frames /\
      data = transpose (fvalue frame).

(** A call that creates no figure. *)
Definition creates_none (ev : event) : Prop :=
  match ev with Subplots _ _ => False | _ => True end.

(** A figure of [plotTemperatureCuts]: one column for each file of one of
    the probes, and one, two or three of them. *)
Definition temperature_figure (simulation : Simulation) (fig : nat * (Q * Q))
  : Prop :=
  (1 <= fst fig <= 3)%nat /\
  exists probe,
    In probe (probes simulation) /\
    fst fig
    = List.length (outFilePaths probe (probe_medium probe ++ "_T_*.fits")%string).

(** The axes that images are drawn on, in the order of the calls. *)
Definition panels_drawn {A : Type} (m : Py A) : list nat :=
  flat_map (fun ev => match ev with Imshow ax _ _ _ => [ax] | _ => [] end)
           (trace m).

(** A call that draws no image. *)
Definition shows_none (ev : event) : Prop :=
  match ev with Imshow _ _ _ _ => False | _ => True end.

(* ================================================================= *)
(** * Properties *)

(* ----------------------------------------------------------------- *)
(** ** Paths *)

Lemma parent_joinpath (p : Path) (n : string) : parent (joinpath p n) = p.
Proof.
  destruct p as [a ps]; unfold parent, joinpath; simpl.
  now rewrite removelast_last.
Qed.



(* ----------------------------------------------------------------- *)
(** ** The monad *)

Lemma bind_ret {A B : Type} (a : A) (k : A -> Py B) : bind (ret a) k = k a.
Proof. unfold bind, ret. destruct (k a); reflexivity. Qed.

Lemma bind_raise {A B : Type} (e : exn) (k : A -> Py B) :
  bind (raise e) k = raise e.
Proof. reflexivity. Qed.

Lemma bind_raised {A B : Type} (e : exn) (t : list event) (k : A -> Py B) :
  bind (Raised e, t) k = (Raised e, t).
Proof. reflexivity. Qed.

Lemma bind_emit {B : Type} (ev : event) (k : unit -> Py B) :
  bind (emit ev) k = (fst (k tt), ev :: snd (k tt)).
Proof. unfold bind, emit. destruct (k tt); reflexivity. Qed.

Lemma bind_assoc {A B C : Type} (m : Py A) (k : A -> Py B) (h : B -> Py C) :
  bind (bind m k) h = bind m (fun a => bind (k a) h).
Proof.
  destruct m as [[a | e] t]; simpl; [|reflexivity].
  destruct (k a) as [[b | e] t']; simpl; [|reflexivity].
  destruct (h b) as [r t'']. now rewrite app_assoc.
Qed.

Lemma trace_bind {A B : Type} (m : Py A) (k : A -> Py B) :
  trace (bind m k) =
  trace m ++ match fst m with Done a => trace (k a) | Raised _ => [] end.
Proof.
  destruct m as [[a | e] t]; simpl.
  - destruct (k a); reflexivity.
  - now rewrite app_nil_r.
Qed.

Lemma for_each_app {A : Type} (l1 l2 : list A) (body : A -> Py unit) :
  for_each (l1 ++ l2) body = (for_each l1 body ;; for_each l2 body).
Proof.
  induction l1 as [| x l1 IH]; cbn [for_each app].
  - now rewrite bind_ret.
  - now rewrite bind_assoc, IH.
Qed.

(** *** Every call made satisfies [P] *)

Section Emits.

Variable P : event -> Prop.

Lemma emits_ret {A : Type} (a : A) : emits P (ret a).
Proof. constructor. Qed.

Lemma emits_raise {A : Type} (e : exn) : emits P (@raise A e).
Proof. constructor. Qed.

Lemma emits_call {A : Type} (r : exn + A) : emits P (call r).
Proof. destruct r; constructor. Qed.

Lemma emits_emit (ev : event) : P ev -> emits P (emit ev).
Proof. intros H. repeat constructor. exact H. Qed.

Lemma emits_bind {A B : Type} (m : Py A) (k : A -> Py B) :
  emits P m -> (forall a, emits P (k a)) -> emits P (bind m k).
Proof.
  unfold emits. intros Hm Hk. rewrite trace_bind.
  apply Forall_app. split; [exact Hm|].
  destruct (fst m); [apply Hk | constructor].
Qed.

Lemma emits_for_each {A : Type} (l : list A) (body : A -> Py unit) :
  (forall x, In x l -> emits P (body x)) -> emits P (for_each l body).
Proof.
  induction l as [| x l IH]; intros H; simpl.
  - apply emits_ret.
  - apply emits_bind; [apply H; now left|].
    intros _. apply IH. intros y Hy. apply H. now right.
Qed.

Lemma emits_comprehension {A B : Type} (f : A -> Py B) (l : list A) :
  (forall x, emits P (f x)) -> emits P (comprehension f l).
Proof.
  intros H. induction l as [| x l IH]; simpl.
  - apply emits_ret.
  - apply emits_bind; [apply H|]. intros y.
    apply emits_bind; [apply IH|]. intros ys. apply emits_ret.
Qed.

End Emits.

Lemma emits_weaken {A : Type} (P R : event -> Prop) (m : Py A) :
  (forall ev, P ev -> R ev) -> emits P m -> emits R m.
Proof. intros H. apply Forall_impl. exact H. Qed.

(** Takes a script apart into its calls; [tac] settles what is asked of
    each call to matplotlib or the log. *)
Ltac script_calls tac :=
  repeat first
    [ apply emits_ret
    | apply emits_raise
    | apply emits_call
    | apply emits_emit; tac
    | apply emits_bind; [| intros ?]
    | match goal with
      | |- emits _ (savefig _ _) => unfold savefig
      | |- emits _ (let (_, _) := ?x in _) => destruct x
      | |- emits _ (if ?c then _ else _) => destruct c eqn:?
      | |- emits _ (match ?x with _ => _ end) => destruct x eqn:?
      end ].

Lemma no_savefig_no_file {A : Type} (m : Py A) :
  emits (fun ev => is_savefig ev = false) m -> files_written m = [].
Proof.
  unfold emits, files_written. induction 1 as [| ev t Hev _ IH]; simpl.
  - reflexivity.
  - destruct ev; try discriminate; exact IH.
Qed.

(* ----------------------------------------------------------------- *)
(** ** No probe of a matching type *)

Lemma filter_none {A : Type} (f : A -> bool) (l : list A) :
  (forall x, In x l -> f x = false) -> filter f l = [].
Proof.
  induction l as [| x l IH]; intros H; simpl; [reflexivity|].
  rewrite (H x (or_introl eq_refl)). apply IH. intros y Hy. apply H. now right.
Qed.

(** C5.  A simulation without a probe of the types [plotMediaDensityCuts]
    looks for makes it end at once: no call to matplotlib, no file, no log
    line; and likewise for [plotTemperatureCuts] and its probe types. *)
Theorem no_matching_probe_no_output
  (tk : Toolkit) (simulation : Simulation) (decades : Z)
  (outDirPath outFileName outFilePath_ : option string)
  (figSize : Q * Q) (figSize' : option (Q * Q)) (interactive : option bool) :
  ((forall probe, In probe (probes simulation) ->
      str_in (probe_type probe) density_probe_types = false) ->
   plotMediaDensityCuts tk simulation decades outDirPath figSize interactive
   = (Done tt, []))
  /\
  ((forall probe, In probe (probes simulation) ->
      str_in (probe_type probe) probetypes = false) ->
   plotTemperatureCuts tk simulation outDirPath outFileName outFilePath_
                       interactive figSize'
   = (Done tt, [])).
Proof.
  split; intros H.
  - unfold plotMediaDensityCuts. now rewrite filter_none.
  - unfold plotTemperatureCuts. now rewrite filter_none.
Qed.

Lemma no_matching_probe_no_output_witness :
  plotMediaDensityCuts (Demo.toolkit false) (Demo.simulation_of [Demo.sed; Demo.tmp])
                       5 None (18, 6) None = (Done tt, [])
  /\
  plotTemperatureCuts (Demo.toolkit false) (Demo.simulation_of [Demo.sed; Demo.dns])
                      None None None None None = (Done tt, []).
Proof.
  split.
  - apply (no_matching_probe_no_output
             (Demo.toolkit false) (Demo.simulation_of [Demo.sed; Demo.tmp])
             5 None None None (18, 6) None None).
    intros probe [<- | [<- | []]]; reflexivity.
  - apply (no_matching_probe_no_output
             (Demo.toolkit false) (Demo.simulation_of [Demo.sed; Demo.dns])
             5 None None None (18, 6) None None).
    intros probe [<- | [<- | []]]; reflexivity.
Defined.

(* ----------------------------------------------------------------- *)
(** ** Interactive mode *)

Lemma interactive_density_cut
  (tk : Toolkit) (simulation : Simulation) (decades : Z)
  (outDirPath : option string) (figSize : Q * Q) (interactive : option bool)
  (probe : Probe) (medium cut : string) :
  interactive_mode tk interactive = true ->
  emits keeps_open
        (plotMediaDensityCut tk simulation decades outDirPath figSize
                             interactive probe medium cut).
Proof.
  intros Hi. unfold plotMediaDensityCut. rewrite Hi. cbn [negb].
  script_calls ltac:(split; reflexivity).
Qed.

Lemma interactive_temperature_panel (tk : Toolkit) (Tmax : Q) item :
  emits keeps_open (plotTemperaturePanel tk Tmax item).
Proof.
  destruct item as [ax [cut [frame [xgrid ygrid]]]]. unfold plotTemperaturePanel.
  script_calls ltac:(split; reflexivity).
Qed.

Lemma interactive_temperature_probe
  (tk : Toolkit) (simulation : Simulation)
  (outDirPath outFileName outFilePath_ : option string)
  (interactive : option bool) (figSize : option (Q * Q)) (probe : Probe) :
  interactive_mode tk interactive = true ->
  emits keeps_open
        (plotTemperatureProbe tk simulation outDirPath outFileName outFilePath_
                              interactive figSize probe).
Proof.
  intros Hi. unfold plotTemperatureProbe. rewrite Hi. cbn [negb].
  destruct (negb (valid_numcuts _)); [apply emits_ret|].
  repeat (apply emits_bind; [| intros ?]);
    try apply emits_call; try apply emits_ret;
    try (apply emits_emit; split; reflexivity);
    try (apply emits_comprehension; intros ?; apply emits_call).
  apply emits_for_each. intros item _. apply interactive_temperature_panel.
Qed.

Lemma interactive_temperature_loop
  (tk : Toolkit) (simulation : Simulation)
  (outDirPath outFileName outFilePath_ : option string)
  (interactive : option bool) (probes : list Probe) :
  interactive_mode tk interactive = true ->
  forall figSize,
    emits keeps_open
          (temperature_loop tk simulation outDirPath outFileName outFilePath_
                            interactive probes figSize).
Proof.
  intros Hi. induction probes as [| probe rest IH]; intros figSize; simpl.
  - apply emits_ret.
  - apply emits_bind.
    + now apply interactive_temperature_probe.
    + intros [figSize' |]; [apply IH | apply emits_ret].
Qed.

(** C6.  With the interactive-mode flag set, neither function saves a file
    or closes a figure: every figure it has created is left open. *)
Theorem interactive_mode_saves_nothing
  (tk : Toolkit) (simulation : Simulation) (decades : Z)
  (outDirPath outFileName outFilePath_ : option string)
  (figSize : Q * Q) (figSize' : option (Q * Q)) (interactive : option bool) :
  interactive_mode tk interactive = true ->
  let density :=
    plotMediaDensityCuts tk simulation decades outDirPath figSize interactive in
  let temperature :=
    plotTemperatureCuts tk simulation outDirPath outFileName outFilePath_
                        interactive figSize' in
  (files_written density = [] /\ Forall (fun ev => ev <> Close) (trace density))
  /\
  (files_written temperature = [] /\
   Forall (fun ev => ev <> Close) (trace temperature)).
Proof.
  intros Hi density temperature.
  assert (Hd : emits keeps_open density).
  { unfold density, plotMediaDensityCuts.
    repeat (apply emits_for_each; intros ? _).
    now apply interactive_density_cut. }
  assert (Ht : emits keeps_open temperature).
  { unfold temperature, plotTemperatureCuts.
    now apply interactive_temperature_loop. }
  split; split.
  - apply no_savefig_no_file. revert Hd. apply emits_weaken. now intros ev [H _].
  - revert Hd. apply emits_weaken. intros ev [_ H] ->. discriminate.
  - apply no_savefig_no_file. revert Ht. apply emits_weaken. now intros ev [H _].
  - revert Ht. apply emits_weaken. intros ev [_ H] ->. discriminate.
Qed.

Lemma interactive_mode_saves_nothing_witness :
  interactive_mode (Demo.toolkit true) None = true /\
  files_written
    (plotMediaDensityCuts (Demo.toolkit true)
       (Demo.simulation_of [Demo.dns; Demo.tmp]) 5 None (18, 6) None) = [] /\
  files_written
    (plotTemperatureCuts (Demo.toolkit true)
       (Demo.simulation_of [Demo.dns; Demo.tmp]) None None None None None) = [].
Proof.
  split; [reflexivity|].
  pose proof (interactive_mode_saves_nothing
                (Demo.toolkit true) (Demo.simulation_of [Demo.dns; Demo.tmp])
                5 None None None (18, 6) None None eq_refl) as H.
  exact (conj (proj1 (proj1 H)) (proj1 (proj2 H))).
Defined.

(* ----------------------------------------------------------------- *)
(** ** Files that are not there *)

Lemma bind_ext {A B : Type} (m : Py A) (k k' : A -> Py B) :
  (forall a, k a = k' a) -> bind m k = bind m k'.
Proof.
  intros H. destruct m as [[a | e] t]; simpl; [|reflexivity]. now rewrite H.
Qed.

Lemma filter_cons_app {A : Type} (f : A -> bool) (pre post : list A) (x : A) :
  f x = true -> filter f (pre ++ x :: post) = filter f pre ++ x :: filter f post.
Proof. intros H. rewrite filter_app. simpl. now rewrite H. Qed.

Section TemperatureReturn.

Variable tk : Toolkit.
Variable simulation : Simulation.
Variables outDirPath outFileName outFilePath_ : option string.
Variable interactive : option bool.

Let body := plotTemperatureProbe tk simulation outDirPath outFileName
                                 outFilePath_ interactive.
Let loop := temperature_loop tk simulation outDirPath outFileName
                             outFilePath_ interactive.

(** A probe whose files are not one, two or three makes the body return. *)
Lemma temperature_probe_return (figSize : option (Q * Q)) (probe : Probe) :
  valid_numcuts
    (List.length (outFilePaths probe (probe_medium probe ++ "_T_*.fits")%string))
  = false ->
  body figSize probe = ret Return.
Proof.
  intros H. unfold body, plotTemperatureProbe. now rewrite H.
Qed.

(** The loop ends at such a probe, whatever follows it. *)
Lemma temperature_loop_return (pre post : list Probe) (probe : Probe) :
  valid_numcuts
    (List.length (outFilePaths probe (probe_medium probe ++ "_T_*.fits")%string))
  = false ->
  forall figSize, loop (pre ++ probe :: post) figSize = loop pre figSize.
Proof.
  intros H. induction pre as [| first pre IH]; intros figSize.
  - cbn [app]. unfold loop. cbn [temperature_loop].
    fold body. rewrite (temperature_probe_return _ _ H). now rewrite bind_ret.
  - unfold loop. cbn [app temperature_loop]. apply bind_ext.
    intros [figSize' |]; [apply IH | reflexivity].
Qed.

End TemperatureReturn.

(** Of the simulation, the loop uses [outFilePath] only. *)
Lemma temperature_loop_simulation
  (tk : Toolkit) (simulation simulation' : Simulation)
  (outDirPath outFileName outFilePath_ : option string)
  (interactive : option bool) (probes : list Probe) :
  outFilePath simulation = outFilePath simulation' ->
  forall figSize,
    temperature_loop tk simulation outDirPath outFileName outFilePath_
                     interactive probes figSize
    = temperature_loop tk simulation' outDirPath outFileName outFilePath_
                       interactive probes figSize.
Proof.
  intros H. induction probes as [| probe rest IH]; intros figSize.
  - reflexivity.
  - cbn [temperature_loop].
    replace (plotTemperatureProbe tk simulation' outDirPath outFileName
                                  outFilePath_ interactive figSize probe)
      with (plotTemperatureProbe tk simulation outDirPath outFileName
                                 outFilePath_ interactive figSize probe)
      by (unfold plotTemperatureProbe; now rewrite H).
    apply bind_ext. intros [figSize' |]; [apply IH | reflexivity].
Qed.

Lemma temperature_cuts_return
  (tk : Toolkit) (outFilePath : string -> Path)
  (outDirPath outFileName outFilePath_ : option string)
  (interactive : option bool) (figSize : option (Q * Q))
  (pre post : list Probe) (probe : Probe) :
  str_in (probe_type probe) probetypes = true ->
  valid_numcuts
    (List.length (outFilePaths probe (probe_medium probe ++ "_T_*.fits")%string))
  = false ->
  plotTemperatureCuts tk (mkSimulation (pre ++ probe :: post) outFilePath)
                      outDirPath outFileName outFilePath_ interactive figSize
  = plotTemperatureCuts tk (mkSimulation pre outFilePath)
                        outDirPath outFileName outFilePath_ interactive figSize.
Proof.
  intros Ht Hn. unfold plotTemperatureCuts. cbn [probes].
  rewrite (filter_cons_app (fun p => str_in (probe_type p) probetypes)
                           pre post probe Ht).
  rewrite temperature_loop_return by exact Hn.
  now apply temperature_loop_simulation.
Qed.

(** C9.  When a temperature probe has a number of files other than one, two
    or three, [plotTemperatureCuts] returns there: the run is the run over
    the probes before it, and the probes after it, whatever their files,
    add nothing. *)
Theorem temperature_cuts_stop_at_invalid_probe
  (tk : Toolkit) (outFilePath : string -> Path)
  (outDirPath outFileName outFilePath_ : option string)
  (interactive : option bool) (figSize : option (Q * Q))
  (pre post : list Probe) (probe : Probe) :
  str_in (probe_type probe) probetypes = true ->
  valid_numcuts
    (List.length (outFilePaths probe (probe_medium probe ++ "_T_*.fits")%string))
  = false ->
  plotTemperatureCuts tk (mkSimulation (pre ++ probe :: post) outFilePath)
                      outDirPath outFileName outFilePath_ interactive figSize
  = plotTemperatureCuts tk (mkSimulation pre outFilePath)
                        outDirPath outFileName outFilePath_ interactive figSize
  /\
  figures_created
    (plotTemperatureCuts tk (mkSimulation (pre ++ probe :: post) outFilePath)
                         outDirPath outFileName outFilePath_ interactive figSize)
  = figures_created
      (plotTemperatureCuts tk (mkSimulation (pre ++ [probe]) outFilePath)
                           outDirPath outFileName outFilePath_ interactive figSize).
Proof.
  intros Ht Hn. split.
  - now apply temperature_cuts_return.
  - now rewrite !temperature_cuts_return.
Qed.

(** The probe [two] alone gets its figure; behind [gone] it gets none. *)
Lemma temperature_cuts_stop_at_invalid_probe_witness :
  figures_created
    (plotTemperatureCuts (Demo.toolkit false) (Demo.simulation_of [Demo.two])
                         None None None None None) = [(2%nat, (16, 6))]
  /\
  plotTemperatureCuts (Demo.toolkit false)
                      (Demo.simulation_of ([Demo.tmp] ++ Demo.gone :: [Demo.two]))
                      None None None None None
  = plotTemperatureCuts (Demo.toolkit false) (Demo.simulation_of [Demo.tmp])
                        None None None None None.
Proof.
  split; [reflexivity|].
  apply (temperature_cuts_stop_at_invalid_probe
           (Demo.toolkit false) Demo.out_file None None None None None
           [Demo.tmp] [Demo.two] Demo.gone); reflexivity.
Defined.

Lemma density_cut_skipped
  (tk : Toolkit) (simulation : Simulation) (decades : Z)
  (outDirPath : option string) (figSize : Q * Q) (interactive : option bool)
  (probe : Probe) (medium cut : string) :
  ((List.length (outFilePaths probe (medium ++ "_t_" ++ cut ++ ".fits")%string) =? 1)%nat
   && (List.length (outFilePaths probe (medium ++ "_g_" ++ cut ++ ".fits")%string) =? 1)%nat)
  = false ->
  plotMediaDensityCut tk simulation decades outDirPath figSize interactive
                      probe medium cut
  = (Done tt, []).
Proof. intros H. unfold plotMediaDensityCut. now rewrite H. Qed.

Lemma for_each_ext {A : Type} (l : list A) (body body' : A -> Py unit) :
  (forall x, body x = body' x) -> for_each l body = for_each l body'.
Proof.
  intros H. induction l as [| x l IH]; cbn [for_each]; [reflexivity|].
  rewrite H. apply bind_ext. intros _. exact IH.
Qed.

Lemma for_each_map {A B : Type} (f : A -> B) (l : list A) (body : B -> Py unit) :
  for_each (map f l) body = for_each l (fun x => body (f x)).
Proof.
  induction l as [| x l IH]; cbn [map for_each]; [reflexivity|].
  now rewrite IH.
Qed.

Lemma for_each_flat_map {A B : Type} (f : A -> list B) (l : list A)
      (body : B -> Py unit) :
  for_each (flat_map f l) body = for_each l (fun x => for_each (f x) body).
Proof.
  induction l as [| x l IH]; cbn [flat_map for_each]; [reflexivity|].
  now rewrite for_each_app, IH.
Qed.

(** The three loops of [plotMediaDensityCuts] are one loop over its passes. *)
Lemma density_cuts_pass_by_pass
  (tk : Toolkit) (simulation : Simulation) (decades : Z)
  (outDirPath : option string) (figSize : Q * Q) (interactive : option bool) :
  plotMediaDensityCuts tk simulation decades outDirPath figSize interactive
  = for_each (density_passes simulation)
             (fun '(probe, medium, cut) =>
                plotMediaDensityCut tk simulation decades outDirPath figSize
                                    interactive probe medium cut).
Proof.
  unfold plotMediaDensityCuts, density_passes.
  rewrite for_each_flat_map. apply for_each_ext. intros probe.
  rewrite for_each_flat_map. apply for_each_ext. intros medium.
  now rewrite for_each_map.
Qed.

(** C1, as the code has it.  In [plotMediaDensityCuts], a medium and cut
    whose theoretical and gridded files are not found exactly once each is
    passed over, with no call made for it: the function makes the passes
    before it and then the passes after it, for the remaining cuts, media
    and probes.  In [plotTemperatureCuts], a probe whose files are not one,
    two or three ends the function: the files written are those of the
    probes before it. *)
Theorem missing_files_write_nothing_for_their_cut
  (tk : Toolkit) (simulation : Simulation) (decades : Z)
  (outFilePath : string -> Path)
  (outDirPath outFileName outFilePath_ : option string)
  (figSize : Q * Q) (figSize' : option (Q * Q)) (interactive : option bool) :
  let pass := fun '(probe, medium, cut) =>
                plotMediaDensityCut tk simulation decades outDirPath figSize
                                    interactive probe medium cut in
  (forall (probe : Probe) (medium cut : string)
          (before after : list (Probe * string * string)),
     density_passes simulation = before ++ (probe, medium, cut) :: after ->
     ((List.length (outFilePaths probe (medium ++ "_t_" ++ cut ++ ".fits")%string) =? 1)%nat
      && (List.length (outFilePaths probe (medium ++ "_g_" ++ cut ++ ".fits")%string) =? 1)%nat)
     = false ->
     plotMediaDensityCut tk simulation decades outDirPath figSize interactive
                         probe medium cut
     = (Done tt, [])
     /\
     plotMediaDensityCuts tk simulation decades outDirPath figSize interactive
     = (for_each before pass ;; for_each after pass))
  /\
  (forall (pre post : list Probe) (probe : Probe),
     str_in (probe_type probe) probetypes = true ->
     valid_numcuts
       (List.length (outFilePaths probe (probe_medium probe ++ "_T_*.fits")%string))
     = false ->
     files_written
       (plotTemperatureCuts tk (mkSimulation (pre ++ probe :: post) outFilePath)
                            outDirPath outFileName outFilePath_ interactive figSize')
     = files_written
         (plotTemperatureCuts tk (mkSimulation pre outFilePath)
                              outDirPath outFileName outFilePath_ interactive figSize')).
Proof.
  intros pass. split.
  - intros probe medium cut before after Hpasses H.
    pose proof (density_cut_skipped tk simulation decades outDirPath figSize
                                    interactive probe medium cut H) as Hskip.
    split; [exact Hskip|].
    rewrite density_cuts_pass_by_pass, Hpasses. fold pass.
    rewrite for_each_app. cbn [for_each].
    change (pass (probe, medium, cut))
      with (plotMediaDensityCut tk simulation decades outDirPath figSize
                                interactive probe medium cut).
    rewrite Hskip. apply bind_ext. intros _. apply (@bind_ret unit unit tt).
  - intros pre post probe Ht Hn. now rewrite temperature_cuts_return.
Qed.

(** The probe [dns] has no gridded xz cut of the dust: its second pass is
    passed over, and the run is the first pass and then the seven others. *)
Lemma missing_files_write_nothing_for_their_cut_witness :
  let simulation := Demo.simulation_of [Demo.dns] in
  let pass := fun '(probe, medium, cut) =>
                plotMediaDensityCut (Demo.toolkit false) simulation
                                    5 None (18, 6) None probe medium cut in
  (plotMediaDensityCut (Demo.toolkit false) simulation
                       5 None (18, 6) None Demo.dns "dust" "xz" = (Done tt, [])
   /\
   plotMediaDensityCuts (Demo.toolkit false) simulation 5 None (18, 6) None
   = (for_each (firstn 1 (density_passes simulation)) pass ;;
      for_each (skipn 2 (density_passes simulation)) pass))
  /\
  files_written
    (plotTemperatureCuts (Demo.toolkit false)
       (mkSimulation ([Demo.tmp] ++ Demo.gone :: [Demo.two]) Demo.out_file)
       None None None None None)
  = files_written
      (plotTemperatureCuts (Demo.toolkit false)
         (mkSimulation [Demo.tmp] Demo.out_file) None None None None None).
Proof.
  intros simulation pass.
  pose proof (missing_files_write_nothing_for_their_cut
                (Demo.toolkit false) simulation 5
                Demo.out_file None None None (18, 6) None None) as [Hd Ht].
  split.
  - apply (Hd Demo.dns "dust" "xz"
              (firstn 1 (density_passes simulation))
              (skipn 2 (density_passes simulation))); reflexivity.
  - apply (Ht [Demo.tmp] [Demo.two] Demo.gone); reflexivity.
Defined.

(** The claim as the specification words it fails: [dns] lacks its gridded
    xz cut and [gone] has no temperature cut at all, and yet each run writes
    a file. *)
Lemma missing_files_elsewhere_still_write :
  (List.length (outFilePaths Demo.dns "dust_g_xz.fits") =? 1)%nat = false /\
  files_written
    (plotMediaDensityCuts (Demo.toolkit false) (Demo.simulation_of [Demo.dns])
                          5 None (18, 6) None)
  = [Demo.out_file "dns_dust_xy.pdf"] /\
  valid_numcuts (List.length (outFilePaths Demo.gone "gas_T_*.fits")) = false /\
  files_written
    (plotTemperatureCuts (Demo.toolkit false)
                         (Demo.simulation_of [Demo.tmp; Demo.gone])
                         None None None None None)
  = [Demo.out_file "tmp_dust_T.pdf"].
Proof. repeat split. Qed.

(* ----------------------------------------------------------------- *)
(** ** The size of the temperature figures *)

Lemma emits_bind_done {A B : Type} (P : event -> Prop) (m : Py A) (k : A -> Py B) :
  emits P m -> (forall a, fst m = Done a -> emits P (k a)) -> emits P (bind m k).
Proof.
  unfold emits. intros Hm Hk. rewrite trace_bind.
  apply Forall_app. split; [exact Hm|].
  destruct (fst m) as [a | e]; [now apply Hk | constructor].
Qed.

Lemma yields_ret {A : Type} (a : A) : yields a (ret a).
Proof. intros a' H. now inversion H. Qed.

Lemma yields_bind {A B : Type} (b : B) (m : Py A) (k : A -> Py B) :
  (forall a, yields b (k a)) -> yields b (bind m k).
Proof.
  intros Hk b' H. destruct m as [[a | e] t]; simpl in H.
  - apply (Hk a). destruct (k a) as [r t']. exact H.
  - discriminate.
Qed.

Lemma sized_figures {A : Type} (size : Q * Q) (m : Py A) :
  emits (sized size) m -> Forall (fun fig => snd fig = size) (figures_created m).
Proof.
  unfold emits, figures_created. induction 1 as [| ev t Hev _ IH]; simpl.
  - constructor.
  - destruct ev; try exact IH.
    constructor; [| exact IH]. simpl. now apply (Hev ncols).
Qed.

Section TemperatureSize.

Variable tk : Toolkit.
Variable simulation : Simulation.
Variables outDirPath outFileName outFilePath_ : option string.
Variable interactive : option bool.

Let body := plotTemperatureProbe tk simulation outDirPath outFileName
                                 outFilePath_ interactive.
Let loop := temperature_loop tk simulation outDirPath outFileName
                             outFilePath_ interactive.

(** Entering the body with no size is entering it with the size computed
    from the probe's own number of cuts. *)
Lemma temperature_probe_default_size (probe : Probe) :
  body None probe = body (Some (size_for_cuts_of probe)) probe.
Proof. reflexivity. Qed.

(** Entered with a size, the body leaves that size to the next probe... *)
Lemma temperature_probe_keeps_size (size : Q * Q) (probe : Probe) :
  forall r, fst (body (Some size) probe) = Done r ->
            r = Return \/ r = Next (Some size).
Proof.
  intros r. unfold body, plotTemperatureProbe.
  destruct (negb (valid_numcuts _)).
  - intros H. left. now inversion H.
  - intros H. right. revert r H.
    repeat (apply yields_bind; intros ?). apply yields_ret.
Qed.

Lemma temperature_panel_sized (size : Q * Q) (Tmax : Q) item :
  emits (sized size) (plotTemperaturePanel tk Tmax item).
Proof.
  destruct item as [ax [cut [frame [xgrid ygrid]]]]. unfold plotTemperaturePanel.
  script_calls ltac:(intros ? ? ?; discriminate).
Qed.

(** ... and creates its figure with that size. *)
Lemma temperature_probe_sized (size : Q * Q) (probe : Probe) :
  emits (sized size) (body (Some size) probe).
Proof.
  unfold body, plotTemperatureProbe.
  destruct (negb (valid_numcuts _)); [apply emits_ret|].
  repeat (apply emits_bind; [| intros ?]);
    try apply emits_call; try apply emits_ret;
    try (apply emits_comprehension; intros ?; apply emits_call);
    try (apply emits_for_each; intros ? _; apply temperature_panel_sized);
    try (apply emits_emit; intros ? ? H; now inversion H).
  script_calls ltac:(intros ? ? ?; discriminate).
Qed.

Lemma temperature_loop_sized (size : Q * Q) (probes : list Probe) :
  emits (sized size) (loop probes (Some size)).
Proof.
  induction probes as [| probe rest IH]; unfold loop; cbn [temperature_loop].
  - apply emits_ret.
  - apply emits_bind_done; [apply temperature_probe_sized|].
    intros r Hr.
    destruct (temperature_probe_keeps_size size probe r Hr) as [-> | ->].
    + apply emits_ret.
    + exact IH.
Qed.

(** C10.  Called without a figure size, [plotTemperatureCuts] runs as if
    called with the size [(8*numcuts, 6)] of the first probe it finds, and
    gives that size to every figure it creates, whatever the number of
    cuts of the later probes. *)
Theorem first_probe_sets_every_figure_size (first : Probe) (rest : list Probe) :
  filter (fun probe => str_in (probe_type probe) probetypes) (probes simulation)
  = first :: rest ->
  plotTemperatureCuts tk simulation outDirPath outFileName outFilePath_
                      interactive None
  = plotTemperatureCuts tk simulation outDirPath outFileName outFilePath_
                        interactive (Some (size_for_cuts_of first))
  /\
  Forall (fun fig => snd fig = size_for_cuts_of first)
         (figures_created
            (plotTemperatureCuts tk simulation outDirPath outFileName
                                 outFilePath_ interactive None)).
Proof.
  intros Hf.
  assert (Heq : plotTemperatureCuts tk simulation outDirPath outFileName
                                    outFilePath_ interactive None
                = plotTemperatureCuts tk simulation outDirPath outFileName
                                      outFilePath_ interactive
                                      (Some (size_for_cuts_of first))).
  { unfold plotTemperatureCuts. rewrite Hf. cbn [temperature_loop].
    fold body. now rewrite temperature_probe_default_size. }
  split; [exact Heq|].
  rewrite Heq. apply sized_figures.
  unfold plotTemperatureCuts. apply temperature_loop_sized.
Qed.

End TemperatureSize.

(** The second figure has two cuts and the size computed for one. *)
Lemma first_probe_sets_every_figure_size_witness :
  figures_created
    (plotTemperatureCuts (Demo.toolkit false)
       (Demo.simulation_of [Demo.sed; Demo.tmp; Demo.two]) None None None None None)
  = [(1%nat, (8, 6)); (2%nat, (8, 6))]
  /\
  Forall (fun fig => snd fig = size_for_cuts_of Demo.tmp)
         (figures_created
            (plotTemperatureCuts (Demo.toolkit false)
               (Demo.simulation_of [Demo.sed; Demo.tmp; Demo.two])
               None None None None None)).
Proof.
  split; [reflexivity|].
  apply (first_probe_sets_every_figure_size
           (Demo.toolkit false)
           (Demo.simulation_of [Demo.sed; Demo.tmp; Demo.two])
           None None None None Demo.tmp [Demo.two]).
  reflexivity.
Defined.

(* ----------------------------------------------------------------- *)
(** ** The range of densities displayed *)

Lemma py_max_cases (a b : Q) : py_max a b = a \/ py_max a b = b.
Proof. unfold py_max. destruct (Qle_bool b a); auto. Qed.

Lemma py_max_ge_l (a b : Q) : a <= py_max a b.
Proof.
  unfold py_max. destruct (Qle_bool b a) eqn:E.
  - apply Qle_refl.
  - destruct (Qlt_le_dec b a) as [Hlt | Hle]; [| exact Hle].
    apply Qlt_le_weak, Qle_bool_iff in Hlt. congruence.
Qed.

Lemma py_max_ge_r (a b : Q) : b <= py_max a b.
Proof.
  unfold py_max. destruct (Qle_bool b a) eqn:E.
  - now apply Qle_bool_iff.
  - apply Qle_refl.
Qed.

Lemma fold_py_max_maximum (l : list Q) :
  forall x, is_maximum (fold_left py_max l x) (x :: l).
Proof.
  induction l as [| y l IH]; intros x; simpl.
  - split; [now left|]. intros v [<- | []]. apply Qle_refl.
  - destruct (IH (py_max x y)) as [Hin Hge]. split.
    + destruct Hin as [Hin | Hin].
      * rewrite <- Hin. destruct (py_max_cases x y) as [-> | ->]; simpl; auto.
      * right. right. exact Hin.
    + intros v [<- | [<- | Hv]].
      * apply Qle_trans with (py_max x y); [apply py_max_ge_l|].
        apply Hge. now left.
      * apply Qle_trans with (py_max x y); [apply py_max_ge_r|].
        apply Hge. now left.
      * apply Hge. now right.
Qed.

Lemma frame_max_maximum (f : Frame) (m : Q) :
  frame_max f = inr m -> is_maximum m (pixels f).
Proof.
  unfold frame_max, pixels. destruct (List.concat (fvalue f)) as [| x l].
  - discriminate.
  - intros H. inversion H. apply fold_py_max_maximum.
Qed.

Lemma py_max_maximum (l1 l2 : list Q) (m1 m2 : Q) :
  is_maximum m1 l1 -> is_maximum m2 l2 -> is_maximum (py_max m1 m2) (l1 ++ l2).
Proof.
  intros [Hin1 Hge1] [Hin2 Hge2]. split.
  - apply in_or_app. destruct (py_max_cases m1 m2) as [-> | ->]; auto.
  - intros v Hv. apply in_app_or in Hv. destruct Hv as [Hv | Hv].
    + apply Qle_trans with m1; [now apply Hge1 | apply py_max_ge_l].
    + apply Qle_trans with m2; [now apply Hge2 | apply py_max_ge_r].
Qed.

Lemma emits_bind_call {A B : Type} (P : event -> Prop) (r : exn + A)
      (k : A -> Py B) :
  (forall a, r = inr a -> emits P (k a)) -> emits P (bind (call r) k).
Proof.
  intros H. apply emits_bind_done; [apply emits_call|].
  intros a Ha. apply H. destruct r; [discriminate | now inversion Ha].
Qed.

Lemma singleton_first {A : Type} (l : list A) (x : A) :
  (List.length l =? 1)%nat = true -> item_first l = inr x -> l = [x].
Proof.
  destruct l as [| y [| z l]]; simpl; try discriminate.
  intros _ H. now inversion H.
Qed.

(** The quotient of the rationals, for a number of decades that is not
    negative. *)
Lemma floor_positive (vmax : Q) (decades : Z) :
  0 < vmax -> 0 < vmax / 10 ^ decades.
Proof.
  intros H. apply Qlt_shift_div_l.
  - now apply Qpower_0_lt.
  - now rewrite Qmult_0_l.
Qed.

Lemma floor_below_maximum (vmax : Q) (decades : Z) :
  0 <= vmax -> (0 <= decades)%Z -> vmax / 10 ^ decades <= vmax.
Proof.
  intros H Hd. assert (Hp : 1 <= 10 ^ decades) by now apply Qpower_1_le.
  apply Qle_shift_div_r; [now apply Qpower_0_lt | nra].
Qed.

Lemma floor_above_maximum (vmax : Q) (decades : Z) :
  vmax <= 0 -> (0 <= decades)%Z -> vmax <= vmax / 10 ^ decades.
Proof.
  intros H Hd. assert (Hp : 1 <= 10 ^ decades) by now apply Qpower_1_le.
  apply Qle_shift_div_l; [now apply Qpower_0_lt | nra].
Qed.

(** The division of the demo, where it is not refused, is exact. *)
Lemma demo_divide (b : bool) (vmax vmin : Q) (decades : Z) :
  true_divide (Demo.toolkit b) vmax decades = inr vmin ->
  vmin = vmax / 10 ^ decades.
Proof.
  cbn [true_divide Demo.toolkit]. unfold Demo.divide.
  destruct (308 <? decades)%Z; [discriminate | congruence].
Qed.

Lemma demo_floor_in_range (b : bool) : floor_in_range (Demo.toolkit b) 5.
Proof.
  intros vmax vmin Hpos H. apply demo_divide in H. subst vmin.
  split; [now apply floor_positive|].
  apply floor_below_maximum; [now apply Qlt_le_weak | discriminate].
Qed.

Lemma demo_floor_not_below (b : bool) : floor_not_below (Demo.toolkit b) 5.
Proof.
  intros vmax vmin Hneg H. apply demo_divide in H. subst vmin.
  apply floor_above_maximum; [exact Hneg | discriminate].
Qed.

Lemma density_cut_images
  (tk : Toolkit) (simulation : Simulation) (decades : Z)
  (outDirPath : option string) (figSize : Q * Q) (interactive : option bool)
  (probe : Probe) (medium cut : string) :
  emits (density_image tk decades probe medium cut)
        (plotMediaDensityCut tk simulation decades outDirPath figSize
                             interactive probe medium cut).
Proof.
  unfold plotMediaDensityCut.
  destruct (_ && _) eqn:Hlen; [| apply emits_ret].
  apply andb_prop in Hlen. destruct Hlen as [Hlt Hlg].
  apply emits_bind_call; intros tPath HtPath.
  apply emits_bind_call; intros tFrame HtFrame.
  apply emits_bind_call; intros gPath HgPath.
  apply emits_bind_call; intros gFrame HgFrame.
  apply emits_bind_call; intros [xgrid ygrid] _.
  apply emits_bind_call; intros tmax Htmax.
  apply emits_bind_call; intros gmax Hgmax.
  apply emits_bind_call; intros vmin Hvmin.
  assert (Hpair : loaded_pair tk probe medium cut tFrame gFrame).
  { exists tPath, gPath. repeat split; auto using singleton_first. }
  script_calls ltac:(
    intros ax data scaling extent Hev; try discriminate;
    inversion Hev; subst;
    exists tFrame, gFrame, tmax, gmax, vmin;
    (split; [exact Hpair|]); (split; [exact Htmax|]);
    (split; [exact Hgmax|]); (split; [exact Hvmin|]);
    cbv zeta;
    first [left; repeat split; reflexivity | right; repeat split; reflexivity]).
Qed.

Lemma density_cuts_images
  (tk : Toolkit) (simulation : Simulation) (decades : Z)
  (outDirPath : option string) (figSize : Q * Q) (interactive : option bool) :
  emits (fun ev => exists probe medium cut,
                     In probe (probes simulation) /\
                     density_image tk decades probe medium cut ev)
        (plotMediaDensityCuts tk simulation decades outDirPath figSize interactive).
Proof.
  unfold plotMediaDensityCuts.
  apply emits_for_each. intros probe Hprobe. apply filter_In in Hprobe.
  apply emits_for_each. intros medium _.
  apply emits_for_each. intros cut _.
  apply emits_weaken with (P := density_image tk decades probe medium cut).
  - intros ev Hev. exists probe, medium, cut. split; [apply Hprobe | exact Hev].
  - apply density_cut_images.
Qed.

Lemma trace_bind_emit {B : Type} (ev : event) (k : unit -> Py B) :
  trace (bind (emit ev) k) = ev :: trace (k tt).
Proof. now rewrite bind_emit. Qed.

Lemma frame_max_some (f : Frame) :
  pixels f <> [] -> exists m, frame_max f = inr m.
Proof.
  unfold pixels, frame_max. destruct (List.concat (fvalue f)); [easy | eauto].
Qed.

Lemma item_first_some {A : Type} (l : list A) :
  l <> [] -> exists x, item_first l = inr x.
Proof. destruct l; [easy | simpl; eauto]. Qed.

Lemma item_last_some {A : Type} (l : list A) :
  l <> [] -> exists x, item_last l = inr x.
Proof.
  unfold item_last. intros H. destruct (rev l) eqn:E; [| eauto].
  apply (f_equal (@rev A)) in E. rewrite rev_involutive in E. easy.
Qed.

(** The first calls made for a cut whose files are there, can be read and
    hold arrays that are not empty, and whose maximum can be divided. *)
Lemma density_cut_plotted
  (tk : Toolkit) (simulation : Simulation) (decades : Z)
  (outDirPath : option string) (figSize : Q * Q) (interactive : option bool)
  (probe : Probe) (medium cut : string) (tFrame gFrame : Frame) :
  drawable tk decades probe medium cut tFrame gFrame ->
  exists tmax gmax vmin extent rest,
    frame_max tFrame = inr tmax /\
    frame_max gFrame = inr gmax /\
    true_divide tk (py_max tmax gmax) decades = inr vmin /\
    let vmax := py_max tmax gmax in
    let normalizer :=
      if negb (Qle_bool vmax 0) then LogNorm vmin vmax else Normalize vmin vmax in
    trace (plotMediaDensityCut tk simulation decades outDirPath figSize
                               interactive probe medium cut)
    = [Subplots 2 figSize;
       Imshow 0 (transpose (fvalue (clip_below vmin tFrame)))
              (WithNorm normalizer) extent;
       Colorbar ("density" ++ latexForUnit tk (funit tFrame))%string;
       Imshow 1 (transpose (fvalue (clip_below vmin gFrame)))
              (WithNorm (with_limits normalizer (colorbar_limits tk normalizer)))
              extent]
      ++ rest.
Proof.
  intros (tPath & gPath & xgrid & ygrid
          & Ht & Hg & HtFrame & HgFrame & Hgrids & Hpt & Hpg & Hx & Hy & Hdiv).
  destruct (frame_max_some _ Hpt) as [tmax Htmax].
  destruct (frame_max_some _ Hpg) as [gmax Hgmax].
  destruct (Hdiv (py_max tmax gmax)) as (vmin & Hvmin & _);
    [apply py_max_maximum; now apply frame_max_maximum|].
  destruct (item_first_some _ Hx) as [x0 Hx0].
  destruct (item_last_some _ Hx) as [x1 Hx1].
  destruct (item_first_some _ Hy) as [y0 Hy0].
  destruct (item_last_some _ Hy) as [y1 Hy1].
  exists tmax, gmax, vmin, (x0, x1, y0, y1).
  unfold plotMediaDensityCut. rewrite Ht, Hg.
  cbn [List.length Nat.eqb andb item_first call].
  rewrite bind_ret, HtFrame. cbn [call].
  rewrite !bind_ret, HgFrame. cbn [call].
  rewrite bind_ret, Hgrids. cbn [call].
  rewrite bind_ret, Htmax. cbn [call].
  rewrite bind_ret, Hgmax. cbn [call].
  rewrite bind_ret, Hvmin. cbn [call].
  rewrite bind_ret, trace_bind_emit.
  rewrite Hx0, Hx1, Hy0, Hy1. cbn [call].
  rewrite !bind_ret, !trace_bind_emit.
  eexists. repeat split; assumption.
Qed.

Lemma drawable_cut_drawn
  (tk : Toolkit) (simulation : Simulation) (decades : Z)
  (outDirPath : option string) (figSize : Q * Q) (interactive : option bool)
  (probe : Probe) (medium cut : string) (tFrame gFrame : Frame) :
  drawable tk decades probe medium cut tFrame gFrame ->
  exists vmax vmin,
    is_maximum vmax (pixels tFrame ++ pixels gFrame) /\
    true_divide tk vmax decades = inr vmin /\
    draws_both tk
               (trace (plotMediaDensityCut tk simulation decades outDirPath
                                           figSize interactive probe medium cut))
               tFrame gFrame vmin
               (if negb (Qle_bool vmax 0)
                then LogNorm vmin vmax else Normalize vmin vmax).
Proof.
  intros Hdrawable.
  destruct (density_cut_plotted tk simulation decades outDirPath figSize
              interactive probe medium cut tFrame gFrame Hdrawable)
    as (tmax & gmax & vmin & extent & rest & Htmax & Hgmax & Hvmin & Htrace).
  exists (py_max tmax gmax), vmin. split; [| split; [exact Hvmin|]].
  - apply py_max_maximum; now apply frame_max_maximum.
  - exists extent. cbv zeta in Htrace. rewrite Htrace. split.
    + right. now left.
    + right. right. right. now left.
Qed.



Lemma positive_or_not (vmax : Q) :
  (Qle_bool vmax 0 = false /\ 0 < vmax) \/ (Qle_bool vmax 0 = true /\ vmax <= 0).
Proof.
  destruct (Qle_bool vmax 0) eqn:Hsign.
  - right. split; [reflexivity | now apply Qle_bool_iff].
  - left. split; [reflexivity|].
    apply Qnot_le_lt. intros Hle. apply Qle_bool_iff in Hle. congruence.
Qed.

(** C4.  Every image [plotMediaDensityCuts] draws is normalized by a
    [LogNorm] when the maximum over its two frames is positive, and by a
    [Normalize] when that maximum is zero or negative.  And whenever the two
    files of a cut are there and hold frames and grids that are not empty,
    and the division goes through, to a floor a logarithmic normalizer can
    take, both frames are drawn, with a [LogNorm] made for a positive
    maximum and with a [Normalize] made otherwise. *)
Theorem normalizer_follows_sign_of_maximum
  (tk : Toolkit) (simulation : Simulation) (decades : Z)
  (outDirPath : option string) (figSize : Q * Q) (interactive : option bool) :
  emits (scale_follows_sign tk simulation)
        (plotMediaDensityCuts tk simulation decades outDirPath figSize interactive)
  /\
  forall probe medium cut tFrame gFrame,
    drawable tk decades probe medium cut tFrame gFrame ->
    exists vmax vmin,
      is_maximum vmax (pixels tFrame ++ pixels gFrame) /\
      true_divide tk vmax decades = inr vmin /\
      (0 < vmax ->
       draws_both tk
                  (trace (plotMediaDensityCut tk simulation decades outDirPath
                                              figSize interactive probe medium cut))
                  tFrame gFrame vmin (LogNorm vmin vmax)) /\
      (vmax <= 0 ->
       draws_both tk
                  (trace (plotMediaDensityCut tk simulation decades outDirPath
                                              figSize interactive probe medium cut))
                  tFrame gFrame vmin (Normalize vmin vmax)).
Proof.
  split.
  - eapply emits_weaken; [| apply density_cuts_images].
    intros ev (probe & medium & cut & Hprobe & Himage) ax data scaling extent Hev.
    destruct (Himage ax data scaling extent Hev)
      as (tFrame & gFrame & tmax & gmax & vmin
          & Hpair & Htmax & Hgmax & Hvmin & Hdrawn).
    assert (Hmax : is_maximum (py_max tmax gmax) (pixels tFrame ++ pixels gFrame))
      by (apply py_max_maximum; now apply frame_max_maximum).
    exists probe, medium, cut, tFrame, gFrame, (py_max tmax gmax).
    split; [exact Hprobe|]. split; [exact Hpair|]. split; [exact Hmax|].
    cbv zeta in Hdrawn.
    destruct (positive_or_not (py_max tmax gmax)) as [[Hsign Hv] | [Hsign Hv]];
      rewrite Hsign in Hdrawn; cbn [negb with_limits] in Hdrawn;
      [left | right]; (split; [exact Hv|]);
      destruct Hdrawn as [(_ & _ & ->) | (_ & _ & ->)]; eauto.
  - intros probe medium cut tFrame gFrame Hdrawable.
    destruct (drawable_cut_drawn tk simulation decades outDirPath figSize
                interactive probe medium cut tFrame gFrame Hdrawable)
      as (vmax & vmin & Hmax & Hvmin & Hdraws).
    exists vmax, vmin. split; [exact Hmax|]. split; [exact Hvmin|].
    destruct (positive_or_not vmax) as [[Hsign Hv] | [Hsign Hv]];
      rewrite Hsign in Hdraws; cbn [negb] in Hdraws; split;
      intros Hv'; try exact Hdraws; exfalso.
    + exact (Qlt_not_le _ _ Hv Hv').
    + exact (Qlt_not_le _ _ Hv' Hv).
Qed.

(** The medium of the probe [nil] is empty: its maximum is zero, and both
    its frames are drawn with a [Normalize]. *)
Lemma normalizer_follows_sign_of_maximum_witness :
  exists vmax vmin,
    is_maximum vmax (pixels Demo.dark_frame ++ pixels Demo.dark_frame) /\
    true_divide (Demo.toolkit false) vmax 5 = inr vmin /\
    (0 < vmax ->
     draws_both (Demo.toolkit false)
                (trace (plotMediaDensityCut
                          (Demo.toolkit false) (Demo.simulation_of [Demo.nil_probe])
                          5 None (18, 6) None Demo.nil_probe "gas" "yz"))
                Demo.dark_frame Demo.dark_frame vmin (LogNorm vmin vmax)) /\
    (vmax <= 0 ->
     draws_both (Demo.toolkit false)
                (trace (plotMediaDensityCut
                          (Demo.toolkit false) (Demo.simulation_of [Demo.nil_probe])
                          5 None (18, 6) None Demo.nil_probe "gas" "yz"))
                Demo.dark_frame Demo.dark_frame vmin (Normalize vmin vmax)).
Proof.
  apply (proj2 (normalizer_follows_sign_of_maximum
                  (Demo.toolkit false) (Demo.simulation_of [Demo.nil_probe])
                  5 None (18, 6) None)).
  exists (Demo.out_file "nil_gas_t_yz.fits"), (Demo.out_file "nil_gas_g_yz.fits"),
    Demo.axis, Demo.axis.
  do 9 (split; [first [reflexivity | discriminate]|]).
  intros vmax _. exists (vmax / 10 ^ 5). split; [reflexivity|].
  intros Hpos. now apply (demo_floor_in_range false).
Defined.

(** The two kinds of normalizer at work: a medium with densities up to 5
    and five decades, whose limits the colour bar leaves alone, and a medium
    that is empty, whose second image is drawn with the limits the colour
    bar has put in the place of zero and zero. *)
Example density_scales_of_the_demo :
  trace (plotMediaDensityCut (Demo.toolkit true) (Demo.simulation_of [Demo.dns])
                             default_decades None default_figSize None
                             Demo.dns "dust" "xy")
  = [Subplots 2 (18, 6);
     Imshow 0 [[1; 3]; [2; 4]] (WithNorm (LogNorm (5 / 10 ^ 5) 5)) (-1, 1, -1, 1);
     Colorbar "density [Msun/pc3]";
     Imshow 1 [[5 / 10 ^ 5; 5]; [2; 4]] (WithNorm (LogNorm (5 / 10 ^ 5) 5))
            (-1, 1, -1, 1);
     SetXlim 0 (-1) 1; SetYlim 0 (-1) 1; SetXlim 1 (-1) 1; SetYlim 1 (-1) 1;
     SetXlabel 0 "x [pc]"; SetYlabel 0 "y [pc]";
     SetXlabel 1 "x [pc]"; SetYlabel 1 "y [pc]"]
  /\
  map (fun ev => match ev with Imshow _ _ s _ => Some s | _ => None end)
      (firstn 4 (trace (plotMediaDensityCut
                          (Demo.toolkit true) (Demo.simulation_of [Demo.nil_probe])
                          default_decades None default_figSize None
                          Demo.nil_probe "gas" "yz")))
  = [None; Some (WithNorm (Normalize (0 / 10 ^ 5) 0)); None;
     Some (WithNorm (Normalize (- (1 # 10)) (1 # 10)))].
Proof. split; reflexivity. Qed.

(** Beyond the largest float the division is refused, and the pass ends
    with no call to matplotlib made. *)
Example too_many_decades_end_the_run :
  plotMediaDensityCuts (Demo.toolkit false) (Demo.simulation_of [Demo.dns])
                       309 None (18, 6) None
  = (Raised (OverflowError "int too large to convert to float"), []).
Proof. reflexivity. Qed.

(* ----------------------------------------------------------------- *)
(** ** Exceptions *)

(** *** Where they come from *)

Section RaisesOnly.

Variable R : exn -> Prop.

Lemma raises_only_ret {A : Type} (a : A) : raises_only R (ret a).
Proof. intros e H. discriminate. Qed.

Lemma raises_only_emit (ev : event) : raises_only R (emit ev).
Proof. intros e H. discriminate. Qed.

Lemma raises_only_call {A : Type} (r : exn + A) :
  (forall e, r = inl e -> R e) -> raises_only R (call r).
Proof.
  intros H e He. destruct r as [e' | a]; [| discriminate].
  apply H. simpl in He. congruence.
Qed.

Lemma raises_only_bind {A B : Type} (m : Py A) (k : A -> Py B) :
  raises_only R m -> (forall a, raises_only R (k a)) ->
  raises_only R (bind m k).
Proof.
  intros Hm Hk e He. destruct m as [[a | e'] t]; simpl in He.
  - apply (Hk a). destruct (k a). exact He.
  - apply Hm. simpl. congruence.
Qed.

Lemma raises_only_for_each {A : Type} (l : list A) (body : A -> Py unit) :
  (forall x, raises_only R (body x)) -> raises_only R (for_each l body).
Proof.
  intros H. induction l as [| x l IH]; cbn [for_each].
  - apply raises_only_ret.
  - apply raises_only_bind; [apply H | intros _; exact IH].
Qed.

Lemma raises_only_comprehension {A B : Type} (f : A -> Py B) (l : list A) :
  (forall x, raises_only R (f x)) -> raises_only R (comprehension f l).
Proof.
  intros H. induction l as [| x l IH]; cbn [comprehension].
  - apply raises_only_ret.
  - apply raises_only_bind; [apply H|]. intros y.
    apply raises_only_bind; [apply IH|]. intros ys. apply raises_only_ret.
Qed.

End RaisesOnly.

Lemma item_first_raises {A : Type} (l : list A) (e : exn) :
  item_first l = inl e -> exists msg, e = IndexError msg.
Proof. destruct l; intros H; inversion H. eauto. Qed.

Lemma item_last_raises {A : Type} (l : list A) (e : exn) :
  item_last l = inl e -> exists msg, e = IndexError msg.
Proof. unfold item_last. destruct (rev l); intros H; inversion H. eauto. Qed.

Lemma char_first_raises (s : string) (e : exn) :
  char_first s = inl e -> exists msg, e = IndexError msg.
Proof. destruct s; intros H; inversion H. eauto. Qed.

Lemma char_last_raises (s : string) (e : exn) :
  char_last s = inl e -> exists msg, e = IndexError msg.
Proof.
  induction s as [| c s IH]; intros H.
  - inversion H. eauto.
  - destruct s as [| c' s']; [discriminate|]. apply IH. exact H.
Qed.

Lemma frame_max_raises (f : Frame) (e : exn) :
  frame_max f = inl e -> exists msg, e = ValueError msg.
Proof. unfold frame_max. destruct (List.concat _); intros H; inversion H. eauto. Qed.

Lemma max_list_raises (l : list Q) (e : exn) :
  max_list l = inl e -> exists msg, e = ValueError msg.
Proof. destruct l; intros H; inversion H. eauto. Qed.

(** Settles where the exception of one call comes from. *)
Ltac call_origin :=
  let e := fresh "e" in
  let He := fresh "He" in
  intros e He; unfold raised_below;
  first
    [ left; eexists; exact He
    | right; left; eexists; exact He
    | right; right; left; do 5 eexists; exact He
    | right; right; right; left; eexists; exact He
    | right; right; right; right; left; do 2 eexists; exact He
    | right; right; right; right; right; left;
      first [ exact (item_first_raises _ _ He) | exact (item_last_raises _ _ He)
            | exact (char_first_raises _ _ He) | exact (char_last_raises _ _ He) ]
    | right; right; right; right; right; right;
      first [ exact (frame_max_raises _ _ He) | exact (max_list_raises _ _ He) ] ].

(** Takes a script apart into its calls, as to the exceptions they raise. *)
Ltac script_raises :=
  repeat first
    [ apply raises_only_ret
    | apply raises_only_emit
    | apply raises_only_call; call_origin
    | apply raises_only_bind; [| intros ?]
    | apply raises_only_comprehension; intros ?
    | match goal with
      | |- raises_only _ (savefig _ _) => unfold savefig
      | |- raises_only _ (raise _) =>
          let e := fresh "e" in
          let He := fresh "He" in
          intros e He; inversion He; subst; unfold raised_below;
          right; right; right; left; eexists; eassumption
      | |- raises_only _ (let (_, _) := ?x in _) => destruct x
      | |- raises_only _ (if ?c then _ else _) => destruct c eqn:?
      | |- raises_only _ (match ?x with _ => _ end) => destruct x eqn:?
      end ].

Lemma density_cut_raises
  (tk : Toolkit) (simulation : Simulation) (decades : Z)
  (outDirPath : option string) (figSize : Q * Q) (interactive : option bool)
  (probe : Probe) (medium cut : string) :
  raises_only (raised_below tk)
              (plotMediaDensityCut tk simulation decades outDirPath figSize
                                   interactive probe medium cut).
Proof. unfold plotMediaDensityCut. script_raises. Qed.

Lemma temperature_panel_raises (tk : Toolkit) (Tmax : Q) item :
  raises_only (raised_below tk) (plotTemperaturePanel tk Tmax item).
Proof.
  destruct item as [ax [cut [frame [xgrid ygrid]]]].
  unfold plotTemperaturePanel. script_raises.
Qed.

Lemma temperature_probe_raises
  (tk : Toolkit) (simulation : Simulation)
  (outDirPath outFileName outFilePath_ : option string)
  (interactive : option bool) (figSize : option (Q * Q)) (probe : Probe) :
  raises_only (raised_below tk)
              (plotTemperatureProbe tk simulation outDirPath outFileName
                                    outFilePath_ interactive figSize probe).
Proof.
  unfold plotTemperatureProbe.
  destruct (negb (valid_numcuts _)); [apply raises_only_ret|].
  do 5 (apply raises_only_bind; [script_raises | intros ?]).
  apply raises_only_bind.
  { apply raises_only_for_each. intros item. apply temperature_panel_raises. }
  intros _. script_raises.
Qed.

Lemma temperature_loop_raises
  (tk : Toolkit) (simulation : Simulation)
  (outDirPath outFileName outFilePath_ : option string)
  (interactive : option bool) (probes : list Probe) :
  forall figSize,
    raises_only (raised_below tk)
                (temperature_loop tk simulation outDirPath outFileName
                                  outFilePath_ interactive probes figSize).
Proof.
  induction probes as [| probe rest IH]; intros figSize; cbn [temperature_loop].
  - apply raises_only_ret.
  - apply raises_only_bind; [apply temperature_probe_raises|].
    intros [figSize' |]; [apply IH | apply raises_only_ret].
Qed.

(** *** A write that fails *)

Lemma until_failed_write_app (err : Path -> option exn) (t1 t2 : list event) :
  until_failed_write err (t1 ++ t2)
  = match until_failed_write err t1 with
    | (t1', Some e) => (t1', Some e)
    | (t1', None) =>
        let (t2', r) := until_failed_write err t2 in (t1' ++ t2', r)
    end.
Proof.
  induction t1 as [| ev t1 IH]; cbn [app until_failed_write].
  - destruct (until_failed_write err t2). reflexivity.
  - destruct (match ev with Savefig path => err path | _ => None end);
      [reflexivity|].
    rewrite IH. destruct (until_failed_write err t1) as [t1' [e |]];
      [reflexivity|].
    destruct (until_failed_write err t2). reflexivity.
Qed.

Section StopAtFailedWrite.

Variable err : Path -> option exn.

Lemma stop_ret {A : Type} (a : A) : ret a = stop_at_failed_write err (ret a).
Proof. reflexivity. Qed.

Lemma stop_call {A : Type} (r : exn + A) :
  call r = stop_at_failed_write err (call r).
Proof. destruct r; reflexivity. Qed.

Lemma stop_emit (ev : event) :
  is_savefig ev = false -> emit ev = stop_at_failed_write err (emit ev).
Proof. destruct ev; try discriminate; reflexivity. Qed.

Lemma stop_bind {A B : Type} (m m' : Py A) (k k' : A -> Py B) :
  m = stop_at_failed_write err m' ->
  (forall a, k a = stop_at_failed_write err (k' a)) ->
  bind m k = stop_at_failed_write err (bind m' k').
Proof.
  intros -> Hk. destruct m' as [[a | e] t]; unfold stop_at_failed_write.
  - cbn [bind snd fst]. specialize (Hk a). unfold stop_at_failed_write in Hk.
    destruct (k' a) as [r' t2]. cbn [snd fst] in *.
    rewrite until_failed_write_app.
    destruct (until_failed_write err t) as [t1' [e |]]; [reflexivity|].
    cbn [bind]. rewrite Hk.
    destruct (until_failed_write err t2) as [t2' [e |]]; reflexivity.
  - cbn [bind snd fst].
    destruct (until_failed_write err t) as [t1' [e' |]]; reflexivity.
Qed.

Lemma stop_for_each {A : Type} (l : list A) (body body' : A -> Py unit) :
  (forall x, body x = stop_at_failed_write err (body' x)) ->
  for_each l body = stop_at_failed_write err (for_each l body').
Proof.
  intros H. induction l as [| x l IH]; cbn [for_each].
  - apply stop_ret.
  - apply stop_bind; [apply H | intros _; exact IH].
Qed.

Lemma stop_comprehension {A B : Type} (f : A -> Py B) (l : list A) :
  (forall x, f x = stop_at_failed_write err (f x)) ->
  comprehension f l = stop_at_failed_write err (comprehension f l).
Proof.
  intros H. induction l as [| x l IH]; cbn [comprehension].
  - apply stop_ret.
  - apply stop_bind; [apply H|]. intros y.
    apply stop_bind; [apply IH|]. intros ys. apply stop_ret.
Qed.

End StopAtFailedWrite.

Lemma stop_savefig (tk : Toolkit) (path : Path) :
  savefig tk path
  = stop_at_failed_write (savefig_error tk)
      (savefig (with_savefig_error tk (fun _ => None)) path).
Proof.
  unfold savefig, stop_at_failed_write. cbn.
  destruct (savefig_error tk path); reflexivity.
Qed.

(** Takes a script apart into its calls, as to the first write that fails. *)
Ltac script_stops :=
  cbn [loadFits getFitsAxes latexForUnit interactive_mode savePath
       true_divide colorbar_limits with_savefig_error];
  repeat first
    [ apply stop_ret
    | apply stop_call
    | apply stop_savefig
    | apply stop_emit; reflexivity
    | apply stop_bind; [| intros ?]
    | apply stop_comprehension; intros ?
    | match goal with
      | |- (let (_, _) := ?x in _) = _ => destruct x
      | |- (if ?c then _ else _) = _ => destruct c
      end ].

Lemma density_cut_stops
  (tk : Toolkit) (simulation : Simulation) (decades : Z)
  (outDirPath : option string) (figSize : Q * Q) (interactive : option bool)
  (probe : Probe) (medium cut : string) :
  plotMediaDensityCut tk simulation decades outDirPath figSize interactive
                      probe medium cut
  = stop_at_failed_write (savefig_error tk)
      (plotMediaDensityCut (with_savefig_error tk (fun _ => None)) simulation
                           decades outDirPath figSize interactive
                           probe medium cut).
Proof. unfold plotMediaDensityCut. script_stops. Qed.

Lemma temperature_panel_stops (tk : Toolkit) (Tmax : Q) item :
  plotTemperaturePanel tk Tmax item
  = stop_at_failed_write (savefig_error tk)
      (plotTemperaturePanel (with_savefig_error tk (fun _ => None)) Tmax item).
Proof.
  destruct item as [ax [cut [frame [xgrid ygrid]]]].
  unfold plotTemperaturePanel. script_stops.
Qed.

Lemma temperature_probe_stops
  (tk : Toolkit) (simulation : Simulation)
  (outDirPath outFileName outFilePath_ : option string)
  (interactive : option bool) (figSize : option (Q * Q)) (probe : Probe) :
  plotTemperatureProbe tk simulation outDirPath outFileName outFilePath_
                       interactive figSize probe
  = stop_at_failed_write (savefig_error tk)
      (plotTemperatureProbe (with_savefig_error tk (fun _ => None)) simulation
                            outDirPath outFileName outFilePath_
                            interactive figSize probe).
Proof.
  unfold plotTemperatureProbe.
  cbn [loadFits getFitsAxes latexForUnit interactive_mode savePath
       true_divide colorbar_limits with_savefig_error].
  destruct (negb (valid_numcuts _)); [apply stop_ret|].
  do 5 (apply stop_bind; [script_stops | intros ?]).
  apply stop_bind.
  { apply stop_for_each. intros item. apply temperature_panel_stops. }
  intros _. script_stops.
Qed.

Lemma temperature_loop_stops
  (tk : Toolkit) (simulation : Simulation)
  (outDirPath outFileName outFilePath_ : option string)
  (interactive : option bool) (probes : list Probe) :
  forall figSize,
    temperature_loop tk simulation outDirPath outFileName outFilePath_
                     interactive probes figSize
    = stop_at_failed_write (savefig_error tk)
        (temperature_loop (with_savefig_error tk (fun _ => None)) simulation
                          outDirPath outFileName outFilePath_
                          interactive probes figSize).
Proof.
  induction probes as [| probe rest IH]; intros figSize; cbn [temperature_loop].
  - apply stop_ret.
  - apply stop_bind; [apply temperature_probe_stops|].
    intros [figSize' |]; [apply IH | apply stop_ret].
Qed.

(** On a full disk, the first figure is drawn and its write ends the run. *)
Example full_disk_ends_the_run :
  let full_disk :=
    with_savefig_error (Demo.toolkit false)
                       (fun _ => Some (LibraryError "No space left on device")) in
  plotTemperatureCuts full_disk (Demo.simulation_of [Demo.tmp; Demo.two])
                      None None None None None
  = (Raised (LibraryError "No space left on device"),
     [Subplots 1 (8, 6);
      Imshow 0 [[10; 30]; [20; 40]] (WithLimits 0 40) (-1, 1, -1, 1);
      SetXlim 0 (-1) 1; SetYlim 0 (-1) 1;
      SetXlabel 0 "x [pc]"; SetYlabel 0 "y [pc]"; SetYlabel 0 "y [pc]";
      Colorbar "T [K]"]).
Proof. reflexivity. Qed.

(* ================================================================= *)
(** * Further properties *)

(* ----------------------------------------------------------------- *)
(** ** The repository path, read off the module path *)

Lemma removelast_firstn_pred {A : Type} (l : list A) :
  removelast l = firstn (List.length l - 1) l.
Proof. rewrite Nat.sub_1_r. apply removelast_firstn_len. Qed.

(** X1.  [pts()] works on the text of the module path alone: it keeps the
    anchor, so it is absolute exactly when the module path is, and it drops
    the last two components, so a module path of two components or fewer
    gives the bare anchor. *)
Theorem pts_drops_two_components (module_file : Path) :
  is_absolute (pts module_file) = is_absolute module_file /\
  parts (pts module_file)
  = firstn (List.length (parts module_file) - 2) (parts module_file).
Proof.
  split; [reflexivity|].
  unfold pts, parent. cbn [parts].
  rewrite (removelast_firstn_pred (removelast _)).
  rewrite (removelast_firstn_pred (parts module_file)).
  rewrite firstn_firstn, length_firstn.
  f_equal. lia.
Qed.

(* ----------------------------------------------------------------- *)
(** ** The probes of a simulation, one after the other *)

(** Of the simulation, the density loop uses [outFilePath] only. *)
Lemma density_loop_simulation
  (tk : Toolkit) (simulation simulation' : Simulation) (decades : Z)
  (outDirPath : option string) (figSize : Q * Q) (interactive : option bool)
  (probes_ : list Probe) :
  outFilePath simulation = outFilePath simulation' ->
  for_each probes_ (fun probe =>
    for_each density_media (fun medium =>
      for_each density_cuts (fun cut =>
        plotMediaDensityCut tk simulation decades outDirPath figSize
                            interactive probe medium cut)))
  = for_each probes_ (fun probe =>
      for_each density_media (fun medium =>
        for_each density_cuts (fun cut =>
          plotMediaDensityCut tk simulation' decades outDirPath figSize
                              interactive probe medium cut))).
Proof.
  intros H. repeat (apply for_each_ext; intros ?).
  unfold plotMediaDensityCut. now rewrite H.
Qed.

Lemma filter_skip {A : Type} (f : A -> bool) (pre post : list A) (x : A) :
  f x = false -> filter f (pre ++ x :: post) = filter f (pre ++ post).
Proof. intros H. rewrite !filter_app. cbn [filter]. now rewrite H. Qed.

(** X2.  A probe of a type the function does not look for changes nothing
    to its run, wherever the probe stands in the list: the run is the one
    over the list without it. *)
Theorem probes_of_other_types_are_ignored
  (tk : Toolkit) (outFilePath : string -> Path) (decades : Z)
  (outDirPath outFileName outFilePath_ : option string)
  (figSize : Q * Q) (figSize' : option (Q * Q)) (interactive : option bool)
  (pre post : list Probe) (probe : Probe) :
  (str_in (probe_type probe) density_probe_types = false ->
   plotMediaDensityCuts tk (mkSimulation (pre ++ probe :: post) outFilePath)
                        decades outDirPath figSize interactive
   = plotMediaDensityCuts tk (mkSimulation (pre ++ post) outFilePath)
                          decades outDirPath figSize interactive)
  /\
  (str_in (probe_type probe) probetypes = false ->
   plotTemperatureCuts tk (mkSimulation (pre ++ probe :: post) outFilePath)
                       outDirPath outFileName outFilePath_ interactive figSize'
   = plotTemperatureCuts tk (mkSimulation (pre ++ post) outFilePath)
                         outDirPath outFileName outFilePath_ interactive figSize').
Proof.
  split; intros H.
  - unfold plotMediaDensityCuts. cbn [probes].
    rewrite (filter_skip (fun p => str_in (probe_type p) density_probe_types)
                         pre post probe H).
    now apply density_loop_simulation.
  - unfold plotTemperatureCuts. cbn [probes].
    rewrite (filter_skip (fun p => str_in (probe_type p) probetypes)
                         pre post probe H).
    now apply temperature_loop_simulation.
Qed.

Lemma probes_of_other_types_are_ignored_witness :
  plotMediaDensityCuts (Demo.toolkit false)
    (mkSimulation ([Demo.dns] ++ Demo.tmp :: [Demo.nil_probe]) Demo.out_file)
    5 None (18, 6) None
  = plotMediaDensityCuts (Demo.toolkit false)
      (mkSimulation ([Demo.dns] ++ [Demo.nil_probe]) Demo.out_file)
      5 None (18, 6) None
  /\
  plotTemperatureCuts (Demo.toolkit false)
    (mkSimulation ([Demo.tmp] ++ Demo.dns :: [Demo.two]) Demo.out_file)
    None None None None None
  = plotTemperatureCuts (Demo.toolkit false)
      (mkSimulation ([Demo.tmp] ++ [Demo.two]) Demo.out_file)
      None None None None None.
Proof.
  split.
  - apply (proj1 (probes_of_other_types_are_ignored
                    (Demo.toolkit false) Demo.out_file 5 None None None
                    (18, 6) None None [Demo.dns] [Demo.nil_probe] Demo.tmp)).
    reflexivity.
  - apply (proj2 (probes_of_other_types_are_ignored
                    (Demo.toolkit false) Demo.out_file 5 None None None
                    (18, 6) None None [Demo.tmp] [Demo.two] Demo.dns)).
    reflexivity.
Defined.

(** X3.  [plotMediaDensityCuts] carries nothing from one probe to the next:
    its run over a list of probes is its run over the front of the list
    followed by its run over the rest. *)
Theorem density_cuts_run_probe_by_probe
  (tk : Toolkit) (outFilePath : string -> Path) (decades : Z)
  (outDirPath : option string) (figSize : Q * Q) (interactive : option bool)
  (front rest : list Probe) :
  plotMediaDensityCuts tk (mkSimulation (front ++ rest) outFilePath)
                       decades outDirPath figSize interactive
  = (plotMediaDensityCuts tk (mkSimulation front outFilePath)
                          decades outDirPath figSize interactive ;;
     plotMediaDensityCuts tk (mkSimulation rest outFilePath)
                          decades outDirPath figSize interactive).
Proof.
  unfold plotMediaDensityCuts. cbn [probes].
  rewrite filter_app, for_each_app.
  rewrite (density_loop_simulation tk
             (mkSimulation (front ++ rest) outFilePath)
             (mkSimulation front outFilePath)) by reflexivity.
  apply bind_ext. intros _.
  now apply density_loop_simulation.
Qed.

(* ----------------------------------------------------------------- *)
(** ** The order of the calls *)

Lemma steps_app (overlap : bool) (t1 t2 : list event) :
  forall s,
    steps overlap s (t1 ++ t2)
    = match steps overlap s t1 with
      | Some s' => steps overlap s' t2
      | None => None
      end.
Proof.
  induction t1 as [| ev t1 IH]; intros s; cbn [app steps]; [reflexivity|].
  destruct (step overlap s ev); [apply IH | reflexivity].
Qed.

Section Conforms.

Variable overlap : bool.

Lemma conforms_ret {A : Type} (s : stage) (a : A) (R : A -> stage -> Prop) :
  R a s -> conforms overlap s (ret a) R.
Proof.
  intros H. exists s. split; [reflexivity|].
  intros a' E. cbn in E. injection E as <-. exact H.
Qed.

Lemma conforms_call {A : Type} (s : stage) (r : exn + A)
      (R : A -> stage -> Prop) :
  (forall a, r = inr a -> R a s) -> conforms overlap s (call r) R.
Proof.
  intros H. exists s. split; [destruct r; reflexivity|].
  intros a E. apply H. destruct r; [discriminate|].
  cbn in E. now injection E as <-.
Qed.

Lemma conforms_emit (s s' : stage) (ev : event) (R : unit -> stage -> Prop) :
  step overlap s ev = Some s' -> R tt s' -> conforms overlap s (emit ev) R.
Proof.
  intros Hstep H. exists s'. split.
  - cbn [emit trace snd steps]. now rewrite Hstep.
  - now intros [] _.
Qed.

Lemma conforms_bind {A B : Type} (s : stage) (m : Py A) (k : A -> Py B)
      (R : B -> stage -> Prop) :
  conforms overlap s m (fun a s' => conforms overlap s' (k a) R) ->
  conforms overlap s (bind m k) R.
Proof.
  intros (s1 & Hs1 & Hk). destruct m as [[a | e] t1]; cbn [trace snd fst] in *.
  - destruct (Hk a eq_refl) as (s2 & Hs2 & HR).
    cbn [bind]. destruct (k a) as [r t2]. cbn [trace snd fst] in *.
    exists s2. split; [| exact HR].
    cbn [trace snd]. rewrite steps_app, Hs1. exact Hs2.
  - exists s1. split; [exact Hs1 | discriminate].
Qed.

Lemma conforms_weaken {A : Type} (s : stage) (m : Py A)
      (R R' : A -> stage -> Prop) :
  (forall a s', R a s' -> R' a s') ->
  conforms overlap s m R -> conforms overlap s m R'.
Proof. intros H (s' & Hs & HR). exists s'. split; auto. Qed.

Lemma conforms_bind_call {A B : Type} (s : stage) (r : exn + A)
      (k : A -> Py B) (R : B -> stage -> Prop) :
  (forall a, r = inr a -> conforms overlap s (k a) R) ->
  conforms overlap s (bind (call r) k) R.
Proof. intros H. apply conforms_bind. now apply conforms_call. Qed.

Lemma conforms_bind_emit {B : Type} (s s' : stage) (ev : event)
      (k : unit -> Py B) (R : B -> stage -> Prop) :
  step overlap s ev = Some s' ->
  conforms overlap s' (k tt) R ->
  conforms overlap s (bind (emit ev) k) R.
Proof. intros Hstep H. apply conforms_bind. now apply conforms_emit with s'. Qed.

(** A comprehension over calls that draw nothing stays where it is. *)
Lemma conforms_comprehension {A B : Type} (s : stage) (f : A -> exn + B)
      (l : list A) :
  conforms overlap s (comprehension (fun x => call (f x)) l)
           (fun ys s' => s' = s /\ List.length ys = List.length l).
Proof.
  induction l as [| x l IH]; cbn [comprehension].
  - now apply conforms_ret.
  - apply conforms_bind_call. intros y _.
    apply conforms_bind. eapply conforms_weaken; [| exact IH].
    intros ys s' [-> Hlen]. apply conforms_ret. split; [reflexivity|].
    cbn [List.length]. now rewrite Hlen.
Qed.

(** A loop whose body keeps [I] keeps [I]. *)
Lemma conforms_for_each {A : Type} (I : stage -> Prop) (l : list A)
      (body : A -> Py unit) :
  (forall x s, In x l -> I s -> conforms overlap s (body x) (fun _ s' => I s')) ->
  forall s, I s -> conforms overlap s (for_each l body) (fun _ s' => I s').
Proof.
  induction l as [| x l IH]; intros Hbody s Hs; cbn [for_each].
  - now apply conforms_ret.
  - apply conforms_bind.
    eapply conforms_weaken; [| apply (Hbody x s); [now left | exact Hs]].
    intros u s' Hs'. cbn beta in *. apply IH; [| exact Hs'].
    intros y s'' Hy. apply Hbody. now right.
Qed.

Lemma conforms_savefig (tk : Toolkit) (ncols : nat) (path : Path) :
  conforms overlap (Drawing ncols) (savefig tk path)
           (fun _ s' => s' = Saved path).
Proof.
  unfold savefig. destruct (savefig_error tk path) as [e |].
  - exists (Drawing ncols). split; [reflexivity | discriminate].
  - now apply conforms_emit with (Saved path).
Qed.

End Conforms.

Lemma density_cut_conforms
  (tk : Toolkit) (simulation : Simulation) (decades : Z)
  (outDirPath : option string) (figSize : Q * Q) (interactive : option bool)
  (probe : Probe) (medium cut : string) (s : stage) :
  at_rest (interactive_mode tk interactive) s ->
  conforms (interactive_mode tk interactive) s
           (plotMediaDensityCut tk simulation decades outDirPath figSize
                                interactive probe medium cut)
           (fun _ s' => at_rest (interactive_mode tk interactive) s').
Proof.
  unfold plotMediaDensityCut.
  destruct (interactive_mode tk interactive) eqn:Hmode; intros Hs;
    (destruct (_ && _); [| now apply conforms_ret]);
    do 5 (apply conforms_bind_call; intros ? _);
    match goal with |- conforms _ _ (let (_, _) := ?x in _) _ => destruct x end;
    do 3 (apply conforms_bind_call; intros ? _);
    (apply conforms_bind_emit with (Drawing 2);
     [destruct Hs as [-> | [Ho [n ->]]]; [reflexivity | reflexivity || discriminate]|]);
    repeat first
      [ apply conforms_bind_call; intros ? _
      | apply conforms_bind_emit with (Drawing 2); [reflexivity|] ];
    cbn [negb].
  - apply conforms_ret. right. eauto.
  - apply conforms_bind. eapply conforms_weaken; [| apply conforms_savefig].
    intros u s' ->. cbn beta.
    match goal with
    | |- conforms _ (Saved ?path) _ _ =>
        apply conforms_bind_emit with (Closed path); [reflexivity|]
    end.
    apply conforms_emit with Idle; [| now left].
    cbn [step]. now rewrite String.eqb_refl.
Qed.

Lemma temperature_panel_conforms
  (overlap : bool) (tk : Toolkit) (Tmax : Q) (ncols : nat) item :
  (fst item < ncols)%nat ->
  conforms overlap (Drawing ncols) (plotTemperaturePanel tk Tmax item)
           (fun _ s' => s' = Drawing ncols).
Proof.
  destruct item as [ax [cut [frame [xgrid ygrid]]]]. cbn [fst]. intros Hax.
  apply Nat.ltb_lt in Hax. unfold plotTemperaturePanel.
  repeat first
    [ apply conforms_bind_call; intros ? _
    | apply conforms_bind_emit with (Drawing ncols);
      [cbn [step]; now rewrite Hax|] ].
  apply conforms_emit with (Drawing ncols); [| reflexivity].
  cbn [step]. now rewrite Hax.
Qed.

Lemma temperature_probe_conforms
  (tk : Toolkit) (simulation : Simulation)
  (outDirPath outFileName outFilePath_ : option string)
  (interactive : option bool) (figSize : option (Q * Q)) (probe : Probe)
  (s : stage) :
  at_rest (interactive_mode tk interactive) s ->
  conforms (interactive_mode tk interactive) s
           (plotTemperatureProbe tk simulation outDirPath outFileName
                                 outFilePath_ interactive figSize probe)
           (fun _ s' => at_rest (interactive_mode tk interactive) s').
Proof.
  unfold plotTemperatureProbe.
  set (numcuts := List.length (outFilePaths probe _)).
  destruct (interactive_mode tk interactive) eqn:Hmode; intros Hs;
    (destruct (negb (valid_numcuts numcuts)); [now apply conforms_ret|]);
    do 3 (apply conforms_bind;
          (eapply conforms_weaken; [| apply conforms_comprehension]);
          intros ? ? [-> _]; cbn beta);
    (apply conforms_bind_call; intros ? _);
    (apply conforms_bind_emit with (Drawing numcuts);
     [destruct Hs as [-> | [Ho [n ->]]]; [reflexivity | reflexivity || discriminate]|]);
    (apply conforms_bind;
     (eapply conforms_weaken;
      [| apply (conforms_for_each _ (fun s => s = Drawing numcuts));
         [| reflexivity];
         intros [ax item] ? Hitem ->; apply temperature_panel_conforms;
         apply in_combine_l, in_seq in Hitem; apply Hitem]);
     intros ? ? ->; cbn beta);
    (apply conforms_bind_call; intros ? _);
    (apply conforms_bind_emit with (Drawing numcuts); [reflexivity|]);
    cbn [negb]; apply conforms_bind.
  - apply conforms_ret. apply conforms_ret. right. eauto.
  - apply conforms_bind_call; intros ? _.
    apply conforms_bind. eapply conforms_weaken; [| apply conforms_savefig].
    intros u s' ->. cbn beta.
    match goal with
    | |- conforms _ (Saved ?path) _ _ =>
        apply conforms_bind_emit with (Closed path); [reflexivity|]
    end.
    apply conforms_emit with Idle.
    + cbn [step]. now rewrite String.eqb_refl.
    + apply conforms_ret. now left.
Qed.

Lemma temperature_loop_conforms
  (tk : Toolkit) (simulation : Simulation)
  (outDirPath outFileName outFilePath_ : option string)
  (interactive : option bool) (probes : list Probe) :
  forall figSize s,
    at_rest (interactive_mode tk interactive) s ->
    conforms (interactive_mode tk interactive) s
             (temperature_loop tk simulation outDirPath outFileName
                               outFilePath_ interactive probes figSize)
             (fun _ s' => at_rest (interactive_mode tk interactive) s').
Proof.
  induction probes as [| probe rest IH]; intros figSize s Hs;
    cbn [temperature_loop].
  - now apply conforms_ret.
  - apply conforms_bind.
    eapply conforms_weaken; [| now apply temperature_probe_conforms].
    intros [figSize' |] s' Hs'; cbn beta in *.
    + now apply IH.
    + now apply conforms_ret.
Qed.

Lemma density_cuts_conform
  (tk : Toolkit) (simulation : Simulation) (decades : Z)
  (outDirPath : option string) (figSize : Q * Q) (interactive : option bool) :
  conforms (interactive_mode tk interactive) Idle
           (plotMediaDensityCuts tk simulation decades outDirPath figSize
                                 interactive)
           (fun _ s' => at_rest (interactive_mode tk interactive) s').
Proof.
  unfold plotMediaDensityCuts.
  apply (conforms_for_each _ (at_rest (interactive_mode tk interactive)));
    [| now left].
  intros probe s _ Hs.
  apply (conforms_for_each _ (at_rest (interactive_mode tk interactive)));
    [| exact Hs].
  intros medium s' _ Hs'.
  apply (conforms_for_each _ (at_rest (interactive_mode tk interactive)));
    [| exact Hs'].
  intros cut s'' _. apply density_cut_conforms.
Qed.

Lemma temperature_cuts_conform
  (tk : Toolkit) (simulation : Simulation)
  (outDirPath outFileName outFilePath_ : option string)
  (interactive : option bool) (figSize : option (Q * Q)) :
  conforms (interactive_mode tk interactive) Idle
           (plotTemperatureCuts tk simulation outDirPath outFileName
                                outFilePath_ interactive figSize)
           (fun _ s' => at_rest (interactive_mode tk interactive) s').
Proof.
  unfold plotTemperatureCuts. apply temperature_loop_conforms. now left.
Qed.

(** X4.  The calls of either function come in one order, whatever the
    files hold and however the run ends: a figure is created, its axes, and
    only axes it has, are drawn on, and then, unless figures are left open,
    it is written, closed and logged under the path it was written to,
    before the next figure is created; and a run that ends normally ends
    with no figure half done. *)
Theorem calls_follow_one_order
  (tk : Toolkit) (simulation : Simulation) (decades : Z)
  (outDirPath outFileName outFilePath_ : option string)
  (figSize : Q * Q) (figSize' : option (Q * Q)) (interactive : option bool) :
  conforms (interactive_mode tk interactive) Idle
           (plotMediaDensityCuts tk simulation decades outDirPath figSize
                                 interactive)
           (fun _ s' => at_rest (interactive_mode tk interactive) s')
  /\
  conforms (interactive_mode tk interactive) Idle
           (plotTemperatureCuts tk simulation outDirPath outFileName
                                outFilePath_ interactive figSize')
           (fun _ s' => at_rest (interactive_mode tk interactive) s').
Proof.
  split.
  - apply density_cuts_conform.
  - apply temperature_cuts_conform.
Qed.

Lemma unsaved_figures (t : list event) :
  forall s s',
    steps false s t = Some s' ->
    (List.length (flat_map (fun ev => match ev with
                                      | Subplots n sz => [(n, sz)]
                                      | _ => []
                                      end) t) + unsaved s
     = List.length (flat_map (fun ev => match ev with
                                        | Savefig p => [p]
                                        | _ => []
                                        end) t) + unsaved s')%nat.
Proof.
  induction t as [| ev t IH]; intros s s' H; cbn [steps] in H.
  - now inversion H.
  - destruct (step false s ev) as [s1 |] eqn:Hstep; [| discriminate].
    specialize (IH s1 s' H). cbn [flat_map]. rewrite !length_app.
    destruct ev, s; cbn [step] in Hstep; try discriminate;
      try (destruct (_ <? _)%nat; [| discriminate]);
      try (destruct (String.eqb _ _); [| discriminate]);
      injection Hstep as <-; cbn [unsaved List.length] in *; lia.
Qed.

(** X5.  When figures are not left open, every figure is written before
    the next one is created: at any end of a run at most one figure is
    created and not written, and at a normal end none is. *)
Theorem every_figure_is_written
  (tk : Toolkit) (simulation : Simulation) (decades : Z)
  (outDirPath outFileName outFilePath_ : option string)
  (figSize : Q * Q) (figSize' : option (Q * Q)) (interactive : option bool) :
  interactive_mode tk interactive = false ->
  let density :=
    plotMediaDensityCuts tk simulation decades outDirPath figSize interactive in
  let temperature :=
    plotTemperatureCuts tk simulation outDirPath outFileName outFilePath_
                        interactive figSize' in
  ((List.length (files_written density)
    <= List.length (figures_created density)
    <= List.length (files_written density) + 1)%nat /\
   (fst density = Done tt ->
    List.length (figures_created density) = List.length (files_written density)))
  /\
  ((List.length (files_written temperature)
    <= List.length (figures_created temperature)
    <= List.length (files_written temperature) + 1)%nat /\
   (fst temperature = Done tt ->
    List.length (figures_created temperature)
    = List.length (files_written temperature))).
Proof.
  intros Hmode density temperature.
  destruct (density_cuts_conform tk simulation decades outDirPath figSize
              interactive) as (sd & Hsd & Hd).
  destruct (temperature_cuts_conform tk simulation outDirPath outFileName
              outFilePath_ interactive figSize') as (st & Hst & Ht).
  fold density in Hsd, Hd. fold temperature in Hst, Ht.
  rewrite Hmode in *.
  apply unsaved_figures in Hsd. apply unsaved_figures in Hst.
  unfold files_written, figures_created. cbn [unsaved] in *.
  split; split.
  - destruct sd; cbn [unsaved] in Hsd; lia.
  - intros E. destruct (Hd tt E) as [-> | [Hf _]]; [| discriminate].
    cbn [unsaved] in Hsd. lia.
  - destruct st; cbn [unsaved] in Hst; lia.
  - intros E. destruct (Ht tt E) as [-> | [Hf _]]; [| discriminate].
    cbn [unsaved] in Hst. lia.
Qed.

Lemma every_figure_is_written_witness :
  List.length
    (figures_created
       (plotMediaDensityCuts (Demo.toolkit false)
          (Demo.simulation_of [Demo.dns; Demo.nil_probe]) 5 None (18, 6) None))
  = List.length
      (files_written
         (plotMediaDensityCuts (Demo.toolkit false)
            (Demo.simulation_of [Demo.dns; Demo.nil_probe]) 5 None (18, 6) None)).
Proof.
  apply (every_figure_is_written
           (Demo.toolkit false) (Demo.simulation_of [Demo.dns; Demo.nil_probe])
           5 None None None (18, 6) None None eq_refl).
  reflexivity.
Defined.

(* ----------------------------------------------------------------- *)
(** ** What the interactive mode changes *)

Section WithoutSaving.

Lemma without_saving_ret {A : Type} (a : A) : ret a = without_saving (ret a).
Proof. reflexivity. Qed.

Lemma without_saving_call {A : Type} (r : exn + A) :
  call r = without_saving (call r).
Proof. destruct r; reflexivity. Qed.

Lemma without_saving_emit (ev : event) :
  draws ev = true -> emit ev = without_saving (emit ev).
Proof.
  intros H. unfold without_saving, emit. cbn [fst snd filter]. now rewrite H.
Qed.

Lemma without_saving_bind {A B : Type} (m m' : Py A) (k k' : A -> Py B) :
  m = without_saving m' ->
  (forall a, k a = without_saving (k' a)) ->
  bind m k = without_saving (bind m' k').
Proof.
  intros -> Hk. destruct m' as [[a | e] t]; unfold without_saving;
    cbn [bind fst snd]; [| reflexivity].
  rewrite (Hk a). unfold without_saving.
  destruct (k' a) as [r t']. cbn [fst snd]. now rewrite filter_app.
Qed.

Lemma without_saving_for_each {A : Type} (l : list A) (body body' : A -> Py unit) :
  (forall x, body x = without_saving (body' x)) ->
  for_each l body = without_saving (for_each l body').
Proof.
  intros H. induction l as [| x l IH]; cbn [for_each].
  - apply without_saving_ret.
  - apply without_saving_bind; [apply H | intros _; exact IH].
Qed.

Lemma without_saving_comprehension {A B : Type} (f : A -> exn + B) (l : list A) :
  comprehension (fun x => call (f x)) l
  = without_saving (comprehension (fun x => call (f x)) l).
Proof.
  induction l as [| x l IH]; cbn [comprehension].
  - apply without_saving_ret.
  - apply without_saving_bind; [apply without_saving_call|]. intros y.
    apply without_saving_bind; [apply IH|]. intros ys. apply without_saving_ret.
Qed.

(** Where saving cannot fail, the lines that save draw nothing and end
    normally. *)
Lemma without_saving_save (tk : Toolkit) (def : Path)
      (dir name path : option string) :
  saves_dependably tk ->
  ret tt
  = without_saving
      (saveFilePath <- call (savePath tk def [".pdf"; ".png"] dir name path) ;;
       savefig tk saveFilePath ;;
       emit Close ;;
       emit (LogInfo ("Created " ++ path_str saveFilePath)%string)).
Proof.
  intros [Hpath Hwrite].
  destruct (Hpath def [".pdf"; ".png"] dir name path) as [saveFilePath ->].
  cbn [call]. rewrite bind_ret. unfold savefig. rewrite Hwrite. reflexivity.
Qed.

End WithoutSaving.

(** Takes a script apart into its calls, as to the calls that draw. *)
Ltac script_draws :=
  repeat first
    [ apply without_saving_ret
    | apply without_saving_call
    | apply without_saving_comprehension
    | apply without_saving_emit; reflexivity
    | apply without_saving_save; assumption
    | apply without_saving_bind; [| intros ?]
    | match goal with
      | |- (let (_, _) := ?x in _) = _ => destruct x
      | |- (if ?c then _ else _) = _ => destruct c
      end ].

Section InteractiveOrNot.

Variable tk : Toolkit.
Variable simulation : Simulation.
Variables outDirPath outFileName outFilePath_ : option string.
Variables shown saved : option bool.
Hypothesis Hshown : interactive_mode tk shown = true.
Hypothesis Hsaved : interactive_mode tk saved = false.
Hypothesis Hdependable : saves_dependably tk.

Lemma density_cut_without_saving
  (decades : Z) (figSize : Q * Q) (probe : Probe) (medium cut : string) :
  plotMediaDensityCut tk simulation decades outDirPath figSize shown
                      probe medium cut
  = without_saving
      (plotMediaDensityCut tk simulation decades outDirPath figSize saved
                           probe medium cut).
Proof.
  unfold plotMediaDensityCut. rewrite Hshown, Hsaved. cbn [negb].
  script_draws.
Qed.

Lemma temperature_panel_without_saving (Tmax : Q) item :
  plotTemperaturePanel tk Tmax item
  = without_saving (plotTemperaturePanel tk Tmax item).
Proof.
  destruct item as [ax [cut [frame [xgrid ygrid]]]].
  unfold plotTemperaturePanel. script_draws.
Qed.

Lemma temperature_probe_without_saving
  (figSize : option (Q * Q)) (probe : Probe) :
  plotTemperatureProbe tk simulation outDirPath outFileName outFilePath_
                       shown figSize probe
  = without_saving
      (plotTemperatureProbe tk simulation outDirPath outFileName outFilePath_
                            saved figSize probe).
Proof.
  unfold plotTemperatureProbe. rewrite Hshown, Hsaved. cbn [negb].
  destruct (negb (valid_numcuts _)); [apply without_saving_ret|].
  do 5 (apply without_saving_bind; [script_draws | intros ?]).
  apply without_saving_bind.
  { apply without_saving_for_each. intros item.
    apply temperature_panel_without_saving. }
  intros _. script_draws.
Qed.

Lemma temperature_loop_without_saving (probes : list Probe) :
  forall figSize,
    temperature_loop tk simulation outDirPath outFileName outFilePath_
                     shown probes figSize
    = without_saving
        (temperature_loop tk simulation outDirPath outFileName outFilePath_
                          saved probes figSize).
Proof.
  induction probes as [| probe rest IH]; intros figSize; cbn [temperature_loop].
  - apply without_saving_ret.
  - apply without_saving_bind; [apply temperature_probe_without_saving|].
    intros [figSize' |]; [apply IH | apply without_saving_ret].
Qed.

(** X6.  Where saving cannot fail, the interactive mode changes nothing
    but the saving: a run that leaves its figures open ends as the run that
    saves them, and makes the same calls in the same order, less the writes,
    the closes and the log lines. *)
Theorem interactive_mode_only_drops_saving
  (decades : Z) (figSize : Q * Q) (figSize' : option (Q * Q)) :
  plotMediaDensityCuts tk simulation decades outDirPath figSize shown
  = without_saving
      (plotMediaDensityCuts tk simulation decades outDirPath figSize saved)
  /\
  plotTemperatureCuts tk simulation outDirPath outFileName outFilePath_
                      shown figSize'
  = without_saving
      (plotTemperatureCuts tk simulation outDirPath outFileName outFilePath_
                           saved figSize').
Proof.
  split.
  - unfold plotMediaDensityCuts.
    repeat (apply without_saving_for_each; intros ?).
    apply density_cut_without_saving.
  - unfold plotTemperatureCuts. apply temperature_loop_without_saving.
Qed.

End InteractiveOrNot.

Lemma interactive_mode_only_drops_saving_witness :
  plotTemperatureCuts (Demo.toolkit false) (Demo.simulation_of [Demo.tmp; Demo.two])
                      None None None (Some true) None
  = without_saving
      (plotTemperatureCuts (Demo.toolkit false)
                           (Demo.simulation_of [Demo.tmp; Demo.two])
                           None None None (Some false) None).
Proof.
  assert (H : saves_dependably (Demo.toolkit false))
    by (split; [intros def ? ? ? ?; exists def |]; reflexivity).
  exact (proj2 (interactive_mode_only_drops_saving
                  (Demo.toolkit false) (Demo.simulation_of [Demo.tmp; Demo.two])
                  None None None (Some true) (Some false) eq_refl eq_refl H
                  5 (18, 6) None)).
Defined.

(* ----------------------------------------------------------------- *)
(** ** Runs that end normally *)

Lemma fst_bind_emit {B : Type} (ev : event) (k : unit -> Py B) :
  fst (bind (emit ev) k) = fst (k tt).
Proof. now rewrite bind_emit. Qed.

Lemma fst_bind_done {A B : Type} (m : Py A) (k : A -> Py B) (a : A) :
  fst m = Done a -> fst (bind m k) = fst (k a).
Proof.
  destruct m as [[a' | e] t]; cbn [fst]; intros H; [| discriminate].
  injection H as ->. cbn [bind]. now destruct (k a).
Qed.

Lemma for_each_done {A : Type} (l : list A) (body : A -> Py unit) :
  (forall x, In x l -> fst (body x) = Done tt) ->
  fst (for_each l body) = Done tt.
Proof.
  induction l as [| x l IH]; intros H; cbn [for_each]; [reflexivity|].
  rewrite (fst_bind_done _ _ tt) by (apply H; now left).
  apply IH. intros y Hy. apply H. now right.
Qed.

Lemma density_cut_ends_normally
  (tk : Toolkit) (simulation : Simulation) (decades : Z)
  (outDirPath : option string) (figSize : Q * Q) (interactive : option bool)
  (probe : Probe) (medium cut : string) :
  loads_dependably tk -> saves_dependably tk -> divides_dependably tk decades ->
  In cut density_cuts ->
  fst (plotMediaDensityCut tk simulation decades outDirPath figSize
                           interactive probe medium cut)
  = Done tt.
Proof.
  intros [Hload Hgrid] [Hpath Hwrite] Hdiv Hcut. unfold plotMediaDensityCut.
  destruct (outFilePaths probe (medium ++ "_t_" ++ cut ++ ".fits")%string)
    as [| tPath [| ? ?]]; [reflexivity | | reflexivity].
  destruct (outFilePaths probe (medium ++ "_g_" ++ cut ++ ".fits")%string)
    as [| gPath [| ? ?]]; [reflexivity | | reflexivity].
  cbn [List.length Nat.eqb andb item_first call]. rewrite bind_ret.
  destruct (Hload tPath) as (tFrame & HtFrame & Hpt).
  destruct (Hload gPath) as (gFrame & HgFrame & Hpg).
  destruct (Hgrid tPath) as (xgrid & ygrid & Hgrids & Hx & Hy).
  destruct (frame_max_some _ Hpt) as [tmax Htmax].
  destruct (frame_max_some _ Hpg) as [gmax Hgmax].
  destruct (Hdiv (py_max tmax gmax)) as [vmin Hvmin].
  destruct (item_first_some _ Hx) as [x0 Hx0].
  destruct (item_last_some _ Hx) as [x1 Hx1].
  destruct (item_first_some _ Hy) as [y0 Hy0].
  destruct (item_last_some _ Hy) as [y1 Hy1].
  assert (Hc : exists c0 c1, char_first cut = inr c0 /\ char_last cut = inr c1)
    by (destruct Hcut as [<- | [<- | [<- | []]]]; eexists; eexists;
        split; reflexivity).
  destruct Hc as (c0 & c1 & Hc0 & Hc1).
  destruct (Hpath (outFilePath simulation
                     (probe_name probe ++ "_" ++ medium ++ "_" ++ cut ++ ".pdf")%string)
                  [".pdf"; ".png"] outDirPath None None) as [saveFilePath Hsave].
  rewrite HtFrame. cbn [call].
  rewrite !bind_ret, HgFrame. cbn [call].
  rewrite bind_ret, Hgrids. cbn [call].
  rewrite bind_ret, Htmax. cbn [call].
  rewrite bind_ret, Hgmax. cbn [call].
  rewrite bind_ret, Hvmin. cbn [call].
  rewrite bind_ret, fst_bind_emit, Hx0, Hx1, Hy0, Hy1. cbn [call].
  rewrite !bind_ret, !fst_bind_emit, Hc0, Hc1. cbn [call].
  rewrite bind_ret, fst_bind_emit, bind_ret, !fst_bind_emit.
  destruct (negb (interactive_mode tk interactive)); [| reflexivity].
  rewrite Hsave. cbn [call]. rewrite bind_ret. unfold savefig.
  rewrite Hwrite. reflexivity.
Qed.



Lemma comprehension_done {A B : Type} (f : A -> exn + B) (l : list A) :
  forall ys,
    fst (comprehension (fun x => call (f x)) l) = Done ys ->
    Forall2 (fun x y => f x = inr y) l ys.
Proof.
  induction l as [| x l IH]; intros ys; cbn [comprehension].
  - intros H. cbn in H. injection H as <-. constructor.
  - destruct (f x) as [e | y] eqn:Hx; cbn [call]; [discriminate|].
    rewrite bind_ret.
    destruct (comprehension (fun x => call (f x)) l) as [[ys' | e] t] eqn:Hl;
      cbn [bind fst ret app]; [| discriminate].
    intros H. injection H as <-. constructor; [exact Hx|].
    apply IH. reflexivity.
Qed.

Lemma comprehension_total {A B : Type} (f : A -> exn + B) (l : list A) :
  (forall x, In x l -> exists y, f x = inr y) ->
  exists ys, comprehension (fun x => call (f x)) l = ret ys.
Proof.
  induction l as [| x l IH]; intros H; cbn [comprehension].
  - now exists [].
  - destruct (H x (or_introl eq_refl)) as [y ->].
    destruct IH as [ys ->]; [intros z Hz; apply H; now right|].
    exists (y :: ys). reflexivity.
Qed.

Lemma Forall2_in_r {A B : Type} (R : A -> B -> Prop) (l : list A) (l' : list B) :
  Forall2 R l l' -> forall y, In y l' -> exists x, In x l /\ R x y.
Proof.
  induction 1 as [| x y l l' Hxy _ IH]; intros z Hz; [easy|].
  destruct Hz as [<- | Hz].
  - exists x. split; [now left | exact Hxy].
  - destruct (IH z Hz) as (x' & Hx' & HR). exists x'. split; [now right | exact HR].
Qed.

Lemma char_first_some (s : string) :
  s <> "" -> exists c, char_first s = inr c.
Proof. destruct s; [easy | cbn; eauto]. Qed.

Lemma char_last_some (s : string) :
  s <> "" -> exists c, char_last s = inr c.
Proof.
  induction s as [| c s IH]; [easy|]. intros _.
  destruct s as [| c' s']; [cbn; eauto|].
  destruct IH as [c1 Hc1]; [discriminate|]. exists c1. exact Hc1.
Qed.

Lemma temperature_panel_ends_normally
  (tk : Toolkit) (Tmax : Q) (ax : nat) (cut : string) (frame : Frame)
  (xgrid ygrid : Grid) :
  cut <> "" -> gvalue xgrid <> [] -> gvalue ygrid <> [] ->
  fst (plotTemperaturePanel tk Tmax (ax, (cut, (frame, (xgrid, ygrid)))))
  = Done tt.
Proof.
  intros Hcut Hx Hy. unfold plotTemperaturePanel.
  destruct (item_first_some _ Hx) as [x0 ->].
  destruct (item_last_some _ Hx) as [x1 ->].
  destruct (item_first_some _ Hy) as [y0 ->].
  destruct (item_last_some _ Hy) as [y1 ->].
  destruct (char_first_some _ Hcut) as [c0 ->].
  destruct (char_last_some _ Hcut) as [c1 ->].
  reflexivity.
Qed.

Lemma valid_numcuts_positive (n : nat) : valid_numcuts n = true -> (0 < n)%nat.
Proof. destruct n; [discriminate | lia]. Qed.

Lemma temperature_probe_ends_normally
  (tk : Toolkit) (simulation : Simulation)
  (outDirPath outFileName outFilePath_ : option string)
  (interactive : option bool) (figSize : option (Q * Q)) (probe : Probe) :
  loads_dependably tk -> saves_dependably tk ->
  (forall path,
      In path (outFilePaths probe (probe_medium probe ++ "_T_*.fits")%string) ->
      cut_of path <> "") ->
  exists r,
    fst (plotTemperatureProbe tk simulation outDirPath outFileName outFilePath_
                              interactive figSize probe)
    = Done r.
Proof.
  intros [Hload Hgrid] [Hpath Hwrite] Hcuts. unfold plotTemperatureProbe.
  set (paths := outFilePaths probe (probe_medium probe ++ "_T_*.fits")%string) in *.
  destruct (valid_numcuts (List.length paths)) eqn:Hvalid; cbn [negb];
    [| eexists; reflexivity].
  apply valid_numcuts_positive in Hvalid.
  (* the frames *)
  destruct (comprehension_total (loadFits tk) paths) as [frames Hframes].
  { intros path _. destruct (Hload path) as (frame & H & _). eauto. }
  pose proof (comprehension_done (loadFits tk) paths frames) as Hloaded.
  rewrite Hframes in *. specialize (Hloaded eq_refl). rewrite bind_ret.
  (* the grids *)
  destruct (comprehension_total (getFitsAxes tk) paths) as [grids Hgrids].
  { intros path _. destruct (Hgrid path) as (xgrid & ygrid & H & _). eauto. }
  pose proof (comprehension_done (getFitsAxes tk) paths grids) as Haxes.
  rewrite Hgrids in *. specialize (Haxes eq_refl). rewrite bind_ret.
  (* the maxima *)
  destruct (comprehension_total frame_max frames) as [maxima Hmaxima].
  { intros frame Hframe.
    destruct (Forall2_in_r _ _ _ Hloaded frame Hframe) as (path & _ & Hp).
    destruct (Hload path) as (frame' & Hp' & Hpixels).
    rewrite Hp in Hp'. injection Hp' as <-. now apply frame_max_some. }
  pose proof (comprehension_done frame_max frames maxima) as Hmax.
  rewrite Hmaxima in *. specialize (Hmax eq_refl). rewrite bind_ret.
  apply Forall2_length in Hloaded as Hlen1. apply Forall2_length in Hmax as Hlen2.
  destruct maxima as [| m maxima]; [cbn in Hlen2; lia|].
  cbn [max_list call]. rewrite bind_ret, fst_bind_emit.
  (* the panels *)
  rewrite (fst_bind_done _ _ tt).
  2:{ apply for_each_done. intros [ax [cut [frame [xgrid ygrid]]]] Hitem.
      apply in_combine_r in Hitem.
      apply in_combine_l in Hitem as Hcut. apply in_combine_r in Hitem.
      apply in_combine_r in Hitem.
      apply in_map_iff in Hcut. destruct Hcut as (path & <- & Hpath').
      destruct (Forall2_in_r _ _ _ Haxes _ Hitem) as (path' & _ & Hp).
      destruct (Hgrid path') as (xgrid' & ygrid' & Hp' & Hx & Hy).
      rewrite Hp in Hp'. injection Hp' as <- <-.
      apply temperature_panel_ends_normally; auto. apply Hcuts, Hpath'. }
  (* the color bar and the file *)
  destruct (item_last_some frames) as [frame ->];
    [destruct frames; [cbn in Hlen1; lia | discriminate]|].
  cbn [call]. rewrite bind_ret, fst_bind_emit.
  destruct (negb (interactive_mode tk interactive)).
  - destruct (Hpath (outFilePath simulation
                       (probe_name probe ++ "_" ++ probe_medium probe ++ "_T.pdf")%string)
                    [".pdf"; ".png"] outDirPath outFileName outFilePath_)
      as [saveFilePath ->].
    cbn [call]. rewrite bind_ret. unfold savefig. rewrite Hwrite.
    eexists. reflexivity.
  - eexists. reflexivity.
Qed.

(** X8.  Where every file can be read and holds arrays that are not empty,
    saving cannot fail, and the name of every temperature file ends, before
    its suffix, in a cut that is not the empty string, [plotTemperatureCuts]
    ends normally. *)
Theorem temperature_cuts_end_normally
  (tk : Toolkit) (simulation : Simulation)
  (outDirPath outFileName outFilePath_ : option string)
  (interactive : option bool) (figSize : option (Q * Q)) :
  loads_dependably tk -> saves_dependably tk ->
  (forall probe path,
      In probe (probes simulation) ->
      In path (outFilePaths probe (probe_medium probe ++ "_T_*.fits")%string) ->
      cut_of path <> "") ->
  fst (plotTemperatureCuts tk simulation outDirPath outFileName outFilePath_
                           interactive figSize)
  = Done tt.
Proof.
  intros Hload Hsave Hcuts. unfold plotTemperatureCuts.
  assert (Hin : forall probe,
             In probe (filter (fun probe => str_in (probe_type probe) probetypes)
                              (probes simulation)) ->
             In probe (probes simulation))
    by (intros probe H; now apply filter_In in H).
  revert figSize.
  induction (filter _ (probes simulation)) as [| probe rest IH]; intros figSize;
    cbn [temperature_loop]; [reflexivity|].
  destruct (temperature_probe_ends_normally tk simulation outDirPath outFileName
              outFilePath_ interactive figSize probe Hload Hsave) as [r Hr].
  { intros path. apply Hcuts, Hin. now left. }
  rewrite (fst_bind_done _ _ r Hr).
  destruct r as [figSize' |]; [| reflexivity].
  apply IH. intros p Hp. apply Hin. now right.
Qed.

Lemma temperature_cuts_end_normally_witness :
  fst (plotTemperatureCuts (steady_toolkit false)
                           (Demo.simulation_of [Demo.tmp; Demo.two])
                           None None None None None)
  = Done tt.
Proof.
  apply (temperature_cuts_end_normally
           (steady_toolkit false) (Demo.simulation_of [Demo.tmp; Demo.two])
           None None None None None).
  - repeat split.
    + intros path. exists Demo.warm_frame. split; [reflexivity | discriminate].
    + intros path. exists Demo.axis, Demo.axis. repeat split; discriminate.
  - split; [intros def ? ? ? ?; now exists def | reflexivity].
  - intros probe path [<- | [<- | []]] Hpath; cbn in Hpath;
      repeat (destruct Hpath as [<- | Hpath]; [discriminate|]);
      destruct Hpath.
Defined.

(** A file whose name ends in an underscore has the empty cut, and the
    first character of the empty cut is asked for once the image is drawn. *)
Example empty_cut_raises :
  let probe := Demo.probe_of "DefaultDustTemperatureCutsProbe" "raw"
                 [("dust_T_*.fits", [Demo.out_file "raw_dust_T_.fits"])] in
  plotTemperatureCuts (steady_toolkit false) (Demo.simulation_of [probe])
                      None None None None None
  = (Raised (IndexError "string index out of range"),
     [Subplots 1 (8, 6);
      Imshow 0 [[10; 30]; [20; 40]] (WithLimits 0 40) (-1, 1, -1, 1);
      SetXlim 0 (-1) 1; SetYlim 0 (-1) 1]).
Proof. reflexivity. Qed.

(* ----------------------------------------------------------------- *)
(** ** The values shown in a density image *)

Lemma in_transpose (rows : list (list Q)) (v : Q) :
  (forall row, In row rows -> List.length row = List.length (hd [] rows)) ->
  In v (List.concat (transpose rows)) -> In v (List.concat rows).
Proof.
  intros Hrect Hv. unfold transpose in Hv.
  apply in_concat in Hv. destruct Hv as (col & Hcol & Hv).
  apply in_map_iff in Hcol. destruct Hcol as (j & <- & Hj).
  apply in_map_iff in Hv. destruct Hv as (row & <- & Hrow).
  apply in_seq in Hj. apply in_concat. exists row. split; [exact Hrow|].
  apply nth_In. rewrite (Hrect row Hrow). lia.
Qed.

Lemma clip_below_rectangular (vmin : Q) (f : Frame) :
  rectangular f -> rectangular (clip_below vmin f).
Proof.
  unfold rectangular, clip_below. cbn [fvalue]. intros H row Hrow.
  apply in_map_iff in Hrow. destruct Hrow as (row0 & <- & Hrow0).
  rewrite length_map, (H row0 Hrow0).
  destruct (fvalue f); cbn [map hd]; [reflexivity | now rewrite length_map].
Qed.

Lemma in_clip_below (vmin : Q) (f : Frame) (v : Q) :
  In v (pixels (clip_below vmin f)) ->
  exists v0, In v0 (pixels f) /\ v = (if Qle_bool vmin v0 then v0 else vmin).
Proof.
  unfold pixels, clip_below. cbn [fvalue]. intros Hv.
  apply in_concat in Hv. destruct Hv as (row & Hrow & Hv).
  apply in_map_iff in Hrow. destruct Hrow as (row0 & <- & Hrow0).
  apply in_map_iff in Hv. destruct Hv as (v0 & <- & Hv0).
  exists v0. split; [| reflexivity]. apply in_concat. eauto.
Qed.

(** The values shown in an image of [plotMediaDensityCuts]: each is a value
    of one of the two frames, or the floor in its place. *)
Lemma density_cuts_image_values
  (tk : Toolkit) (simulation : Simulation) (decades : Z)
  (outDirPath : option string) (figSize : Q * Q) (interactive : option bool) :
  reads_arrays tk ->
  emits (image_of_cut tk simulation decades
           (fun normalizer shown =>
              exists vmax vmin,
                true_divide tk vmax decades = inr vmin /\
                normalizer = (if negb (Qle_bool vmax 0)
                              then LogNorm vmin vmax else Normalize vmin vmax) /\
                forall v, In v shown ->
                          exists v0, v0 <= vmax /\
                                     v = (if Qle_bool vmin v0 then v0 else vmin)))
        (plotMediaDensityCuts tk simulation decades outDirPath figSize interactive).
Proof.
  intros Harrays.
  eapply emits_weaken; [| apply density_cuts_images].
  intros ev (probe & medium & cut & Hprobe & Himage) ax data scaling extent Hev.
  destruct (Himage ax data scaling extent Hev)
    as (tFrame & gFrame & tmax & gmax & vmin
        & Hpair & Htmax & Hgmax & Hvmin & Hdrawn).
  assert (Hmax : is_maximum (py_max tmax gmax) (pixels tFrame ++ pixels gFrame))
    by (apply py_max_maximum; now apply frame_max_maximum).
  exists probe, medium, cut, tFrame, gFrame, (py_max tmax gmax), vmin,
    (if negb (Qle_bool (py_max tmax gmax) 0)
     then LogNorm vmin (py_max tmax gmax) else Normalize vmin (py_max tmax gmax)).
  split; [exact Hprobe|]. split; [exact Hpair|].
  split; [exact Hmax|]. split; [exact Hvmin|].
  split; [destruct (negb (Qle_bool (py_max tmax gmax) 0)); reflexivity|].
  split.
  { destruct Hdrawn as [(Hax & _ & Hs) | (Hax & _ & Hs)];
      [left | right]; split; assumption. }
  exists (py_max tmax gmax), vmin. split; [exact Hvmin|]. split; [reflexivity|].
  destruct Hpair as (tPath & gPath & _ & _ & HtFrame & HgFrame).
  intros v Hv.
  assert (Hin : exists frame,
             (frame = tFrame \/ frame = gFrame) /\
             In v (pixels (clip_below vmin frame))).
  { destruct Hdrawn as [(_ & -> & _) | (_ & -> & _)];
      [exists tFrame | exists gFrame];
      (split; [auto|]); apply in_transpose in Hv; auto;
      apply clip_below_rectangular; eapply Harrays; eassumption. }
  destruct Hin as (frame & Hframe & Hin).
  apply in_clip_below in Hin. destruct Hin as (v0 & Hv0 & ->).
  exists v0. split; [| reflexivity].
  apply Hmax. apply in_or_app. destruct Hframe as [-> | ->]; auto.
Qed.

Lemma image_of_cut_weaken
  (tk : Toolkit) (simulation : Simulation) (decades : Z)
  (P R : Norm -> list Q -> Prop) (ev : event) :
  (forall normalizer shown, P normalizer shown -> R normalizer shown) ->
  image_of_cut tk simulation decades P ev ->
  image_of_cut tk simulation decades R ev.
Proof.
  intros H Himage ax data scaling extent Hev.
  destruct (Himage ax data scaling extent Hev)
    as (probe & medium & cut & tFrame & gFrame & vmax & vmin & normalizer
        & Hprobe & Hpair & Hmax & Hvmin & Hlimits & Hscaling & HP).
  exists probe, medium, cut, tFrame, gFrame, vmax, vmin, normalizer. auto 10.
Qed.


(** X10.  Where the files hold arrays, and the division gives a maximum
    that is not positive a floor that is not below it, an image under the
    linear normalizer is flat: the maximum over the two frames is zero or
    negative, and every value shown equals the floor. *)
Theorem linear_images_are_flat
  (tk : Toolkit) (simulation : Simulation) (decades : Z)
  (outDirPath : option string) (figSize : Q * Q) (interactive : option bool) :
  reads_arrays tk -> floor_not_below tk decades ->
  emits (image_of_cut tk simulation decades flat_at_floor)
        (plotMediaDensityCuts tk simulation decades outDirPath figSize interactive).
Proof.
  intros Harrays Hfloor.
  eapply emits_weaken; [| now apply density_cuts_image_values].
  intros ev. apply image_of_cut_weaken.
  intros normalizer shown (M & m & Hm & -> & Hvalues) vmin vmax Hlin.
  destruct (positive_or_not M) as [[Hsign _] | [Hsign Hneg]];
    rewrite Hsign in Hlin; cbn [negb] in Hlin; [discriminate|].
  injection Hlin as -> ->.
  pose proof (Hfloor vmax vmin Hneg Hm) as Hhigh.
  split; [exact Hneg|]. split; [exact Hhigh|].
  intros v Hv. destruct (Hvalues v Hv) as (v0 & Hv0 & ->).
  destruct (Qle_bool vmin v0) eqn:Hclip; [| reflexivity].
  apply Qle_bool_iff in Hclip. apply Qle_antisym; [| exact Hclip].
  now apply Qle_trans with vmax.
Qed.

Lemma demo_reads_arrays (b : bool) : reads_arrays (Demo.toolkit b).
Proof.
  intros path frame H. cbn [loadFits Demo.toolkit] in H.
  repeat (destruct (contains _ _) in H); try discriminate;
    injection H as <-; intros row [<- | [<- | []]]; reflexivity.
Qed.


Lemma linear_images_are_flat_witness :
  emits (image_of_cut (Demo.toolkit false) (Demo.simulation_of [Demo.nil_probe]) 5
                      flat_at_floor)
        (plotMediaDensityCuts (Demo.toolkit false)
                              (Demo.simulation_of [Demo.nil_probe])
                              5 None (18, 6) None).
Proof.
  apply (linear_images_are_flat
           (Demo.toolkit false) (Demo.simulation_of [Demo.nil_probe])
           5 None (18, 6) None).
  - exact (demo_reads_arrays false).
  - exact (demo_floor_not_below false).
Defined.

(** Densities below zero only: the floor lies above the maximum. *)
Example floor_above_a_negative_maximum :
  let below_zero := mkFrame [[-4; -2]; [-3; -1]] "Msun/pc3" in
  let tk := mkToolkit (fun _ => inr below_zero)
                      (fun _ => inr (Demo.axis, Demo.axis))
                      (fun u => (" [" ++ u ++ "]")%string)
                      (fun _ => true)
                      (fun def _ _ _ _ => inr def)
                      (fun _ => None)
                      Demo.divide
                      Demo.relimit in
  firstn 2 (trace (plotMediaDensityCut tk (Demo.simulation_of [Demo.dns])
                                       1 None (18, 6) None Demo.dns "dust" "xy"))
  = [Subplots 2 (18, 6);
     Imshow 0 [[-1 / 10 ^ 1; -1 / 10 ^ 1]; [-1 / 10 ^ 1; -1 / 10 ^ 1]]
            (WithNorm (Normalize (-1 / 10 ^ 1) (-1))) (-1, 1, -1, 1)].
Proof. reflexivity. Qed.

(* ----------------------------------------------------------------- *)
(** ** The range of temperatures displayed *)

Lemma Forall2_in_l {A B : Type} (R : A -> B -> Prop) (l : list A) (l' : list B) :
  Forall2 R l l' -> forall x, In x l -> exists y, In y l' /\ R x y.
Proof.
  induction 1 as [| x y l l' Hxy _ IH]; intros z Hz; [easy|].
  destruct Hz as [<- | Hz].
  - exists y. split; [now left | exact Hxy].
  - destruct (IH z Hz) as (y' & Hy' & HR). exists y'. split; [now right | exact HR].
Qed.

Lemma max_list_maximum (frames : list Frame) (maxima : list Q) (Tmax : Q) :
  Forall2 (fun frame m => frame_max frame = inr m) frames maxima ->
  max_list maxima = inr Tmax ->
  is_maximum Tmax (flat_map pixels frames).
Proof.
  intros Hmax HT. destruct maxima as [| m rest]; [discriminate|].
  cbn [max_list] in HT. injection HT as <-.
  destruct (fold_py_max_maximum rest m) as [Hin Hge]. split.
  - destruct (Forall2_in_r _ _ _ Hmax _ Hin) as (frame & Hframe & Hm).
    apply in_flat_map. exists frame. split; [exact Hframe|].
    now apply frame_max_maximum.
  - intros v Hv. apply in_flat_map in Hv. destruct Hv as (frame & Hframe & Hv).
    destruct (Forall2_in_l _ _ _ Hmax _ Hframe) as (m' & Hm' & Hfm).
    apply Qle_trans with m'; [| now apply Hge].
    now apply (frame_max_maximum frame m' Hfm).
Qed.

Lemma temperature_panel_images
  (tk : Toolkit) (Tmax : Q) (ax : nat) (cut : string) (frame : Frame)
  (grids : Grid * Grid) :
  emits (fun ev => forall ax' data scaling extent,
                     ev = Imshow ax' data scaling extent ->
                     scaling = WithLimits 0 Tmax /\
                     data = transpose (fvalue frame))
        (plotTemperaturePanel tk Tmax (ax, (cut, (frame, grids)))).
Proof.
  destruct grids as [xgrid ygrid]. unfold plotTemperaturePanel.
  script_calls ltac:(intros ? ? ? ? Hev; try discriminate;
                     inversion Hev; subst; split; reflexivity).
Qed.

Lemma temperature_probe_images
  (tk : Toolkit) (simulation : Simulation)
  (outDirPath outFileName outFilePath_ : option string)
  (interactive : option bool) (figSize : option (Q * Q)) (probe : Probe) :
  In probe (probes simulation) ->
  emits (temperature_image tk simulation)
        (plotTemperatureProbe tk simulation outDirPath outFileName outFilePath_
                              interactive figSize probe).
Proof.
  intros Hprobe. unfold plotTemperatureProbe.
  destruct (negb (valid_numcuts _)); [apply emits_ret|].
  apply emits_bind_done;
    [apply emits_comprehension; intros ?; apply emits_call|].
  intros frames Hframes. apply comprehension_done in Hframes.
  apply emits_bind; [apply emits_comprehension; intros ?; apply emits_call|].
  intros grids.
  apply emits_bind_done;
    [apply emits_comprehension; intros ?; apply emits_call|].
  intros maxima Hmaxima. apply comprehension_done in Hmaxima.
  apply emits_bind_call. intros Tmax HTmax.
  pose proof (max_list_maximum frames maxima Tmax Hmaxima HTmax) as Hmax.
  apply emits_bind; [apply emits_emit; intros ? ? ? ? ?; discriminate|].
  intros _. apply emits_bind.
  - apply emits_for_each. intros [ax [cut [frame grids']]] Hitem.
    apply in_combine_r, in_combine_r, in_combine_l in Hitem.
    eapply emits_weaken; [| apply temperature_panel_images].
    intros ev Hev ax' data scaling extent E.
    destruct (Hev ax' data scaling extent E) as [-> ->].
    exists probe, frames, Tmax, frame.
    split; [exact Hprobe|]. split; [exact Hframes|]. split; [exact Hmax|].
    split; [reflexivity|]. split; [exact Hitem | reflexivity].
  - intros _.
    script_calls ltac:(intros ? ? ? ? ?; discriminate).
Qed.

Lemma temperature_loop_images
  (tk : Toolkit) (simulation : Simulation)
  (outDirPath outFileName outFilePath_ : option string)
  (interactive : option bool) (probes_ : list Probe) :
  (forall probe, In probe probes_ -> In probe (probes simulation)) ->
  forall figSize,
    emits (temperature_image tk simulation)
          (temperature_loop tk simulation outDirPath outFileName outFilePath_
                            interactive probes_ figSize).
Proof.
  induction probes_ as [| probe rest IH]; intros Hin figSize;
    cbn [temperature_loop].
  - apply emits_ret.
  - apply emits_bind.
    + apply temperature_probe_images. apply Hin. now left.
    + intros [figSize' |]; [| apply emits_ret].
      apply IH. intros p Hp. apply Hin. now right.
Qed.

(** X11.  The panels of a temperature figure share one colour range: every
    image is a frame of the probe as it was loaded, not clipped, drawn with
    colours from zero to the maximum over the frames of all the cuts of that
    probe. *)
Theorem temperature_panels_share_their_range
  (tk : Toolkit) (simulation : Simulation)
  (outDirPath outFileName outFilePath_ : option string)
  (interactive : option bool) (figSize : option (Q * Q)) :
  emits (temperature_image tk simulation)
        (plotTemperatureCuts tk simulation outDirPath outFileName outFilePath_
                             interactive figSize).
Proof.
  unfold plotTemperatureCuts. apply temperature_loop_images.
  intros probe Hprobe. now apply filter_In in Hprobe.
Qed.

(* ----------------------------------------------------------------- *)
(** ** The figures created *)

Lemma creates_none_no_figure {A : Type} (m : Py A) :
  emits creates_none m -> figures_created m = [].
Proof.
  unfold emits, figures_created. induction 1 as [| ev t Hev _ IH]; cbn [flat_map].
  - reflexivity.
  - destruct ev; try exact IH. destruct Hev.
Qed.

Lemma figures_bind {A B : Type} (m : Py A) (k : A -> Py B) :
  figures_created (bind m k)
  = figures_created m
    ++ match fst m with Done a => figures_created (k a) | Raised _ => [] end.
Proof.
  unfold figures_created. rewrite trace_bind, flat_map_app.
  now destruct (fst m).
Qed.

(** A bound on the figures of a sequence is the sum of the bounds on its
    parts. *)
Lemma figures_bind_le {A B : Type} (m : Py A) (k : A -> Py B) (n n' : nat) :
  (List.length (figures_created m) <= n)%nat ->
  (forall a, List.length (figures_created (k a)) <= n')%nat ->
  (List.length (figures_created (bind m k)) <= n + n')%nat.
Proof.
  intros Hm Hk. rewrite figures_bind, length_app.
  destruct (fst m) as [a | e]; [specialize (Hk a) | cbn [List.length]]; lia.
Qed.

Lemma figures_for_each_le {A : Type} (l : list A) (body : A -> Py unit) (n : nat) :
  (forall x, List.length (figures_created (body x)) <= n)%nat ->
  (List.length (figures_created (for_each l body)) <= n * List.length l)%nat.
Proof.
  intros H. induction l as [| x l IH]; cbn [for_each List.length].
  - cbn. lia.
  - pose proof (figures_bind_le (body x) (fun _ => for_each l body) n
                                (n * List.length l) (H x) (fun _ => IH)).
    lia.
Qed.

Lemma density_cut_figure
  (tk : Toolkit) (simulation : Simulation) (decades : Z)
  (outDirPath : option string) (figSize : Q * Q) (interactive : option bool)
  (probe : Probe) (medium cut : string) :
  figures_created (plotMediaDensityCut tk simulation decades outDirPath figSize
                                       interactive probe medium cut) = []
  \/
  figures_created (plotMediaDensityCut tk simulation decades outDirPath figSize
                                       interactive probe medium cut)
  = [(2%nat, figSize)].
Proof.
  unfold plotMediaDensityCut.
  destruct (_ && _); [| now left].
  repeat match goal with
         | |- context [figures_created (bind (call ?r) _)] =>
             destruct r; cbn [call]; [now left | rewrite bind_ret]
         | |- context [figures_created (let (_, _) := ?x in _)] => destruct x
         end.
  right. rewrite figures_bind.
  change (figures_created (emit (Subplots 2 figSize))) with [(2%nat, figSize)].
  cbn [emit fst app]. apply f_equal. apply creates_none_no_figure.
  script_calls ltac:(exact I).
Qed.

Lemma temperature_panel_creates_none (tk : Toolkit) (Tmax : Q) item :
  emits creates_none (plotTemperaturePanel tk Tmax item).
Proof.
  destruct item as [ax [cut [frame [xgrid ygrid]]]]. unfold plotTemperaturePanel.
  script_calls ltac:(exact I).
Qed.

Lemma comprehension_quiet {A B : Type} (f : A -> exn + B) (l : list A) :
  trace (comprehension (fun x => call (f x)) l) = [].
Proof.
  induction l as [| x l IH]; cbn [comprehension]; [reflexivity|].
  destruct (f x) as [e | y]; cbn [call]; [reflexivity|]. rewrite bind_ret.
  rewrite trace_bind, IH.
  destruct (fst (comprehension (fun x => call (f x)) l)); reflexivity.
Qed.

Lemma figures_bind_quiet {A B : Type} (m : Py A) (k : A -> Py B) :
  trace m = [] ->
  figures_created (bind m k)
  = match fst m with Done a => figures_created (k a) | Raised _ => [] end.
Proof.
  intros H. rewrite figures_bind. unfold figures_created at 1. now rewrite H.
Qed.

Lemma temperature_probe_figure
  (tk : Toolkit) (simulation : Simulation)
  (outDirPath outFileName outFilePath_ : option string)
  (interactive : option bool) (figSize : option (Q * Q)) (probe : Probe) :
  let numcuts :=
    List.length (outFilePaths probe (probe_medium probe ++ "_T_*.fits")%string) in
  figures_created (plotTemperatureProbe tk simulation outDirPath outFileName
                                        outFilePath_ interactive figSize probe) = []
  \/
  (valid_numcuts numcuts = true /\
   exists size,
     figures_created (plotTemperatureProbe tk simulation outDirPath outFileName
                                           outFilePath_ interactive figSize probe)
     = [(numcuts, size)]).
Proof.
  intros numcuts. unfold plotTemperatureProbe. fold numcuts.
  destruct (valid_numcuts numcuts) eqn:Hvalid; cbn [negb]; [| now left].
  do 3 (rewrite figures_bind_quiet by apply comprehension_quiet;
        match goal with
        | |- context [match fst ?m with _ => _ end] =>
            destruct (fst m); [| now left]
        end).
  match goal with
  | |- context [figures_created (bind (call ?r) _)] =>
      destruct r; cbn [call]; [now left | rewrite bind_ret]
  end.
  right. split; [reflexivity|]. eexists.
  rewrite figures_bind.
  match goal with
  | |- context [emit (Subplots ?n ?size)] =>
      change (figures_created (emit (Subplots n size))) with [(n, size)]
  end.
  cbn [emit fst app]. apply f_equal. apply creates_none_no_figure.
  apply emits_bind;
    [apply emits_for_each; intros ? _; apply temperature_panel_creates_none|].
  intros _. script_calls ltac:(exact I).
Qed.

Lemma figures_for_each_all {A : Type} (P : nat * (Q * Q) -> Prop) (l : list A)
      (body : A -> Py unit) :
  (forall x, In x l -> Forall P (figures_created (body x))) ->
  Forall P (figures_created (for_each l body)).
Proof.
  induction l as [| x l IH]; intros H; cbn [for_each]; [constructor|].
  rewrite figures_bind. apply Forall_app. split; [apply H; now left|].
  destruct (fst (body x)); [| constructor].
  apply IH. intros y Hy. apply H. now right.
Qed.

Lemma valid_numcuts_range (n : nat) :
  valid_numcuts n = true -> (1 <= n <= 3)%nat.
Proof. do 4 (destruct n as [| n]; try discriminate; try lia). Qed.

Lemma temperature_loop_figures
  (tk : Toolkit) (simulation : Simulation)
  (outDirPath outFileName outFilePath_ : option string)
  (interactive : option bool) (probes_ : list Probe) :
  (forall probe, In probe probes_ -> In probe (probes simulation)) ->
  forall figSize,
    Forall (temperature_figure simulation)
           (figures_created
              (temperature_loop tk simulation outDirPath outFileName
                                outFilePath_ interactive probes_ figSize))
    /\
    (List.length
       (figures_created
          (temperature_loop tk simulation outDirPath outFileName
                            outFilePath_ interactive probes_ figSize))
     <= List.length probes_)%nat.
Proof.
  induction probes_ as [| probe rest IH]; intros Hin figSize;
    cbn [temperature_loop].
  - split; [constructor | cbn; lia].
  - rewrite figures_bind, length_app.
    assert (Hrest : forall p, In p rest -> In p (probes simulation))
      by (intros p Hp; apply Hin; now right).
    assert (Htail :
              Forall (temperature_figure simulation)
                     (match fst (plotTemperatureProbe tk simulation outDirPath
                                   outFileName outFilePath_ interactive figSize
                                   probe) with
                      | Done (Next figSize') =>
                          figures_created
                            (temperature_loop tk simulation outDirPath outFileName
                               outFilePath_ interactive rest figSize')
                      | _ => []
                      end)
              /\
              (List.length
                 (match fst (plotTemperatureProbe tk simulation outDirPath
                               outFileName outFilePath_ interactive figSize
                               probe) with
                  | Done (Next figSize') =>
                      figures_created
                        (temperature_loop tk simulation outDirPath outFileName
                           outFilePath_ interactive rest figSize')
                  | _ => []
                  end)
               <= List.length rest)%nat).
    { destruct (fst (plotTemperatureProbe _ _ _ _ _ _ _ _)) as [[figSize' |] | e];
        try (split; [constructor | cbn; lia]).
      now apply IH. }
    destruct Htail as [Hall Hlen].
    assert (Heq :
              match fst (plotTemperatureProbe tk simulation outDirPath
                           outFileName outFilePath_ interactive figSize probe) with
              | Done r =>
                  figures_created
                    (match r with
                     | Next figSize' =>
                         temperature_loop tk simulation outDirPath outFileName
                           outFilePath_ interactive rest figSize'
                     | Return => ret tt
                     end)
              | Raised _ => []
              end
              = match fst (plotTemperatureProbe tk simulation outDirPath
                             outFileName outFilePath_ interactive figSize
                             probe) with
                | Done (Next figSize') =>
                    figures_created
                      (temperature_loop tk simulation outDirPath outFileName
                         outFilePath_ interactive rest figSize')
                | _ => []
                end)
      by (destruct (fst (plotTemperatureProbe _ _ _ _ _ _ _ _)) as [[? |] | ?];
          reflexivity).
    rewrite Heq. clear Heq.
    destruct (temperature_probe_figure tk simulation outDirPath outFileName
                outFilePath_ interactive figSize probe) as [-> | (Hvalid & size & ->)].
    + split; [exact Hall | cbn [List.length app]; lia].
    + split.
      * constructor; [| exact Hall]. split.
        -- now apply valid_numcuts_range.
        -- exists probe. split; [apply Hin; now left | reflexivity].
      * cbn [List.length]. lia.
Qed.

(** X12.  The figures are few and of known shape.  [plotMediaDensityCuts]
    creates figures of two columns and of the size it was given, and at most
    nine for each probe of its types.  [plotTemperatureCuts] creates at most
    one figure for each probe of its types, with one column for each file
    of the probe, which are one, two or three. *)
Theorem figures_are_few_and_of_known_shape
  (tk : Toolkit) (simulation : Simulation) (decades : Z)
  (outDirPath outFileName outFilePath_ : option string)
  (figSize : Q * Q) (figSize' : option (Q * Q)) (interactive : option bool) :
  let density :=
    plotMediaDensityCuts tk simulation decades outDirPath figSize interactive in
  let temperature :=
    plotTemperatureCuts tk simulation outDirPath outFileName outFilePath_
                        interactive figSize' in
  (Forall (fun fig => fig = (2%nat, figSize)) (figures_created density) /\
   (List.length (figures_created density)
    <= 9 * List.length
             (filter (fun probe => str_in (probe_type probe) density_probe_types)
                     (probes simulation)))%nat)
  /\
  (Forall (temperature_figure simulation) (figures_created temperature) /\
   (List.length (figures_created temperature)
    <= List.length
         (filter (fun probe => str_in (probe_type probe) probetypes)
                 (probes simulation)))%nat).
Proof.
  intros density temperature.
  assert (Hcut : forall probe medium cut,
             Forall (fun fig => fig = (2%nat, figSize))
                    (figures_created
                       (plotMediaDensityCut tk simulation decades outDirPath
                                            figSize interactive probe medium cut))
             /\
             (List.length
                (figures_created
                   (plotMediaDensityCut tk simulation decades outDirPath
                                        figSize interactive probe medium cut))
              <= 1)%nat).
  { intros probe medium cut.
    destruct (density_cut_figure tk simulation decades outDirPath figSize
                interactive probe medium cut) as [-> | ->];
      split; repeat constructor. }
  split; split.
  - unfold density, plotMediaDensityCuts.
    repeat (apply figures_for_each_all; intros ? _). apply Hcut.
  - unfold density, plotMediaDensityCuts.
    apply (figures_for_each_le _ _ 9). intros probe.
    change 9%nat with (3 * List.length density_media)%nat.
    apply figures_for_each_le. intros medium.
    change 3%nat with (1 * List.length density_cuts)%nat.
    apply figures_for_each_le. intros cut. apply Hcut.
  - unfold temperature, plotTemperatureCuts. apply temperature_loop_figures.
    intros probe Hprobe. now apply filter_In in Hprobe.
  - unfold temperature, plotTemperatureCuts. apply temperature_loop_figures.
    intros probe Hprobe. now apply filter_In in Hprobe.
Qed.

(* ----------------------------------------------------------------- *)
(** ** The cut and the medium of a temperature figure *)

Lemma rfind_app (c : ascii) (s1 s2 : string) :
  rfind c (s1 ++ s2)%string
  = match rfind c s2 with
    | Some i => Some (String.length s1 + i)%nat
    | None => rfind c s1
    end.
Proof.
  induction s1 as [| a s1 IH]; cbn [String.append rfind String.length].
  - destruct (rfind c s2); reflexivity.
  - rewrite IH. destruct (rfind c s2); reflexivity.
Qed.

Lemma length_append (s1 s2 : string) :
  String.length (s1 ++ s2)%string = (String.length s1 + String.length s2)%nat.
Proof. induction s1 as [| a s1 IH]; cbn; [reflexivity | now rewrite IH]. Qed.

Lemma substring_append (s1 s2 : string) :
  String.substring 0 (String.length s1) (s1 ++ s2)%string = s1.
Proof.
  induction s1 as [| a s1 IH]; cbn [String.append String.length String.substring].
  - destruct s2; reflexivity.
  - now rewrite IH.
Qed.

Lemma string_append_assoc (s1 s2 s3 : string) :
  ((s1 ++ s2) ++ s3 = s1 ++ (s2 ++ s3))%string.
Proof. induction s1 as [| a s1 IH]; cbn; [reflexivity | now rewrite IH]. Qed.

(** The stem of a name that ends in a suffix without a dot. *)
Lemma stem_of_suffixed (dir : Path) (base ext : string) :
  base <> "" -> ext <> "" -> rfind "."%char ext = None ->
  stem (joinpath dir (base ++ "." ++ ext)%string) = base.
Proof.
  intros Hbase Hext Hdot. unfold stem, name, joinpath. cbn [parts].
  rewrite last_last, rfind_app.
  cbn [String.append rfind]. rewrite Hdot. cbn [Ascii.eqb Bool.eqb andb].
  rewrite Nat.add_0_r, length_append.
  cbn [String.length].
  assert (H1 : (0 <? String.length base)%nat = true)
    by (apply Nat.ltb_lt; destruct base; [easy | cbn; lia]).
  assert (H2 : (String.length base <? String.length base + S (String.length ext) - 1)%nat
               = true)
    by (apply Nat.ltb_lt; destruct ext; [easy | cbn; lia]).
  rewrite H1, H2. cbn [andb]. apply substring_append.
Qed.

Lemma split_not_nil (c : ascii) (s : string) : split c s <> [].
Proof.
  destruct s as [| a s]; cbn [split]; [discriminate|].
  destruct (Ascii.eqb a c); [discriminate|].
  destruct (split c s); discriminate.
Qed.

Lemma split_without (c : ascii) (s : string) :
  rfind c s = None -> split c s = [s].
Proof.
  induction s as [| a s IH]; cbn [rfind split]; [reflexivity|].
  destruct (rfind c s); [discriminate|].
  destruct (Ascii.eqb a c); [discriminate|]. intros _. now rewrite IH.
Qed.

Lemma split_app (c : ascii) (s1 s2 : string) :
  exists front,
    split c (s1 ++ String c s2)%string = front ++ split c s2 /\ front <> [].
Proof.
  induction s1 as [| a s1 (front & IH & Hfront)]; cbn [String.append split].
  - rewrite Ascii.eqb_refl. exists [""]. split; [reflexivity | discriminate].
  - rewrite IH. destruct (Ascii.eqb a c).
    + exists ("" :: front). split; [reflexivity | discriminate].
    + destruct front as [| h t]; [easy|]. cbn [app].
      exists (String a h :: t). split; [reflexivity | discriminate].
Qed.

Lemma last_app_not_nil {A : Type} (l1 l2 : list A) (d : A) :
  l2 <> [] -> last (l1 ++ l2) d = last l2 d.
Proof.
  intros H. induction l1 as [| x l1 IH]; [reflexivity|].
  cbn [app]. destruct (l1 ++ l2) eqn:E.
  - apply app_eq_nil in E. now destruct E.
  - cbn [last]. cbn [last] in IH. exact IH.
Qed.

(** X13.  The cut of a temperature figure is read off the file name: for a
    file [<base>_<cut>.<ext>], where the cut holds no underscore and the
    suffix no dot, it is [<cut>], whatever the directory and the base. *)
Theorem cut_is_read_off_the_file_name (dir : Path) (base cut ext : string) :
  rfind "_"%char cut = None -> rfind "."%char ext = None -> ext <> "" ->
  cut_of (joinpath dir (base ++ "_" ++ cut ++ "." ++ ext)%string) = cut.
Proof.
  intros Hcut Hdot Hext. unfold cut_of.
  rewrite <- (string_append_assoc "_" cut ("." ++ ext)).
  rewrite <- (string_append_assoc base ("_" ++ cut) ("." ++ ext)).
  rewrite stem_of_suffixed by (auto; destruct base; discriminate).
  destruct (split_app "_"%char base cut) as (front & Hsplit & Hfront).
  change (base ++ "_" ++ cut)%string with (base ++ String "_"%char cut)%string.
  rewrite Hsplit, last_app_not_nil by apply split_not_nil.
  now rewrite split_without.
Qed.

Lemma cut_is_read_off_the_file_name_witness :
  cut_of (Demo.out_file "tmp_dust_T_xy.fits") = "xy".
Proof.
  apply (cut_is_read_off_the_file_name Demo.out_dir "sim_tmp_dust_T" "xy" "fits");
    [reflexivity | reflexivity | discriminate].
Defined.

(** X14.  A probe that [plotTemperatureCuts] takes up has one of six types,
    [Default] or [Planar] followed by [Dust], [Gas] or [Electron], and gets
    the medium [dust], [gas] or [elec] accordingly, for the pattern of its
    files and for the name of its figure. *)
Theorem medium_follows_the_probe_type (probe : Probe) :
  str_in (probe_type probe) probetypes = true ->
  exists style medium,
    In style ["Default"; "Planar"] /\
    In (medium, probe_medium probe)
       [("Dust", "dust"); ("Gas", "gas"); ("Electron", "elec")] /\
    probe_type probe = (style ++ medium ++ "TemperatureCutsProbe")%string.
Proof.
  intros H. unfold str_in in H. apply existsb_exists in H.
  destruct H as (type & Htype & Heq). apply String.eqb_eq in Heq. subst type.
  unfold probe_medium. cbn in Htype.
  destruct Htype as [H | [H | [H | [H | [H | [H | []]]]]]]; rewrite <- H.
  - exists "Default", "Dust". cbn. auto.
  - exists "Default", "Gas". cbn. auto.
  - exists "Default", "Electron". cbn. auto 6.
  - exists "Planar", "Dust". cbn. auto.
  - exists "Planar", "Gas". cbn. auto.
  - exists "Planar", "Electron". cbn. auto 6.
Qed.

Lemma medium_follows_the_probe_type_witness :
  exists style medium,
    In style ["Default"; "Planar"] /\
    In (medium, probe_medium Demo.two)
       [("Dust", "dust"); ("Gas", "gas"); ("Electron", "elec")] /\
    probe_type Demo.two = (style ++ medium ++ "TemperatureCutsProbe")%string.
Proof. apply (medium_follows_the_probe_type Demo.two). reflexivity. Defined.

(* ----------------------------------------------------------------- *)
(** ** What one temperature probe leaves to the next *)

Lemma bind_ext_done {A B : Type} (m : Py A) (k k' : A -> Py B) :
  (forall a, fst m = Done a -> k a = k' a) -> bind m k = bind m k'.
Proof.
  intros H. destruct m as [[a | e] t]; cbn [bind]; [| reflexivity].
  now rewrite (H a eq_refl).
Qed.

Lemma temperature_probe_goes_on
  (tk : Toolkit) (simulation : Simulation)
  (outDirPath outFileName outFilePath_ : option string)
  (interactive : option bool) (size : Q * Q) (probe : Probe) :
  valid_numcuts
    (List.length (outFilePaths probe (probe_medium probe ++ "_T_*.fits")%string))
  = true ->
  yields (Next (Some size))
         (plotTemperatureProbe tk simulation outDirPath outFileName outFilePath_
                               interactive (Some size) probe).
Proof.
  intros Hvalid. unfold plotTemperatureProbe. rewrite Hvalid. cbn [negb].
  repeat (apply yields_bind; intros ?). apply yields_ret.
Qed.

Lemma temperature_loop_app
  (tk : Toolkit) (simulation : Simulation)
  (outDirPath outFileName outFilePath_ : option string)
  (interactive : option bool) (size : Q * Q) (front rest : list Probe) :
  (forall probe,
      In probe front ->
      valid_numcuts
        (List.length (outFilePaths probe (probe_medium probe ++ "_T_*.fits")%string))
      = true) ->
  temperature_loop tk simulation outDirPath outFileName outFilePath_ interactive
                   (front ++ rest) (Some size)
  = (temperature_loop tk simulation outDirPath outFileName outFilePath_
                      interactive front (Some size) ;;
     temperature_loop tk simulation outDirPath outFileName outFilePath_
                      interactive rest (Some size)).
Proof.
  induction front as [| probe front IH]; intros Hvalid; cbn [app temperature_loop].
  - now rewrite bind_ret.
  - rewrite bind_assoc. apply bind_ext_done. intros r Hr.
    apply (temperature_probe_goes_on tk simulation outDirPath outFileName
             outFilePath_ interactive size probe) in Hr;
      [| apply Hvalid; now left].
    subst r. apply IH. intros p Hp. apply Hvalid. now right.
Qed.

(** X15.  What [plotTemperatureCuts] carries from one probe to the next is
    the figure size and the return: called with a figure size, where the
    probes of its types at the front of a list have one to three files each,
    its run over the list is its run over the front followed by its run over
    the rest. *)
Theorem temperature_cuts_run_probe_by_probe
  (tk : Toolkit) (outFilePath : string -> Path)
  (outDirPath outFileName outFilePath_ : option string)
  (interactive : option bool) (size : Q * Q) (front rest : list Probe) :
  (forall probe,
      In probe front ->
      str_in (probe_type probe) probetypes = true ->
      valid_numcuts
        (List.length (outFilePaths probe (probe_medium probe ++ "_T_*.fits")%string))
      = true) ->
  plotTemperatureCuts tk (mkSimulation (front ++ rest) outFilePath)
                      outDirPath outFileName outFilePath_ interactive (Some size)
  = (plotTemperatureCuts tk (mkSimulation front outFilePath)
                         outDirPath outFileName outFilePath_ interactive (Some size) ;;
     plotTemperatureCuts tk (mkSimulation rest outFilePath)
                         outDirPath outFileName outFilePath_ interactive (Some size)).
Proof.
  intros Hvalid. unfold plotTemperatureCuts. cbn [probes].
  rewrite filter_app.
  rewrite (temperature_loop_simulation tk
             (mkSimulation (front ++ rest) outFilePath)
             (mkSimulation front outFilePath)) by reflexivity.
  rewrite temperature_loop_app.
  - apply bind_ext. intros _. now apply temperature_loop_simulation.
  - intros probe Hprobe. apply filter_In in Hprobe. now apply Hvalid.
Qed.

Lemma temperature_cuts_run_probe_by_probe_witness :
  plotTemperatureCuts (Demo.toolkit false)
                      (mkSimulation ([Demo.tmp] ++ [Demo.two]) Demo.out_file)
                      None None None None (Some (8, 6))
  = (plotTemperatureCuts (Demo.toolkit false)
                         (mkSimulation [Demo.tmp] Demo.out_file)
                         None None None None (Some (8, 6)) ;;
     plotTemperatureCuts (Demo.toolkit false)
                         (mkSimulation [Demo.two] Demo.out_file)
                         None None None None (Some (8, 6))).
Proof.
  apply (temperature_cuts_run_probe_by_probe
           (Demo.toolkit false) Demo.out_file None None None None (8, 6)
           [Demo.tmp] [Demo.two]).
  intros probe [<- | []] _. reflexivity.
Defined.

(* ----------------------------------------------------------------- *)
(** ** The panels of a figure *)

Lemma shows_none_no_panel {A : Type} (m : Py A) :
  emits shows_none m -> panels_drawn m = [].
Proof.
  unfold emits, panels_drawn. induction 1 as [| ev t Hev _ IH]; cbn [flat_map].
  - reflexivity.
  - destruct ev; try exact IH. destruct Hev.
Qed.

Lemma panels_bind {A B : Type} (m : Py A) (k : A -> Py B) :
  panels_drawn (bind m k)
  = panels_drawn m
    ++ match fst m with Done a => panels_drawn (k a) | Raised _ => [] end.
Proof.
  unfold panels_drawn. rewrite trace_bind, flat_map_app.
  now destruct (fst m).
Qed.

Lemma panels_bind_quiet {A B : Type} (m : Py A) (k : A -> Py B) :
  trace m = [] ->
  panels_drawn (bind m k)
  = match fst m with Done a => panels_drawn (k a) | Raised _ => [] end.
Proof.
  intros H. rewrite panels_bind. unfold panels_drawn at 1. now rewrite H.
Qed.

Lemma fst_bind_raised {A B : Type} (m : Py A) (k : A -> Py B) (e : exn) :
  fst m = Raised e -> fst (bind m k) = Raised e.
Proof.
  destruct m as [[a | e'] t]; cbn [fst bind]; intros H; [discriminate|].
  cbn [fst]. congruence.
Qed.

(** A panel draws its image, or ends by an exception before it does. *)
Lemma temperature_panel_drawn (tk : Toolkit) (Tmax : Q) (ax : nat) item :
  (panels_drawn (plotTemperaturePanel tk Tmax (ax, item)) = [ax] \/
   (panels_drawn (plotTemperaturePanel tk Tmax (ax, item)) = [] /\
    exists e, fst (plotTemperaturePanel tk Tmax (ax, item)) = Raised e)).
Proof.
  destruct item as [cut [frame [xgrid ygrid]]]. unfold plotTemperaturePanel.
  repeat match goal with
         | |- context [panels_drawn (bind (call ?r) _)] =>
             destruct r; cbn [call];
             [right; split; [reflexivity | eexists; reflexivity]
             | rewrite bind_ret]
         end.
  left. rewrite panels_bind.
  match goal with
  | |- context [emit (Imshow ?a ?d ?s ?x)] =>
      change (panels_drawn (emit (Imshow a d s x))) with [a]
  end.
  cbn [emit fst app]. apply f_equal. apply shows_none_no_panel.
  script_calls ltac:(exact I).
Qed.

Lemma temperature_panels_drawn (tk : Toolkit) (Tmax : Q) (n : nat) :
  forall (first : nat) (items : list (string * (Frame * (Grid * Grid)))),
  exists k,
    (k <= Nat.min n (List.length items))%nat /\
    panels_drawn (for_each (combine (seq first n) items)
                           (plotTemperaturePanel tk Tmax))
    = seq first k /\
    (fst (for_each (combine (seq first n) items) (plotTemperaturePanel tk Tmax))
     = Done tt ->
     k = Nat.min n (List.length items)).
Proof.
  induction n as [| n IH]; intros first items.
  - exists 0%nat. repeat split; cbn; lia.
  - destruct items as [| item items].
    + exists 0%nat. repeat split; cbn; lia.
    + cbn [seq combine for_each List.length]. rewrite panels_bind.
      destruct (IH (S first) items) as (k & Hk & Hpanels & Hdone).
      destruct (temperature_panel_drawn tk Tmax first item)
        as [Hpanel | (Hpanel & e & He)]; rewrite Hpanel.
      * destruct (fst (plotTemperaturePanel tk Tmax (first, item)))
          as [[] | e] eqn:Hfst.
        -- exists (S k). rewrite Hpanels.
           split; [lia|]. split; [reflexivity|].
           intros H. rewrite (fst_bind_done _ _ tt Hfst) in H.
           specialize (Hdone H). lia.
        -- exists 1%nat. split; [lia|]. split; [reflexivity|].
           intros H. rewrite (fst_bind_raised _ _ e Hfst) in H. discriminate.
      * rewrite He. exists 0%nat. split; [lia|]. split; [reflexivity|].
        intros H. rewrite (fst_bind_raised _ _ e He) in H. discriminate.
Qed.

(** X16.  In a temperature figure the panels are drawn from the left, one
    image each and in the order of the files: at any end of the loop body
    the images drawn are on the axes [0 .. k-1] for some [k] up to the
    number of files, and at a normal end on all [numcuts] axes. *)
Theorem temperature_panels_are_drawn_in_order
  (tk : Toolkit) (simulation : Simulation)
  (outDirPath outFileName outFilePath_ : option string)
  (interactive : option bool) (figSize : option (Q * Q)) (probe : Probe) :
  let numcuts :=
    List.length (outFilePaths probe (probe_medium probe ++ "_T_*.fits")%string) in
  let body :=
    plotTemperatureProbe tk simulation outDirPath outFileName outFilePath_
                         interactive figSize probe in
  exists k,
    (k <= numcuts)%nat /\
    panels_drawn body = seq 0 k /\
    (forall figSize', fst body = Done (Next figSize') -> k = numcuts).
Proof.
  intros numcuts body. unfold body, plotTemperatureProbe. fold numcuts.
  set (paths := outFilePaths probe (probe_medium probe ++ "_T_*.fits")%string) in *.
  destruct (negb (valid_numcuts numcuts)).
  { exists 0%nat. repeat split; [lia | discriminate]. }
  (* the frames and the grids *)
  rewrite panels_bind_quiet by apply comprehension_quiet.
  destruct (comprehension (fun path => call (loadFits tk path)) paths)
    as [[frames | e] t] eqn:Hframes; cbn [fst];
    [| exists 0%nat; repeat split; [lia | discriminate]].
  pose proof (comprehension_done (loadFits tk) paths frames) as Hf.
  rewrite Hframes in Hf. specialize (Hf eq_refl). apply Forall2_length in Hf.
  pose proof (comprehension_quiet (loadFits tk) paths) as Hq.
  rewrite Hframes in Hq. cbn [trace snd] in Hq. subst t.
  change (Done frames, @nil event) with (ret frames). rewrite bind_ret.
  rewrite panels_bind_quiet by apply comprehension_quiet.
  destruct (comprehension (fun path => call (getFitsAxes tk path)) paths)
    as [[grids | e] t] eqn:Hgrids; cbn [fst];
    [| exists 0%nat; repeat split; [lia | discriminate]].
  pose proof (comprehension_done (getFitsAxes tk) paths grids) as Hg.
  rewrite Hgrids in Hg. specialize (Hg eq_refl). apply Forall2_length in Hg.
  pose proof (comprehension_quiet (getFitsAxes tk) paths) as Hq.
  rewrite Hgrids in Hq. cbn [trace snd] in Hq. subst t.
  change (Done grids, @nil event) with (ret grids). rewrite bind_ret.
  (* the maxima *)
  rewrite panels_bind_quiet by apply comprehension_quiet.
  destruct (comprehension (fun frame => call (frame_max frame)) frames)
    as [[maxima | e] t] eqn:Hmaxima; cbn [fst];
    [| exists 0%nat; repeat split; [lia | discriminate]].
  pose proof (comprehension_quiet frame_max frames) as Hq.
  rewrite Hmaxima in Hq. cbn [trace snd] in Hq. subst t.
  change (Done maxima, @nil event) with (ret maxima). rewrite bind_ret.
  destruct (max_list maxima) as [e | Tmax]; cbn [call];
    [exists 0%nat; repeat split; [lia | discriminate]|].
  rewrite bind_ret, panels_bind.
  match goal with
  | |- context [emit (Subplots ?n ?size)] =>
      change (panels_drawn (emit (Subplots n size))) with (@nil nat)
  end.
  cbn [emit fst app]. rewrite fst_bind_emit.
  (* the panels *)
  rewrite panels_bind.
  destruct (temperature_panels_drawn tk Tmax numcuts 0
              (combine (map (fun path => last (split "_"%char (stem path)) "") paths)
                       (combine frames grids)))
    as (k & Hk & Hpanels & Hdone).
  rewrite !length_combine, length_map in Hk, Hdone.
  fold numcuts in Hf, Hg. rewrite <- Hf, <- Hg in Hk, Hdone.
  rewrite !Nat.min_id in Hk, Hdone.
  exists k. split; [exact Hk|]. rewrite Hpanels.
  destruct (fst (for_each _ (plotTemperaturePanel tk Tmax))) as [[] | e] eqn:Hfst.
  - split.
    + rewrite (shows_none_no_panel _); [now rewrite app_nil_r|].
      script_calls ltac:(exact I).
    + intros figSize' _. now apply Hdone.
  - split; [now rewrite app_nil_r|].
    intros figSize' H.
    rewrite (fst_bind_raised _ _ e Hfst) in H. discriminate.
Qed.

(* ================================================================= *)
(** * What holds of every failure, and of every file *)

(* ----------------------------------------------------------------- *)
(** ** A call that fails, wherever it is made *)

Section CutShort.

Variable e0 : exn.

Lemma cut_short_refl {A : Type} (m : Py A) : cut_short_by e0 m m.
Proof. now left. Qed.

Lemma cut_short_call {A : Type} (r' r : exn + A) :
  r' = r \/ r' = inl e0 -> cut_short_by e0 (call r') (call r).
Proof.
  intros [-> | ->]; [now left|].
  right. exists [], (trace (call r)). split; reflexivity.
Qed.

Lemma cut_short_bind {A B : Type} (m' m : Py A) (k' k : A -> Py B) :
  cut_short_by e0 m' m ->
  (forall a, cut_short_by e0 (k' a) (k a)) ->
  cut_short_by e0 (bind m' k') (bind m k).
Proof.
  intros [-> | (t & rest & -> & Ht)] Hk.
  - destruct m as [[a | e] t]; cbn [bind]; [| now left].
    destruct (Hk a) as [-> | (t' & rest & -> & Ht')]; [now left|].
    right. exists (t ++ t'), rest. split; [reflexivity|].
    destruct (k a) as [r t'']. cbn [trace snd] in *. subst t''.
    now rewrite app_assoc.
  - right. exists t. eexists. split; [reflexivity|].
    rewrite trace_bind, Ht, <- app_assoc. reflexivity.
Qed.

Lemma cut_short_for_each {A : Type} (l : list A) (body' body : A -> Py unit) :
  (forall x, cut_short_by e0 (body' x) (body x)) ->
  cut_short_by e0 (for_each l body') (for_each l body).
Proof.
  intros H. induction l as [| x l IH]; cbn [for_each].
  - apply cut_short_refl.
  - apply cut_short_bind; [apply H | intros _; exact IH].
Qed.

Lemma cut_short_comprehension {A B : Type} (f' f : A -> exn + B) (l : list A) :
  (forall x, f' x = f x \/ f' x = inl e0) ->
  cut_short_by e0 (comprehension (fun x => call (f' x)) l)
               (comprehension (fun x => call (f x)) l).
Proof.
  intros H. induction l as [| x l IH]; cbn [comprehension].
  - apply cut_short_refl.
  - apply cut_short_bind; [apply cut_short_call, H|]. intros y.
    apply cut_short_bind; [exact IH|]. intros ys. apply cut_short_refl.
Qed.

Lemma cut_short_savefig (tk' tk : Toolkit) (path : Path) :
  savefig_error tk' path = savefig_error tk path \/
  savefig_error tk' path = Some e0 ->
  cut_short_by e0 (savefig tk' path) (savefig tk path).
Proof.
  unfold savefig. intros [-> | ->]; [now left|].
  right. exists []. eexists. split; reflexivity.
Qed.

End CutShort.

(** Takes a script apart into its calls, as to the calls that fail in one
    of two runs only. *)
Ltac script_cut_short :=
  repeat first
    [ apply cut_short_refl
    | apply cut_short_call; solve [auto]
    | apply cut_short_savefig; solve [auto]
    | apply cut_short_comprehension; solve [auto]
    | apply cut_short_bind; [| intros ?]
    | match goal with
      | |- cut_short_by _ (let (_, _) := ?x in _) _ => destruct x
      | |- cut_short_by _ (if ?c then _ else _) _ => destruct c
      end ].

Section FailsMore.

Variables tk' tk : Toolkit.
Variable e0 : exn.
Hypothesis Hfails : fails_more e0 tk' tk.

Variable simulation : Simulation.
Variables outDirPath outFileName outFilePath_ : option string.
Variable interactive : option bool.

Lemma density_cut_cut_short
  (decades : Z) (figSize : Q * Q) (probe : Probe) (medium cut : string) :
  cut_short_by e0
    (plotMediaDensityCut tk' simulation decades outDirPath figSize interactive
                         probe medium cut)
    (plotMediaDensityCut tk simulation decades outDirPath figSize interactive
                         probe medium cut).
Proof.
  destruct Hfails as (Hload & Hgrid & Hlatex & Hmode & Hsave & Hwrite & Hdiv & Hbar).
  unfold plotMediaDensityCut. rewrite Hlatex, Hmode, Hbar.
  script_cut_short.
Qed.

Lemma temperature_panel_same : plotTemperaturePanel tk' = plotTemperaturePanel tk.
Proof.
  destruct Hfails as (_ & _ & Hlatex & _).
  unfold plotTemperaturePanel. now rewrite Hlatex.
Qed.

Lemma temperature_probe_cut_short (figSize : option (Q * Q)) (probe : Probe) :
  cut_short_by e0
    (plotTemperatureProbe tk' simulation outDirPath outFileName outFilePath_
                          interactive figSize probe)
    (plotTemperatureProbe tk simulation outDirPath outFileName outFilePath_
                          interactive figSize probe).
Proof.
  pose proof temperature_panel_same as Hpanel.
  destruct Hfails as (Hload & Hgrid & Hlatex & Hmode & Hsave & Hwrite & Hdiv & Hbar).
  unfold plotTemperatureProbe. rewrite Hlatex, Hmode, Hpanel.
  script_cut_short.
Qed.

Lemma temperature_loop_cut_short (probes : list Probe) :
  forall figSize,
    cut_short_by e0
      (temperature_loop tk' simulation outDirPath outFileName outFilePath_
                        interactive probes figSize)
      (temperature_loop tk simulation outDirPath outFileName outFilePath_
                        interactive probes figSize).
Proof.
  induction probes as [| probe rest IH]; intros figSize; cbn [temperature_loop].
  - apply cut_short_refl.
  - apply cut_short_bind; [apply temperature_probe_cut_short|].
    intros [figSize' |]; [apply IH | apply cut_short_refl].
Qed.

End FailsMore.

Lemma with_unreadable_fails_more
  (tk : Toolkit) (unreadable : Path -> bool) (e0 : exn) :
  fails_more e0 (with_unreadable tk unreadable e0) tk.
Proof.
  repeat split; intros; cbn; auto.
  destruct (unreadable path); auto.
Qed.



(* ----------------------------------------------------------------- *)
(** ** The figure saved and the name of its file *)

(** *** A run that ends normally, taken apart *)

Lemma bind_done_inv {A B : Type} (m : Py A) (k : A -> Py B) (b : B)
      (t : list event) :
  bind m k = (Done b, t) ->
  exists a t1 t2, m = (Done a, t1) /\ k a = (Done b, t2) /\ t = t1 ++ t2.
Proof.
  destruct m as [[a | e] t1]; cbn [bind]; [| discriminate].
  destruct (k a) as [r t2] eqn:E. intros H. injection H as -> <-.
  exists a, t1, t2. auto.
Qed.

Lemma call_done_inv {A : Type} (r : exn + A) (a : A) (t : list event) :
  call r = (Done a, t) -> r = inr a /\ t = [].
Proof.
  destruct r as [e | a']; cbn [call]; intros H; [discriminate|].
  unfold ret in H. injection H as -> <-. auto.
Qed.

Lemma emit_done_inv (ev : event) (u : unit) (t : list event) :
  emit ev = (Done u, t) -> t = [ev].
Proof. unfold emit. intros H. now injection H as _ <-. Qed.

Lemma ret_done_inv {A : Type} (a b : A) (t : list event) :
  ret a = (Done b, t) -> a = b /\ t = [].
Proof. unfold ret. intros H. injection H as -> <-. auto. Qed.

Lemma savefig_done_inv (tk : Toolkit) (path : Path) (u : unit) (t : list event) :
  savefig tk path = (Done u, t) ->
  savefig_error tk path = None /\ t = [Savefig path].
Proof.
  unfold savefig. destruct (savefig_error tk path); [discriminate|].
  intros H. apply emit_done_inv in H. auto.
Qed.

(** Takes a run that ended normally apart into the calls it made. *)
Ltac invert_run :=
  repeat match goal with
    | H : bind _ _ = (Done _, _) |- _ =>
        let a := fresh "a" in
        let t1 := fresh "t" in
        let t2 := fresh "t" in
        let H1 := fresh "Hrun" in
        let H2 := fresh "Hrun" in
        apply bind_done_inv in H;
        destruct H as (a & t1 & t2 & H1 & H2 & ->);
        cbv beta iota zeta in H2
    | H : call _ = (Done _, _) |- _ =>
        apply call_done_inv in H; destruct H as [H ->]
    | H : emit _ = (Done _, _) |- _ =>
        apply emit_done_inv in H; subst
    | H : savefig _ _ = (Done _, _) |- _ =>
        apply savefig_done_inv in H; destruct H as [H ->]
    | H : ret _ = (Done _, _) |- _ =>
        apply ret_done_inv in H; destruct H as [H ->]
    | u : unit |- _ => destruct u
    | H : (let (_, _) := ?x in _) = (Done _, _) |- _ =>
        destruct x; cbv beta iota zeta in H
    end.

(** *** One pass of [plotMediaDensityCuts] *)

Section DensityPass.

Variable tk : Toolkit.
Variable simulation : Simulation.
Variable decades : Z.
Variable outDirPath : option string.
Variable figSize : Q * Q.
Variable interactive : option bool.
Variable probe : Probe.
Variables medium cut : string.

Let pass := plotMediaDensityCut tk simulation decades outDirPath figSize
                                interactive probe medium cut.

Lemma density_pass_saved_as :
  emits (saved_as tk
           (outFilePath simulation
              (convention_name (probe_name probe) medium cut "pdf"))
           outDirPath None None)
        pass.
Proof.
  unfold pass, plotMediaDensityCut.
  destruct (_ && _); [| apply emits_ret].
  repeat (apply emits_bind;
          [first [apply emits_call | apply emits_emit; intros ? ?; discriminate]
          | intros ?]).
  match goal with |- emits _ (let (_, _) := ?x in _) => destruct x end.
  repeat (apply emits_bind;
          [first [apply emits_call | apply emits_emit; intros ? ?; discriminate]
          | intros ?]).
  destruct (negb _); [| apply emits_ret].
  apply emits_bind_call. intros saveFilePath Hsave.
  script_calls ltac:(
    intros ? Hev; try discriminate; inversion Hev; subst; exact Hsave).
Qed.

(** A pass that ends normally, when figures are saved, has made no call at
    all or has created one figure, drawn its two panels and written it to
    one file. *)
Lemma density_pass_saved :
  interactive_mode tk interactive = false ->
  fst pass = Done tt ->
  trace pass = [] \/
  exists path,
    savePath tk
      (outFilePath simulation (convention_name (probe_name probe) medium cut "pdf"))
      [".pdf"; ".png"] outDirPath None None
    = inr path /\
    files_written pass = [path] /\
    figures_created pass = [(2%nat, figSize)] /\
    panels_drawn pass = [0; 1]%nat.
Proof.
  intros Hmode. unfold files_written, figures_created, panels_drawn, trace.
  destruct pass as [r t] eqn:Hrun. cbn [fst snd]. intros ->.
  unfold pass, plotMediaDensityCut in Hrun. rewrite Hmode in Hrun.
  cbn [negb] in Hrun.
  destruct (_ && _) in Hrun.
  - right. invert_run. eexists. split; [eassumption|].
    repeat split.
  - left. apply ret_done_inv in Hrun. apply Hrun.
Qed.

End DensityPass.

(** *** One pass of [plotTemperatureCuts] *)

Lemma in_combine_seq {A : Type} (l : list A) (n : nat) :
  forall (first i : nat) (y : A),
    In (i, y) (combine (seq first n) l) ->
    (first <= i)%nat /\ nth_error l (i - first) = Some y.
Proof.
  revert l. induction n as [| n IH]; intros l first i y; cbn [seq combine];
    [easy|].
  destruct l as [| x l]; [easy|]. intros [H | H].
  - injection H as <- <-. rewrite Nat.sub_diag. split; [lia | reflexivity].
  - destruct (IH l (S first) i y H) as [Hle Hnth]. split; [lia|].
    replace (i - first)%nat with (S (i - S first)) by lia. exact Hnth.
Qed.

Lemma nth_error_combine {A B : Type} (l1 : list A) (l2 : list B) :
  forall (i : nat) (a : A) (b : B),
    nth_error (combine l1 l2) i = Some (a, b) ->
    nth_error l1 i = Some a /\ nth_error l2 i = Some b.
Proof.
  revert l2. induction l1 as [| x l1 IH]; intros l2 i a b; cbn [combine].
  - destruct i; discriminate.
  - destruct l2 as [| y l2]; [destruct i; discriminate|].
    destruct i as [| i]; cbn [nth_error].
    + intros H. injection H as -> ->. auto.
    + apply IH.
Qed.

Lemma Forall2_nth_error_r {A B : Type} (R : A -> B -> Prop)
      (l : list A) (l' : list B) :
  Forall2 R l l' ->
  forall i y, nth_error l' i = Some y ->
              exists x, nth_error l i = Some x /\ R x y.
Proof.
  induction 1 as [| x y l l' Hxy _ IH]; intros i z; [destruct i; discriminate|].
  destruct i as [| i]; cbn [nth_error].
  - intros H. injection H as <-. eauto.
  - apply IH.
Qed.

Lemma temperature_panel_image_at
  (tk : Toolkit) (Tmax : Q) (ax : nat) (cut : string) (frame : Frame)
  (grids : Grid * Grid) :
  emits (fun ev => forall ax' data scaling extent,
                     ev = Imshow ax' data scaling extent ->
                     ax' = ax /\
                     scaling = WithLimits 0 Tmax /\
                     data = transpose (fvalue frame))
        (plotTemperaturePanel tk Tmax (ax, (cut, (frame, grids)))).
Proof.
  destruct grids as [xgrid ygrid]. unfold plotTemperaturePanel.
  script_calls ltac:(intros ? ? ? ? Hev; try discriminate;
                     inversion Hev; subst; repeat split).
Qed.

Lemma temperature_panel_saves_none (tk : Toolkit) (Tmax : Q) item :
  emits (fun ev => is_savefig ev = false) (plotTemperaturePanel tk Tmax item).
Proof.
  destruct item as [ax [cut [frame [xgrid ygrid]]]].
  unfold plotTemperaturePanel. script_calls ltac:(reflexivity).
Qed.

Section TemperaturePass.

Variable tk : Toolkit.
Variable simulation : Simulation.
Variables outDirPath outFileName outFilePath_ : option string.
Variable interactive : option bool.
Variable figSize : option (Q * Q).
Variable probe : Probe.

Let pass := plotTemperatureProbe tk simulation outDirPath outFileName
                                 outFilePath_ interactive figSize probe.
Let numcuts :=
  List.length (outFilePaths probe (probe_medium probe ++ "_T_*.fits")%string).

Lemma temperature_pass_saved_as :
  emits (saved_as tk
           (outFilePath simulation
              (temperature_name (probe_name probe) (probe_medium probe) "pdf"))
           outDirPath outFileName outFilePath_)
        pass.
Proof.
  unfold pass, plotTemperatureProbe.
  destruct (negb (valid_numcuts _)); [apply emits_ret|].
  repeat (apply emits_bind; [| intros ?]);
    try apply emits_call; try apply emits_ret;
    try (apply emits_comprehension; intros ?; apply emits_call);
    try (apply emits_emit; intros ? ?; discriminate).
  - apply emits_for_each. intros item _.
    eapply emits_weaken; [| apply temperature_panel_saves_none].
    intros ev Hev path ->. discriminate.
  - destruct (negb _); [| apply emits_ret].
    apply emits_bind_call. intros saveFilePath Hsave.
    script_calls ltac:(
      intros ? Hev; try discriminate; inversion Hev; subst; exact Hsave).
Qed.

Lemma temperature_pass_images : emits (panel_of tk probe) pass.
Proof.
  unfold pass, plotTemperatureProbe.
  destruct (negb (valid_numcuts _)); [apply emits_ret|].
  apply emits_bind_done;
    [apply emits_comprehension; intros ?; apply emits_call|].
  intros frames Hframes. apply comprehension_done in Hframes.
  apply emits_bind; [apply emits_comprehension; intros ?; apply emits_call|].
  intros grids.
  apply emits_bind_done;
    [apply emits_comprehension; intros ?; apply emits_call|].
  intros maxima Hmaxima. apply comprehension_done in Hmaxima.
  apply emits_bind_call. intros Tmax HTmax.
  pose proof (max_list_maximum frames maxima Tmax Hmaxima HTmax) as Hmax.
  apply emits_bind; [apply emits_emit; intros ? ? ? ? ?; discriminate|].
  intros _. apply emits_bind.
  - apply emits_for_each. intros [ax [cut [frame grids']]] Hitem.
    apply in_combine_seq in Hitem. destruct Hitem as [_ Hnth].
    rewrite Nat.sub_0_r in Hnth.
    apply nth_error_combine in Hnth. destruct Hnth as [_ Hnth].
    apply nth_error_combine in Hnth. destruct Hnth as [Hnth _].
    destruct (Forall2_nth_error_r _ _ _ Hframes _ _ Hnth) as (path & Hpath & Hload).
    eapply emits_weaken; [| apply temperature_panel_image_at].
    intros ev Hev ax' data scaling extent E.
    destruct (Hev ax' data scaling extent E) as (-> & -> & ->).
    exists frames, Tmax, path, frame.
    split; [exact Hframes|]. split; [exact Hmax|].
    split; [reflexivity|]. split; [exact Hpath|].
    split; [exact Hload | reflexivity].
  - intros _.
    script_calls ltac:(intros ? ? ? ? ?; discriminate).
Qed.

(** A pass that goes on to the next probe, when figures are saved, has
    created one figure with a column for each file of the probe, drawn all
    its panels and written it to one file. *)
Lemma temperature_pass_saved :
  interactive_mode tk interactive = false ->
  forall next,
    fst pass = Done (Next next) ->
    exists path size,
      savePath tk
        (outFilePath simulation
           (temperature_name (probe_name probe) (probe_medium probe) "pdf"))
        [".pdf"; ".png"] outDirPath outFileName outFilePath_
      = inr path /\
      files_written pass = [path] /\
      figures_created pass = [(numcuts, size)] /\
      panels_drawn pass = seq 0 numcuts.
Proof.
  intros Hmode next.
  unfold files_written, figures_created, panels_drawn, trace.
  destruct pass as [r t] eqn:Hrun. cbn [fst snd]. intros ->.
  unfold pass, plotTemperatureProbe in Hrun. fold numcuts in Hrun.
  rewrite Hmode in Hrun. cbn [negb] in Hrun.
  destruct (valid_numcuts numcuts) in Hrun; cbn [negb] in Hrun;
    [| apply ret_done_inv in Hrun; destruct Hrun; discriminate].
  invert_run.
  (* the frames, the grids and the maxima are computed without a call *)
  repeat match goal with
         | H : comprehension (fun x => call (?f x)) ?l = (Done ?ys, ?t) |- _ =>
             let Hq := fresh "Hquiet" in
             let Hl := fresh "Hloaded" in
             pose proof (comprehension_quiet f l) as Hq;
             pose proof (comprehension_done f l ys) as Hl;
             rewrite H in Hq, Hl; cbn [trace snd fst] in Hq, Hl;
             specialize (Hl eq_refl); apply Forall2_length in Hl;
             subst t; clear H
         end.
  (* the panels *)
  lazymatch goal with
  | H : for_each (combine (seq 0 ?n) ?rest) (plotTemperaturePanel tk ?Tmax)
        = (Done _, ?t) |- _ =>
      assert (Hfiles : files_written
                         (for_each (combine (seq 0 n) rest)
                                   (plotTemperaturePanel tk Tmax)) = [])
        by (apply no_savefig_no_file, emits_for_each; intros ? _;
            apply temperature_panel_saves_none);
      assert (Hfigures : figures_created
                           (for_each (combine (seq 0 n) rest)
                                     (plotTemperaturePanel tk Tmax)) = [])
        by (apply creates_none_no_figure, emits_for_each; intros ? _;
            apply temperature_panel_creates_none);
      destruct (temperature_panels_drawn tk Tmax n 0 rest)
        as (k & Hk & Hpanels & Hall);
      rewrite H in Hfiles, Hfigures, Hpanels, Hall;
      unfold files_written, figures_created, panels_drawn, trace
        in Hfiles, Hfigures, Hpanels;
      cbn [fst snd] in Hfiles, Hfigures, Hpanels, Hall;
      specialize (Hall eq_refl)
  end.
  rewrite !length_combine, length_map in Hall.
  assert (Hall' : k = numcuts) by (unfold numcuts in *; lia).
  clear Hall. subst k.
  eexists. eexists. split; [eassumption|].
  repeat rewrite flat_map_app. rewrite Hfiles, Hfigures, Hpanels.
  cbn [flat_map app]. rewrite app_nil_r. repeat split.
Qed.

End TemperaturePass.

(** C2, as the code has it.  [plotMediaDensityCuts] is one pass after the
    other for the media and cuts of its probes.  In the pass for a probe, a
    medium and a cut, the images are the frames loaded for that probe,
    medium and cut, and the file, if one is written, is the one that
    [ut.savePath] derives from the simulation's output path for
    [{probeName}_{medium}_{cut}.pdf]; when figures are saved, a pass that
    ends normally having made a call has created one figure of two panels
    and written that one file.  In the pass of [plotTemperatureCuts] for a
    probe, the image on each axes is the frame loaded from the file of that
    probe at the index of the axes, and the file is the one derived from
    [{probeName}_{medium}_T.pdf]; when figures are saved, a pass that goes
    on to the next probe has created one figure with a panel for every file
    of the probe, drawn all of them, and written that one file. *)
Theorem saved_files_follow_their_convention
  (tk : Toolkit) (simulation : Simulation) (decades : Z)
  (outDirPath outFileName outFilePath_ : option string)
  (figSize : Q * Q) (interactive : option bool) :
  (plotMediaDensityCuts tk simulation decades outDirPath figSize interactive
   = for_each (density_passes simulation)
              (fun '(probe, medium, cut) =>
                 plotMediaDensityCut tk simulation decades outDirPath figSize
                                     interactive probe medium cut)
   /\
   emits (density_file_named tk simulation outDirPath)
         (plotMediaDensityCuts tk simulation decades outDirPath figSize interactive)
   /\
   forall probe medium cut,
     let pass := plotMediaDensityCut tk simulation decades outDirPath figSize
                                     interactive probe medium cut in
     let defSavePath :=
       outFilePath simulation (convention_name (probe_name probe) medium cut "pdf") in
     emits (density_image tk decades probe medium cut) pass /\
     emits (saved_as tk defSavePath outDirPath None None) pass /\
     (interactive_mode tk interactive = false ->
      fst pass = Done tt ->
      trace pass = [] \/
      exists path,
        savePath tk defSavePath [".pdf"; ".png"] outDirPath None None = inr path /\
        files_written pass = [path] /\
        figures_created pass = [(2%nat, figSize)] /\
        panels_drawn pass = [0; 1]%nat))
  /\
  ((forall figSize',
      emits (temperature_file_named tk simulation outDirPath outFileName outFilePath_)
            (plotTemperatureCuts tk simulation outDirPath outFileName outFilePath_
                                 interactive figSize'))
   /\
   forall figSize' probe,
     let pass := plotTemperatureProbe tk simulation outDirPath outFileName
                                      outFilePath_ interactive figSize' probe in
     let numcuts :=
       List.length (outFilePaths probe (probe_medium probe ++ "_T_*.fits")%string) in
     let defSavePath :=
       outFilePath simulation
         (temperature_name (probe_name probe) (probe_medium probe) "pdf") in
     emits (panel_of tk probe) pass /\
     emits (saved_as tk defSavePath outDirPath outFileName outFilePath_) pass /\
     (interactive_mode tk interactive = false ->
      forall next,
        fst pass = Done (Next next) ->
        exists path size,
          savePath tk defSavePath [".pdf"; ".png"]
                   outDirPath outFileName outFilePath_ = inr path /\
          files_written pass = [path] /\
          figures_created pass = [(numcuts, size)] /\
          panels_drawn pass = seq 0 numcuts)).
Proof.
  split; [split; [| split] | split].
  - apply density_cuts_pass_by_pass.
  - rewrite density_cuts_pass_by_pass.
    apply emits_for_each. intros [[probe medium] cut] Hpass.
    eapply emits_weaken; [| apply density_pass_saved_as].
    intros ev Hev. exists probe, medium, cut. split; [exact Hpass | exact Hev].
  - intros probe medium cut pass defSavePath. split; [| split].
    + apply density_cut_images.
    + apply density_pass_saved_as.
    + apply density_pass_saved.
  - intros figSize'. unfold plotTemperatureCuts.
    assert (Hin : forall probe,
               In probe (filter (fun probe => str_in (probe_type probe) probetypes)
                                (probes simulation)) ->
               In probe (probes simulation))
      by (intros probe H; now apply filter_In in H).
    revert figSize'.
    induction (filter _ (probes simulation)) as [| probe rest IH]; intros figSize';
      cbn [temperature_loop]; [apply emits_ret|].
    apply emits_bind.
    + eapply emits_weaken; [| apply temperature_pass_saved_as].
      intros ev Hev. exists probe. split; [apply Hin; now left | exact Hev].
    + intros [next |]; [| apply emits_ret].
      apply IH. intros p Hp. apply Hin. now right.
  - intros figSize' probe pass numcuts defSavePath. split; [| split].
    + apply temperature_pass_images.
    + apply temperature_pass_saved_as.
    + apply temperature_pass_saved.
Qed.

(** The dust cut of [dns] in the xy plane, and the two cuts of [two]. *)
Lemma saved_files_follow_their_convention_witness :
  let tk := Demo.toolkit false in
  let density_pass :=
    plotMediaDensityCut tk (Demo.simulation_of [Demo.dns]) 5 None (18, 6) None
                        Demo.dns "dust" "xy" in
  let temperature_pass :=
    plotTemperatureProbe tk (Demo.simulation_of [Demo.two]) None None None None
                         None Demo.two in
  (trace density_pass = [] \/
   exists path,
     savePath tk (Demo.out_file (convention_name "dns" "dust" "xy" "pdf"))
              [".pdf"; ".png"] None None None = inr path /\
     files_written density_pass = [path] /\
     figures_created density_pass = [(2%nat, (18, 6))] /\
     panels_drawn density_pass = [0; 1]%nat)
  /\
  (exists path size,
     savePath tk (Demo.out_file (temperature_name "two" "elec" "pdf"))
              [".pdf"; ".png"] None None None = inr path /\
     files_written temperature_pass = [path] /\
     figures_created temperature_pass = [(2%nat, size)] /\
     panels_drawn temperature_pass = seq 0 2)
  /\
  files_written density_pass = [Demo.out_file "dns_dust_xy.pdf"]
  /\
  files_written temperature_pass = [Demo.out_file "two_elec_T.pdf"].
Proof.
  intros tk density_pass temperature_pass.
  split; [| split; [| split; reflexivity]].
  - exact (proj2 (proj2 (proj2 (proj2 (proj1
             (saved_files_follow_their_convention
                tk (Demo.simulation_of [Demo.dns]) 5 None None None (18, 6) None)))
             Demo.dns "dust" "xy")) eq_refl eq_refl).
  - exact (proj2 (proj2 (proj2 (proj2
             (saved_files_follow_their_convention
                tk (Demo.simulation_of [Demo.two]) 5 None None None (18, 6) None))
             None Demo.two)) eq_refl (Some (16, 6)) eq_refl).
Defined.

(** The figure of the probe [two] shows the cuts xy and xz; it is saved as
    [two_elec_T.pdf], which is [{probeName}_{medium}_{cut}.{ext}] for none
    of the planar cuts. *)
Lemma temperature_file_name_has_no_cut :
  map (fun path => last (split "_"%char (stem path)) "")
      (outFilePaths Demo.two "elec_T_*.fits") = ["xy"; "xz"]
  /\
  files_written
    (plotTemperatureCuts (Demo.toolkit false) (Demo.simulation_of [Demo.two])
                         None None None None None)
  = [Demo.out_file "two_elec_T.pdf"]
  /\
  forall cut ext,
    In cut ["xy"; "xz"; "yz"] ->
    Demo.out_file "two_elec_T.pdf"
    <> Demo.out_file (convention_name "two" "elec" cut ext).
Proof.
  split; [reflexivity|]. split; [reflexivity|].
  intros cut ext [<- | [<- | [<- | []]]]; discriminate.
Qed.
